(** * Exception backtraces of HotSpot: capture and materialization

    A shallow embedding of the backtrace code of
    [src/hotspot/share/classfile/javaClasses.cpp]:
    [BacktraceBuilder], [BacktraceIterator],
    [java_lang_Throwable::fill_in_stack_trace],
    [java_lang_Throwable::get_stack_trace_elements] and
    [java_lang_StackTraceElement::fill_in]; and of what stands around it in
    that file: the preallocated backtraces, [get_top_method_and_bci],
    [print_stack_element_to_stream], [java_lang_StackTraceElement::create]
    and [decode], [java_lang_StackFrameInfo], the loops of
    [java_lang_ClassLoader] and [java_lang_invoke_MethodType], and of
    [java_lang_String] [create_from_unicode], [as_unicode_string],
    [char_converter] and [equals].

    Heap objects live in typed stores: a backtrace chunk is addressed by its
    position in the list of chunks, a [NULL] oop is [None].  Functions that
    take [TRAPS] are computations in a state-and-exception monad; [CHECK]
    is its bind. *)

From Stdlib Require Import ZArith String.
From stdpp Require Import base option list gmap strings.

Set Default Proof Using "Type".
Local Open Scope Z_scope.

(** ** Runtime values *)

(** A [Symbol*]: symbols are interned, so pointer equality is equality of
    the characters. *)
Definition Symbol := string.

(** An oop of one of the typed stores; [None] is [NULL]. *)
Definition oop := option nat.

Inductive exn :=
| OutOfMemoryError
| NullPointerException
| IndexOutOfBoundsException.

Module vmSymbols.
Definition fillInStackTrace_name : Symbol := "fillInStackTrace"%string.
Definition object_initializer_name : Symbol := "<init>"%string.
End vmSymbols.

(** The bci of a frame that is at the entry of a synchronized method; [push]
    documents it as "the -1 bci". *)
Definition SynchronizationEntryBCI : Z := -1.

(** "Smear the -1 bci to 0 since the array only holds unsigned shorts." *)
Definition smear (bci : Z) : Z :=
  if bci =? SynchronizationEntryBCI then 0 else bci.

(** After this many redefines, the stack trace is unreliable. *)
Definition USHRT_MAX : Z := 65535.
Definition MAX_VERSION : Z := USHRT_MAX.

(** What the code reads of an [InstanceKlass]. *)
Record InstanceKlass := {
  klass_id : nat;
  java_mirror : oop;
  external_name : Symbol;
  class_loader_name : option (option Symbol);
    (* [None]: no loader; [Some None]: a loader without a name *)
  module_is_named : bool;
  module_name : Symbol;
  module_version : option Symbol
}.

(** What the code reads of a [Method]. *)
Record Method := {
  name : Symbol;
  method_holder : InstanceKlass;
  orig_method_idnum : Z;
  constants_version : Z;          (* method->constants()->version() *)
  is_hidden : bool;
  is_native : bool
}.

(** ** Backtrace chunks

    A chunk is the object array of [trace_size] slots that [expand]
    allocates.  Its four column arrays belong to it alone, so they are
    fields of the chunk; the builder's cached [_methods], [_bcis],
    [_mirrors] and [_names] are always the columns of [_head]. *)
Record chunk := {
  c_methods : list Z;             (* trace_methods_offset: jushort[] *)
  c_bcis : list Z;                (* trace_bcis_offset: jint[] *)
  c_mirrors : list oop;           (* trace_mirrors_offset: oop[] *)
  c_names : list (option Symbol); (* trace_names_offset: Symbol*[] *)
  c_next : oop;                   (* trace_next_offset *)
  c_hidden : oop                  (* trace_hidden_offset *)
}.

Definition set_c_next (v : oop) (c : chunk) : chunk :=
  {| c_methods := c_methods c; c_bcis := c_bcis c; c_mirrors := c_mirrors c;
     c_names := c_names c; c_next := v; c_hidden := c_hidden c |}.

Definition set_c_hidden (v : oop) (c : chunk) : chunk :=
  {| c_methods := c_methods c; c_bcis := c_bcis c; c_mirrors := c_mirrors c;
     c_names := c_names c; c_next := c_next c; c_hidden := v |}.

(** The fields of a [java.lang.Throwable] that the code touches. *)
Record Throwable := {
  t_klass : nat;
  backtrace : oop;
  depth : Z;
  stackTrace : oop
}.

Definition set_backtrace (t : Throwable) (v : oop) : Throwable :=
  {| t_klass := t_klass t; backtrace := v; depth := depth t;
     stackTrace := stackTrace t |}.

Definition set_depth (t : Throwable) (v : Z) : Throwable :=
  {| t_klass := t_klass t; backtrace := backtrace t; depth := v;
     stackTrace := stackTrace t |}.

Definition set_stacktrace (t : Throwable) (v : oop) : Throwable :=
  {| t_klass := t_klass t; backtrace := backtrace t; depth := depth t;
     stackTrace := v |}.

Definition clear_stacktrace (t : Throwable) : Throwable := set_stacktrace t None.

(** A [java.lang.StackTraceElement]. *)
Record StackTraceElement := {
  declaringClass : option Symbol;
  declaringClassObject : oop;
  classLoaderName : option Symbol;
  methodName : option Symbol;
  moduleName : option Symbol;
  moduleVersion : option Symbol;
  fileName : option Symbol;
  lineNumber : Z
}.

(** ** The machine state *)
Record vm := {
  chunks : list chunk;            (* the backtrace chunks on the heap *)
  boxes : nat;                    (* java.lang.Boolean boxes allocated *)
  allocations : nat;              (* allocation requests made so far *)
  throwable : Throwable;          (* the object behind [Handle throwable] *)
  elements : list StackTraceElement;
  source_file : gmap nat Symbol;  (* java_lang_Class::source_file, per mirror *)
  pending_exception : option exn  (* of the thread, between TRAPS calls *)
}.

Definition with_chunks (s : vm) (v : list chunk) : vm :=
  {| chunks := v; boxes := boxes s; allocations := allocations s;
     throwable := throwable s; elements := elements s;
     source_file := source_file s; pending_exception := pending_exception s |}.

Definition with_boxes (s : vm) (v : nat) : vm :=
  {| chunks := chunks s; boxes := v; allocations := allocations s;
     throwable := throwable s; elements := elements s;
     source_file := source_file s; pending_exception := pending_exception s |}.

Definition with_allocations (s : vm) (v : nat) : vm :=
  {| chunks := chunks s; boxes := boxes s; allocations := v;
     throwable := throwable s; elements := elements s;
     source_file := source_file s; pending_exception := pending_exception s |}.

Definition with_throwable (s : vm) (v : Throwable) : vm :=
  {| chunks := chunks s; boxes := boxes s; allocations := allocations s;
     throwable := v; elements := elements s;
     source_file := source_file s; pending_exception := pending_exception s |}.

Definition with_elements (s : vm) (v : list StackTraceElement) : vm :=
  {| chunks := chunks s; boxes := boxes s; allocations := allocations s;
     throwable := throwable s; elements := v;
     source_file := source_file s; pending_exception := pending_exception s |}.

Definition with_source_file (s : vm) (v : gmap nat Symbol) : vm :=
  {| chunks := chunks s; boxes := boxes s; allocations := allocations s;
     throwable := throwable s; elements := elements s;
     source_file := v; pending_exception := pending_exception s |}.

Definition with_pending_exception (s : vm) (v : option exn) : vm :=
  {| chunks := chunks s; boxes := boxes s; allocations := allocations s;
     throwable := throwable s; elements := elements s;
     source_file := source_file s; pending_exception := v |}.

(** ** [TRAPS] functions

    A function with a [TRAPS] parameter either returns or leaves an
    exception pending in the thread; what it did to the heap stays done. *)
Inductive result (A : Type) :=
| Ok (a : A)
| Throw (e : exn).
Arguments Ok {A} a.
Arguments Throw {A} e.

Definition M (A : Type) : Type := vm -> result A * vm.

Definition ret {A} (a : A) : M A := fun s => (Ok a, s).

(** [x = f(..., CHECK); k] *)
Definition bind {A B} (m : M A) (k : A -> M B) : M B :=
  fun s => match m s with
           | (Ok a, s') => k a s'
           | (Throw e, s') => (Throw e, s')
           end.

Definition get : M vm := fun s => (Ok s, s).
Definition modify (f : vm -> vm) : M unit := fun s => (Ok tt, f s).

Declare Scope traps_scope.
Delimit Scope traps_scope with traps.
Notation "x <- m ;; k" := (bind m (fun x => k))
  (at level 100, m at next level, right associativity) : traps_scope.
Notation "m ;;; k" := (bind m (fun _ => k))
  (at level 100, right associativity) : traps_scope.
Local Open Scope traps_scope.

(** [jushort] conversion of an [int]. *)
Definition to_ushort (v : Z) : Z := v mod 65536.

Section Backtrace.

(** [java_lang_Throwable::trace_chunk_size], declared in javaClasses.hpp. *)
Variable trace_chunk_size : nat.

(** [Backtrace::merge_bci_and_version], [Backtrace::bci_at] and
    [Backtrace::version_at] of javaClasses.inline.hpp pack a bci and a class
    version into one [jint] and take them out again. *)
Variable merge_bci_and_version : Z -> Z -> Z.
Variable bci_at : Z -> Z.
Variable version_at : Z -> Z.

(** Whether the n-th allocation request of the run is served; a request
    that is not raises [OutOfMemoryError]. *)
Variable alloc_ok : nat -> bool.

(** [oopFactory::new_*Array(..., CHECK)], [StringTable::intern(..., CHECK)]
    and the like: one allocation request. *)
Definition allocate : M unit :=
  fun s =>
    let s' := with_allocations s (S (allocations s)) in
    if alloc_ok (allocations s) then (Ok tt, s')
    else (Throw OutOfMemoryError, s').

(** ** BacktraceBuilder *)
Record BacktraceBuilder := {
  _backtrace : oop;
  _head : oop;
  _has_hidden_top_frame : oop;
  _index : nat
}.

(** The chunk a fresh [expand] links in: zeroed arrays of
    [trace_chunk_size] entries, no next chunk, no hidden marker. *)
Definition new_chunk : chunk :=
  {| c_methods := replicate trace_chunk_size 0;
     c_bcis := replicate trace_chunk_size 0;
     c_mirrors := replicate trace_chunk_size None;
     c_names := replicate trace_chunk_size None;
     c_next := None;
     c_hidden := None |}.

(** [obj_at_put] on a chunk; nothing is modelled for a [NULL] receiver,
    which the code never dereferences. *)
Definition chunk_put (f : chunk -> chunk) (o : oop) (cs : list chunk) : list chunk :=
  match o with
  | Some a => alter f a cs
  | None => cs
  end.

Definition expand (b : BacktraceBuilder) : M BacktraceBuilder :=
  let old_head := _head b in
  allocate ;;;                    (* head *)
  allocate ;;;                    (* methods *)
  allocate ;;;                    (* bcis *)
  allocate ;;;                    (* mirrors *)
  allocate ;;;                    (* names *)
  s <- get ;;
  let new_head := length (chunks s) in
  modify (fun s =>
    with_chunks s
      (chunk_put (set_c_next (Some new_head)) old_head (chunks s) ++ [new_chunk])) ;;;
  ret {| _backtrace := _backtrace b;
         _head := Some new_head;
         _has_hidden_top_frame := _has_hidden_top_frame b;
         _index := 0 |}.

(** Constructor for a new backtrace. *)
Definition BacktraceBuilder_new : M BacktraceBuilder :=
  b <- expand {| _backtrace := None; _head := None;
                 _has_hidden_top_frame := None; _index := 0 |} ;;
  ret {| _backtrace := _head b;
         _head := _head b;
         _has_hidden_top_frame := _has_hidden_top_frame b;
         _index := 0 |}.

(** Constructor over a preallocated backtrace. *)
Definition BacktraceBuilder_preallocated (backtrace : oop) (s : vm) : BacktraceBuilder :=
  {| _backtrace := backtrace;
     _head := backtrace;
     _has_hidden_top_frame :=
       match backtrace with
       | Some a => match chunks s !! a with
                   | Some c => c_hidden c
                   | None => None
                   end
       | None => None
       end;
     _index := 0 |}.

(** The four column writes of [push] at index [i]. *)
Definition write_frame (i : nat) (method : Method) (bci : Z) (c : chunk) : chunk :=
  {| c_methods := <[i := to_ushort (orig_method_idnum method)]> (c_methods c);
     c_bcis := <[i := merge_bci_and_version bci (constants_version method)]> (c_bcis c);
     c_mirrors := <[i := java_mirror (method_holder method)]> (c_mirrors c);
     c_names := <[i := Some (name method)]> (c_names c);
     c_next := c_next c;
     c_hidden := c_hidden c |}.

Definition push (b : BacktraceBuilder) (method : Method) (bci : Z) : M BacktraceBuilder :=
  let bci := smear bci in
  b <- (if (trace_chunk_size <=? _index b)%nat then expand b else ret b) ;;
  modify (fun s =>
    with_chunks s (chunk_put (write_frame (_index b) method bci) (_head b) (chunks s))) ;;;
  ret {| _backtrace := _backtrace b;
         _head := _head b;
         _has_hidden_top_frame := _has_hidden_top_frame b;
         _index := S (_index b) |}.

Definition set_has_hidden_top_frame (b : BacktraceBuilder) : M BacktraceBuilder :=
  match _has_hidden_top_frame b with
  | None =>
      allocate ;;;                (* java_lang_boxing_object::create *)
      s <- get ;;
      let box := Some (boxes s) in
      modify (fun s =>
        with_chunks (with_boxes s (S (boxes s)))
          (chunk_put (set_c_hidden box) (_head b) (chunks s))) ;;;
      ret {| _backtrace := _backtrace b;
             _head := _head b;
             _has_hidden_top_frame := box;
             _index := _index b |}
  | Some _ => ret b
  end.

(** ** BacktraceIterator *)
Record BacktraceElement := {
  _method_id : Z;
  _bci : Z;
  _version : Z;
  _name : option Symbol;
  _mirror : oop
}.

(** [it_columns] is the chunk whose arrays the handles [_mirrors],
    [_methods], [_bcis] and [_names] hold: [init] leaves them as they were
    when it is given a null chunk. *)
Record BacktraceIterator := {
  it_index : nat;                 (* _index *)
  it_result : oop;                (* _result *)
  it_columns : oop
}.

Definition init (it : BacktraceIterator) (result : oop) : BacktraceIterator :=
  match result with
  | Some _ => {| it_index := 0; it_result := result; it_columns := result |}
  | None => {| it_index := it_index it; it_result := None;
               it_columns := it_columns it |}
  end.

Definition BacktraceIterator_new (result : oop) : BacktraceIterator :=
  init {| it_index := 0; it_result := None; it_columns := None |} result.

(** Entry [i] of a column of the chunk at [o]; the default stands for a read
    the source does not define (null chunk, index out of range). *)
Definition column_at {A} (col : chunk -> list A) (d : A)
    (h : list chunk) (o : oop) (i : nat) : A :=
  match o with
  | Some a => match h !! a with
              | Some c => default d (col c !! i)
              | None => d
              end
  | None => d
  end.

Definition next_chunk (h : list chunk) (o : oop) : oop :=
  match o with
  | Some a => match h !! a with
              | Some c => c_next c
              | None => None
              end
  | None => None
  end.

Definition next (h : list chunk) (it : BacktraceIterator)
    : BacktraceElement * BacktraceIterator :=
  let i := it_index it in
  let e := {| _mirror := column_at c_mirrors None h (it_columns it) i;
              _method_id := column_at c_methods 0 h (it_columns it) i;
              _version := version_at (column_at c_bcis 0 h (it_columns it) i);
              _bci := bci_at (column_at c_bcis 0 h (it_columns it) i);
              _name := column_at c_names None h (it_columns it) i |} in
  let it' := {| it_index := S i; it_result := it_result it;
                it_columns := it_columns it |} in
  if (trace_chunk_size <=? S i)%nat
  then (e, init it' (next_chunk h (it_result it)))   (* Get next chunk *)
  else (e, it').

Definition repeat (h : list chunk) (it : BacktraceIterator) : bool :=
  bool_decide (it_result it <> None)
  && bool_decide (column_at c_mirrors None h (it_columns it) (it_index it) <> None).

(** [while (iter.repeat()) { bte = iter.next(THREAD); ... }]: the elements
    the loop sees, or [None] when [fuel] rounds do not reach its end. *)
Fixpoint iterate (fuel : nat) (h : list chunk) (it : BacktraceIterator)
    : option (list BacktraceElement) :=
  match fuel with
  | O => None
  | S fuel =>
      if repeat h it then
        let '(e, it') := next h it in
        cons e <$> iterate fuel h it'
      else Some []
  end.

(** ** Capture: fill_in_stack_trace *)

(** The flags [StackTraceInThrowable], [MaxJavaStackTraceDepth] and
    [ShowHiddenFrames]. *)
Variable StackTraceInThrowable : bool.
Variable MaxJavaStackTraceDepth : Z.
Variable ShowHiddenFrames : bool.

(** [Klass::is_subtype_of], on class ids. *)
Variable is_subtype_of : nat -> nat -> bool.

(** [Universe::should_fill_in_stack_trace]. *)
Variable should_fill_in_stack_trace : Throwable -> bool.

(** A physical frame of the thread, as the loop of [fill_in_stack_trace]
    tells them apart. *)
Inductive frame :=
| interpreted_frame (method : Method) (bci : Z)
| compiled_frame (nm_method : Method) (scopes : list (Method * Z))
    (* cb->is_compiled(); [scopes] is what the scope chain at
       pc_desc_at(pc)->scope_decode_offset() decodes to, innermost first *)
| other_frame.                    (* cb == NULL || !cb->is_compiled() *)

(** The (method, bci) pairs that the head of the loop body finds for one
    physical frame. *)
Definition frame_methods (fr : frame) : list (Method * Z) :=
  match fr with
  | interpreted_frame method bci => [(method, bci)]
  | compiled_frame nm_method scopes =>
      if is_native nm_method then [(nm_method, 0)] else scopes
  | other_frame => []
  end.

(** The (method, bci) pairs of a stack, innermost first. *)
Definition walk (frames : list frame) : list (Method * Z) :=
  flat_map frame_methods frames.

Record loop_state := {
  total_count : Z;
  skip_fillInStackTrace_check : bool;
  skip_throwableInit_check : bool;
  bt : BacktraceBuilder
}.

Definition is_fillInStackTrace_of (klass : nat) (method : Method) : bool :=
  String.eqb (name method) vmSymbols.fillInStackTrace_name
  && is_subtype_of klass (klass_id (method_holder method)).

Definition is_init_of (klass : nat) (method : Method) : bool :=
  String.eqb (name method) vmSymbols.object_initializer_name
  && is_subtype_of klass (klass_id (method_holder method)).

(** The filtering part of the loop body, from the comment "the format of the
    stacktrace will be" to [total_count++]; a [continue] returns the state
    for the next round. *)
Definition filter_and_push (klass : nat) (method : Method) (bci : Z)
    (ls : loop_state) : M loop_state :=
  let skip_hidden := negb ShowHiddenFrames in
  if negb (skip_fillInStackTrace_check ls) && is_fillInStackTrace_of klass method
  then ret ls
  else
    let ls := {| total_count := total_count ls;
                 skip_fillInStackTrace_check := true;  (* gone past them all *)
                 skip_throwableInit_check := skip_throwableInit_check ls;
                 bt := bt ls |} in
    if negb (skip_throwableInit_check ls) && is_init_of klass method
    then ret ls
    else
      let ls := {| total_count := total_count ls;
                   skip_fillInStackTrace_check := skip_fillInStackTrace_check ls;
                   skip_throwableInit_check := true;
                   bt := bt ls |} in
      if is_hidden method && skip_hidden then
        if total_count ls =? 0 then
          (* The top frame will be hidden from the stack trace. *)
          b <- set_has_hidden_top_frame (bt ls) ;;
          ret {| total_count := total_count ls;
                 skip_fillInStackTrace_check := skip_fillInStackTrace_check ls;
                 skip_throwableInit_check := skip_throwableInit_check ls;
                 bt := b |}
        else ret ls
      else
        b <- push (bt ls) method bci ;;
        ret {| total_count := total_count ls + 1;
               skip_fillInStackTrace_check := skip_fillInStackTrace_check ls;
               skip_throwableInit_check := skip_throwableInit_check ls;
               bt := b |}.

(** The condition of the loop:
    [max_depth == 0 || max_depth != total_count]. *)
Definition below_max_depth (max_depth : Z) (ls : loop_state) : bool :=
  (max_depth =? 0) || negb (max_depth =? total_count ls).

(** [for (frame fr = thread->last_frame(); max_depth == 0 || max_depth != total_count;)]
    over [frames], the frames of the thread from [last_frame()] up to the
    first frame, which ends the loop.  A compiled frame of Java code sets
    [decode_offset] and is then decoded scope by scope in the rounds that
    follow, the inner loop here, until [decode_offset] is 0 again; every
    round starts with the test of the condition. *)
Fixpoint capture_frames (max_depth : Z) (klass : nat) (frames : list frame)
    (ls : loop_state) {struct frames} : M loop_state :=
  if below_max_depth max_depth ls then
    match frames with
    | [] => ret ls                (* fr.is_first_frame(): break *)
    | interpreted_frame method bci :: frames =>
        ls <- filter_and_push klass method bci ls ;;
        capture_frames max_depth klass frames ls
    | other_frame :: frames =>
        capture_frames max_depth klass frames ls   (* continue *)
    | compiled_frame nm_method scopes :: frames =>
        if is_native nm_method then
          ls <- filter_and_push klass nm_method 0 ls ;;
          capture_frames max_depth klass frames ls
        else
          (fix compiled_scopes (scopes : list (Method * Z)) (ls : loop_state)
               {struct scopes} : M loop_state :=
             match scopes with
             | [] => capture_frames max_depth klass frames ls
             | (method, bci) :: scopes =>
                 if below_max_depth max_depth ls then
                   ls <- filter_and_push klass method bci ls ;;
                   compiled_scopes scopes ls
                 else ret ls
             end) scopes ls
    end
  else ret ls.

(** The same loop over the (method, bci) pairs that the frames decode
    to. *)
Fixpoint capture_loop (max_depth : Z) (klass : nat) (frames : list (Method * Z))
    (ls : loop_state) : M loop_state :=
  if below_max_depth max_depth ls then
    match frames with
    | [] => ret ls
    | (method, bci) :: frames =>
        ls <- filter_and_push klass method bci ls ;;
        capture_loop max_depth klass frames ls
    end
  else ret ls.

Definition loop_start (b : BacktraceBuilder) : loop_state :=
  {| total_count := 0;
     skip_fillInStackTrace_check := false;
     skip_throwableInit_check := false;
     bt := b |}.

(** [fill_in_stack_trace(Handle throwable, const methodHandle& method, TRAPS)].
    [method] is [None] for a null handle; [last_Java_frame] is [None] when
    the thread has no last Java frame, and else its frames, innermost
    first. *)
Definition fill_in_stack_trace_TRAPS (method : option Method)
    (last_Java_frame : option (list frame)) : M unit :=
  if negb StackTraceInThrowable then ret tt
  else
    (* clear the backtrace, in case the VM runs out of memory *)
    modify (fun s => with_throwable s (set_backtrace (throwable s) None)) ;;;
    modify (fun s => with_throwable s (clear_stacktrace (throwable s))) ;;;
    let max_depth := MaxJavaStackTraceDepth in
    b <- BacktraceBuilder_new ;;
    match last_Java_frame with
    | None =>
        match method with
        | Some m =>
            if 1 <=? max_depth then
              b <- push b m 0 ;;
              modify (fun s => with_throwable s (set_depth (throwable s) 1)) ;;;
              modify (fun s => with_throwable s (set_backtrace (throwable s) (_backtrace b)))
            else ret tt
        | None => ret tt
        end
    | Some frames =>
        s <- get ;;
        ls <- capture_frames max_depth (t_klass (throwable s)) frames
                (loop_start b) ;;
        (* Put completed stack trace into throwable object *)
        modify (fun s => with_throwable s
                  (set_backtrace (throwable s) (_backtrace (bt ls)))) ;;;
        modify (fun s => with_throwable s
                  (set_depth (throwable s) (total_count ls)))
    end.

(** [fill_in_stack_trace(Handle throwable, const methodHandle& method)].
    [PRESERVE_EXCEPTION_MARK] puts the thread's pending exception aside and
    gives it back at the end of the scope; what the [TRAPS] call leaves
    pending is dropped by [CLEAR_PENDING_EXCEPTION]. *)
Definition fill_in_stack_trace (method : option Method)
    (last_Java_frame : option (list frame)) (s : vm) : vm :=
  if negb StackTraceInThrowable then s
  else if negb (should_fill_in_stack_trace (throwable s)) then s
  else
    let preserved := pending_exception s in
    let '(r, s) :=
      fill_in_stack_trace_TRAPS method last_Java_frame
        (with_pending_exception s None) in
    let s := match r with
             | Ok _ => s
             | Throw e => with_pending_exception s (Some e)
             end in
    let s := with_pending_exception s None in   (* CLEAR_PENDING_EXCEPTION *)
    with_pending_exception s preserved.

(** [allocate_backtrace]: the backtrace is created but not filled in. *)
Definition allocate_backtrace : M unit :=
  if negb StackTraceInThrowable then ret tt
  else
    b <- BacktraceBuilder_new ;;
    modify (fun s => with_throwable s (set_backtrace (throwable s) (_backtrace b))).

(** The loop of [fill_in_stack_trace_of_preallocated_backtrace] over the
    [vframeStream], which bails out at [trace_chunk_size] frames. *)
Fixpoint preallocated_loop (frames : list (Method * Z)) (chunk_count : nat)
    (b : BacktraceBuilder) : M (nat * BacktraceBuilder) :=
  match frames with
  | [] => ret (chunk_count, b)    (* st.at_end() *)
  | (method, bci) :: frames =>
      b <- push b method bci ;;
      let chunk_count := S chunk_count in
      if (trace_chunk_size <=? chunk_count)%nat then ret (chunk_count, b)
      else preallocated_loop frames chunk_count b
  end.

Definition fill_in_stack_trace_of_preallocated_backtrace
    (unassigned_stacktrace : oop) (frames : list frame) : M unit :=
  if negb StackTraceInThrowable then ret tt
  else
    s <- get ;;
    let b := BacktraceBuilder_preallocated (backtrace (throwable s)) s in
    r <- preallocated_loop (walk frames) 0%nat b ;;
    modify (fun s => with_throwable s
              (set_depth (throwable s) (Z.of_nat (fst r)))) ;;;
    modify (fun s => with_throwable s
              (set_stacktrace (throwable s) unassigned_stacktrace)).

(** ** Materialization: StackTraceElement::fill_in and get_stack_trace_elements *)

(** [java_lang_Class::as_Klass], [InstanceKlass::method_with_orig_idnum],
    [Backtrace::get_line_number] and [Backtrace::get_source_file_name], none
    of which is defined in javaClasses.cpp. *)
Variable as_Klass : oop -> InstanceKlass.
Variable method_with_orig_idnum : InstanceKlass -> Z -> Z -> option Method.
Variable get_line_number : Method -> Z -> Z.
Variable get_source_file_name : InstanceKlass -> Z -> option Symbol.

(** [version_matches]; its assert that [version < MAX_VERSION] is left out. *)
Definition version_matches (method : option Method) (version : Z) : bool :=
  match method with
  | Some m => constants_version m =? version
  | None => false
  end.

(** [StringTable::intern(symbol, CHECK)]: a [java.lang.String] is identified
    with its characters; a null symbol gives a null string. *)
Definition intern (symbol : option Symbol) : M (option Symbol) :=
  match symbol with
  | Some x => allocate ;;; ret (Some x)
  | None => ret None
  end.

Definition set_declaringClass (v : option Symbol) (e : StackTraceElement) :=
  {| declaringClass := v; declaringClassObject := declaringClassObject e;
     classLoaderName := classLoaderName e; methodName := methodName e;
     moduleName := moduleName e; moduleVersion := moduleVersion e;
     fileName := fileName e; lineNumber := lineNumber e |}.

Definition set_declaringClassObject (v : oop) (e : StackTraceElement) :=
  {| declaringClass := declaringClass e; declaringClassObject := v;
     classLoaderName := classLoaderName e; methodName := methodName e;
     moduleName := moduleName e; moduleVersion := moduleVersion e;
     fileName := fileName e; lineNumber := lineNumber e |}.

Definition set_classLoaderName (v : option Symbol) (e : StackTraceElement) :=
  {| declaringClass := declaringClass e;
     declaringClassObject := declaringClassObject e;
     classLoaderName := v; methodName := methodName e;
     moduleName := moduleName e; moduleVersion := moduleVersion e;
     fileName := fileName e; lineNumber := lineNumber e |}.

Definition set_methodName (v : option Symbol) (e : StackTraceElement) :=
  {| declaringClass := declaringClass e;
     declaringClassObject := declaringClassObject e;
     classLoaderName := classLoaderName e; methodName := v;
     moduleName := moduleName e; moduleVersion := moduleVersion e;
     fileName := fileName e; lineNumber := lineNumber e |}.

Definition set_moduleName (v : option Symbol) (e : StackTraceElement) :=
  {| declaringClass := declaringClass e;
     declaringClassObject := declaringClassObject e;
     classLoaderName := classLoaderName e; methodName := methodName e;
     moduleName := v; moduleVersion := moduleVersion e;
     fileName := fileName e; lineNumber := lineNumber e |}.

Definition set_moduleVersion (v : option Symbol) (e : StackTraceElement) :=
  {| declaringClass := declaringClass e;
     declaringClassObject := declaringClassObject e;
     classLoaderName := classLoaderName e; methodName := methodName e;
     moduleName := moduleName e; moduleVersion := v;
     fileName := fileName e; lineNumber := lineNumber e |}.

Definition set_fileName (v : option Symbol) (e : StackTraceElement) :=
  {| declaringClass := declaringClass e;
     declaringClassObject := declaringClassObject e;
     classLoaderName := classLoaderName e; methodName := methodName e;
     moduleName := moduleName e; moduleVersion := moduleVersion e;
     fileName := v; lineNumber := lineNumber e |}.

Definition set_lineNumber (v : Z) (e : StackTraceElement) :=
  {| declaringClass := declaringClass e;
     declaringClassObject := declaringClassObject e;
     classLoaderName := classLoaderName e; methodName := methodName e;
     moduleName := moduleName e; moduleVersion := moduleVersion e;
     fileName := fileName e; lineNumber := v |}.

(** A field store into the element object at [element]. *)
Definition put (element : nat) (f : StackTraceElement -> StackTraceElement) : M unit :=
  modify (fun s => with_elements s (alter f element (elements s))).

(** [java_lang_Class::source_file] and [java_lang_Class::set_source_file]. *)
Definition class_source_file (java_class : oop) (s : vm) : option Symbol :=
  match java_class with
  | Some a => source_file s !! a
  | None => None
  end.

Definition set_class_source_file (java_class : oop) (v : option Symbol) : M unit :=
  modify (fun s =>
    match java_class with
    | Some a =>
        with_source_file s
          (match v with
           | Some x => <[a := x]> (source_file s)
           | None => delete a (source_file s)
           end)
    | None => s
    end).

(** [fill_in], first part: class name, class loader name, method name,
    module name and version. *)
Definition fill_in_names (element : nat) (holder : InstanceKlass)
    (name : option Symbol) : M unit :=
  (* Fill in class name *)
  let java_class := java_mirror holder in
  allocate ;;;                    (* java_lang_Class::name(java_class, CHECK) *)
  put element (set_declaringClass (Some (external_name holder))) ;;;
  put element (set_declaringClassObject java_class) ;;;
  match class_loader_name holder with
  | Some (Some loader_name) => put element (set_classLoaderName (Some loader_name))
  | _ => ret tt
  end ;;;
  (* Fill in method name *)
  methodname <- intern name ;;
  put element (set_methodName methodname) ;;;
  (* Fill in module name and version *)
  if module_is_named holder then
    module_name <- intern (Some (module_name holder)) ;;
    put element (set_moduleName module_name) ;;;
    module_version <- intern (module_version holder) ;;
    put element (set_moduleVersion module_version)
  else ret tt.

(** [fill_in], second part: source file name and line number. *)
Definition fill_in_source (element : nat) (holder : InstanceKlass)
    (method : option Method) (version bci : Z) : M unit :=
  let java_class := java_mirror holder in
  if bool_decide (method = None) || negb (version_matches method version) then
    (* The method was redefined, accurate line number information isn't available *)
    put element (set_fileName None) ;;;
    put element (set_lineNumber (-1))
  else
    (* Fill in source file name and line number. *)
    let source := get_source_file_name holder version in
    s <- get ;;
    let source_file := class_source_file java_class s in
    source_file <-
      match source, source_file with
      | Some _, None =>
          (* Class was not redefined: initialize the cache. *)
          source_file <- intern source ;;
          set_class_source_file java_class source_file ;;;
          ret source_file
      | Some _, Some _ => ret source_file
      | None, Some _ =>
          (* Class was redefined. Dump the cache if it was set. *)
          set_class_source_file java_class None ;;;
          ret None
      | None, None => ret source_file
      end ;;
    put element (set_fileName source_file) ;;;
    match method with
    | Some m => put element (set_lineNumber (get_line_number m bci))
    | None => ret tt              (* excluded by the test above *)
    end.

Definition fill_in (element : nat) (holder : InstanceKlass)
    (method : option Method) (version bci : Z) (name : option Symbol) : M unit :=
  fill_in_names element holder name ;;;
  fill_in_source element holder method version bci.

(** One round of the loop of [get_stack_trace_elements] after the null
    check of the element: resolve the method at the stored version and fill
    the element in. *)
Definition materialize (bte : BacktraceElement) (element : nat) : M unit :=
  let holder := as_Klass (_mirror bte) in
  let method := method_with_orig_idnum holder (_method_id bte) (_version bte) in
  fill_in element holder method (_version bte) (_bci bte) (_name bte).

(** The [while (iter.repeat())] loop of [get_stack_trace_elements]; [None]
    when [fuel] rounds do not reach its end.  A read of the array past its
    length, which the source does not define, is taken as a null element. *)
Fixpoint fill_elements (fuel : nat) (stack_trace_array : list oop)
    (iter : BacktraceIterator) (index : nat) (s : vm)
    : option (result unit * vm) :=
  match fuel with
  | O => None
  | S fuel =>
      if repeat (chunks s) iter then
        let '(bte, iter) := next (chunks s) iter in
        match stack_trace_array !! index with
        | Some (Some element) =>
            match materialize bte element s with
            | (Ok _, s) => fill_elements fuel stack_trace_array iter (S index) s
            | (Throw e, s) => Some (Throw e, s)
            end
        | _ => Some (Throw NullPointerException, s)
        end
      else Some (Ok tt, s)
  end.

(** [get_stack_trace_elements(Handle throwable, objArrayHandle
    stack_trace_array_h, TRAPS)]; a null handle is [None]. *)
Definition get_stack_trace_elements (fuel : nat) (throwable_h : option Throwable)
    (stack_trace_array_h : option (list oop)) (s : vm)
    : option (result unit * vm) :=
  match throwable_h, stack_trace_array_h with
  | Some t, Some stack_trace_array =>
      if negb (Z.of_nat (length stack_trace_array) =? depth t)
      then Some (Throw IndexOutOfBoundsException, s)
      else fill_elements fuel stack_trace_array
             (BacktraceIterator_new (backtrace t)) 0%nat s
  | _, _ => Some (Throw NullPointerException, s)
  end.

(** * Specification vocabulary *)

(** ** Outcomes of the builder's operations *)

(** The next [k] allocation requests are served. *)
Definition served (s : vm) (k : nat) : Prop :=
  forall i, (i < k)%nat -> alloc_ok (allocations s + i) = true.

(** What a computation leaves alone: everything but the chunks, the boxes
    and the count of allocation requests. *)
Definition same_objects (s s' : vm) : Prop :=
  throwable s' = throwable s
  /\ elements s' = elements s
  /\ source_file s' = source_file s
  /\ pending_exception s' = pending_exception s.

(** The builder and the state that a successful [expand] leaves. *)
Definition expanded_builder (b : BacktraceBuilder) (s : vm) : BacktraceBuilder :=
  {| _backtrace := _backtrace b;
     _head := Some (length (chunks s));
     _has_hidden_top_frame := _has_hidden_top_frame b;
     _index := 0 |}.

Definition expanded_state (b : BacktraceBuilder) (s : vm) : vm :=
  with_chunks (with_allocations s (5 + allocations s))
    (chunk_put (set_c_next (Some (length (chunks s)))) (_head b) (chunks s)
     ++ [new_chunk]).

Definition advanced (b : BacktraceBuilder) : BacktraceBuilder :=
  {| _backtrace := _backtrace b;
     _head := _head b;
     _has_hidden_top_frame := _has_hidden_top_frame b;
     _index := S (_index b) |}.

Definition written (b : BacktraceBuilder) (method : Method) (bci : Z) (s : vm) : vm :=
  with_chunks s
    (chunk_put (write_frame (_index b) method (smear bci)) (_head b) (chunks s)).

Definition marked (b : BacktraceBuilder) (s : vm) : BacktraceBuilder :=
  {| _backtrace := _backtrace b;
     _head := _head b;
     _has_hidden_top_frame := Some (boxes s);
     _index := _index b |}.

Definition marked_state (b : BacktraceBuilder) (s : vm) : vm :=
  with_chunks (with_boxes (with_allocations s (S (allocations s))) (S (boxes s)))
    (chunk_put (set_c_hidden (Some (boxes s))) (_head b) (chunks s)).

(** ** What a store holds *)

(** The element that the iterator reads back for a frame given to [push]. *)
Definition element_of (f : Method * Z) : BacktraceElement :=
  let merged := merge_bci_and_version (smear (snd f)) (constants_version (fst f)) in
  {| _method_id := to_ushort (orig_method_idnum (fst f));
     _bci := bci_at merged;
     _version := version_at merged;
     _name := Some (name (fst f));
     _mirror := java_mirror (method_holder (fst f)) |}.

(** A chunk whose columns hold the frames [seg] from index 0 on and are
    untouched behind them. *)
Definition chunk_of (seg : list (Method * Z)) (nxt hid : oop) : chunk :=
  let pad := (trace_chunk_size - length seg)%nat in
  {| c_methods :=
       ((fun f => to_ushort (orig_method_idnum (fst f))) <$> seg) ++ replicate pad 0;
     c_bcis :=
       ((fun f => merge_bci_and_version (smear (snd f)) (constants_version (fst f)))
          <$> seg) ++ replicate pad 0;
     c_mirrors :=
       ((fun f => java_mirror (method_holder (fst f))) <$> seg) ++ replicate pad None;
     c_names := ((fun f => Some (name (fst f))) <$> seg) ++ replicate pad None;
     c_next := nxt;
     c_hidden := hid |}.

(** [chain a rows cl hd idx]: the chunks [cl], which lie at the addresses
    [a], [a+1], ..., hold the frames [rows] in the order of the pushes,
    each chunk but the last one full and linked to the one after it; the
    last chunk is at [hd] and holds [idx] frames. *)
Inductive chain : nat -> list (Method * Z) -> list chunk -> nat -> nat -> Prop :=
| chain_last a rows hid :
    (length rows <= trace_chunk_size)%nat ->
    chain a rows [chunk_of rows None hid] a (length rows)
| chain_cons a seg rows hid cl hd idx :
    length seg = trace_chunk_size ->
    chain (S a) rows cl hd idx ->
    chain a (seg ++ rows) (chunk_of seg (Some (S a)) hid :: cl) hd idx.

(** The store of builder [b] holds the frames [rows]. *)
Definition store_holds (b : BacktraceBuilder) (s : vm) (rows : list (Method * Z)) : Prop :=
  exists pre cl hd,
    chunks s = pre ++ cl
    /\ _backtrace b = Some (length pre)
    /\ _head b = Some hd
    /\ chain (length pre) rows cl hd (_index b).

(** The throwable of [s] has a complete trace of the frames [rows]. *)
Definition trace_holds (s : vm) (rows : list (Method * Z)) : Prop :=
  exists pre cl hd idx,
    chunks s = pre ++ cl
    /\ backtrace (throwable s) = Some (length pre)
    /\ chain (length pre) rows cl hd idx
    /\ depth (throwable s) = Z.of_nat (length rows).

(** The iterator at index [i] of the chunk at [a], and the iterator after
    [i] elements of that chunk, whose next chunk is [nxt], have been read. *)
Definition at_index (a i : nat) : BacktraceIterator :=
  {| it_index := i; it_result := Some a; it_columns := Some a |}.

Definition after (a i : nat) (nxt : oop) : BacktraceIterator :=
  if (trace_chunk_size <=? i)%nat then init (at_index a i) nxt else at_index a i.

(** ** The frames that survive, in the words of the specification *)

Fixpoint drop_while {A} (p : A -> bool) (l : list A) : list A :=
  match l with
  | [] => []
  | x :: l' => if p x then drop_while p l' else l
  end.

(** A frame that hidden-frame suppression drops. *)
Definition suppressed (f : Method * Z) : bool :=
  is_hidden (fst f) && negb ShowHiddenFrames.

(** The frames left when the leading [fillInStackTrace] frames are skipped
    (unless [sf]), then the leading constructor frames (unless [si]), and
    the hidden frames are dropped. *)
Definition survivors_from (sf si : bool) (klass : nat)
    (frames : list (Method * Z)) : list (Method * Z) :=
  let l1 := if sf then frames
            else drop_while (fun f => is_fillInStackTrace_of klass (fst f)) frames in
  let l2 := if si then l1
            else drop_while (fun f => is_init_of klass (fst f)) l1 in
  List.filter (fun f => negb (suppressed f)) l2.

Definition survivors (klass : nat) (frames : list (Method * Z)) : list (Method * Z) :=
  survivors_from false false klass frames.

(** The frames that [capture_loop] gives to [push], when no allocation
    fails. *)
Fixpoint selected (max_depth : Z) (klass : nat) (frames : list (Method * Z))
    (count : Z) (sf si : bool) : list (Method * Z) :=
  if (max_depth =? 0) || negb (max_depth =? count) then
    match frames with
    | [] => []
    | (method, bci) :: frames =>
        if negb sf && is_fillInStackTrace_of klass method
        then selected max_depth klass frames count sf si
        else if negb si && is_init_of klass method
        then selected max_depth klass frames count true si
        else if is_hidden method && negb ShowHiddenFrames
        then selected max_depth klass frames count true true
        else (method, bci) :: selected max_depth klass frames (count + 1) true true
    end
  else [].

(** What a capture that returns normally records for the throwable: the
    frames of its trace, or [None] when it leaves the throwable without a
    backtrace. *)
Definition captured (method : option Method) (last_Java_frame : option (list frame))
    (klass : nat) : option (list (Method * Z)) :=
  match last_Java_frame with
  | Some frames =>
      Some (selected MaxJavaStackTraceDepth klass (walk frames) 0 false false)
  | None =>
      match method with
      | Some m => if 1 <=? MaxJavaStackTraceDepth then Some [(m, 0)] else None
      | None => None
      end
  end.

(** ** The elision states, in the words of the specification *)

(** "Still skipping filler frames" and "still skipping constructor frames":
    the code keeps the negations, "skip the check". *)
Definition still_skipping_fillers (ls : loop_state) : bool :=
  negb (skip_fillInStackTrace_check ls).

Definition still_skipping_constructors (ls : loop_state) : bool :=
  negb (skip_throwableInit_check ls).

(** ** Computations that only fail for want of memory *)

(** A computation that changes no element count and raises nothing but
    [OutOfMemoryError], and that only when an allocation request is not
    served. *)
Definition well_behaved {A} (m : M A) : Prop :=
  forall s r s',
    m s = (r, s') ->
    length (elements s') = length (elements s)
    /\ match r with
       | Ok _ => True
       | Throw e => e = OutOfMemoryError /\ ~ (forall n, alloc_ok n = true)
       end.

(** ** Three statements of the specification, as it words them *)

(** "[expand] sets the new chunk's next link to point at the previously
    newest chunk, and iteration begins at the newest chunk": stated of one
    call. *)
Definition expand_links_new_to_previous (b : BacktraceBuilder) (s : vm) : Prop :=
  forall b' s',
    expand b s = (Ok b', s') ->
    next_chunk (chunks s') (_head b') = _head b
    /\ _backtrace b' = _head b'.

(** "[push] never itself handles chunk overflow, it only writes at the
    current write cursor of the current head chunk": stated of one call. *)
Definition push_only_writes_at_cursor (b : BacktraceBuilder) (method : Method)
    (bci : Z) (s : vm) : Prop :=
  forall b' s',
    push b method bci s = (Ok b', s') ->
    _head b' = _head b /\ length (chunks s') = length (chunks s).

(** "Structured-array extraction signals a boundary-violation error
    whenever the destination length differs from the recorded depth, or the
    store/throwable handle is null": stated of one call. *)
Definition extraction_signals_error (fuel : nat) (throwable_h : option Throwable)
    (stack_trace_array_h : option (list oop)) (s : vm) : Prop :=
  ((exists t arr, throwable_h = Some t /\ stack_trace_array_h = Some arr
                  /\ Z.of_nat (length arr) <> depth t)
   \/ throwable_h = None
   \/ (exists t, throwable_h = Some t /\ backtrace t = None)) ->
  exists e s',
    get_stack_trace_elements fuel throwable_h stack_trace_array_h s
    = Some (Throw e, s').

(** ** Sample data *)

Definition Throwable_klass : InstanceKlass :=
  {| klass_id := 1; java_mirror := Some 1%nat;
     external_name := "java.lang.Throwable";
     class_loader_name := None; module_is_named := true;
     module_name := "java.base"; module_version := Some "15"%string |}.

Definition MyException_klass : InstanceKlass :=
  {| klass_id := 2; java_mirror := Some 2%nat;
     external_name := "app.MyException";
     class_loader_name := Some (Some "app"%string); module_is_named := false;
     module_name := EmptyString; module_version := None |}.

Definition Main_klass : InstanceKlass :=
  {| klass_id := 3; java_mirror := Some 3%nat;
     external_name := "app.Main";
     class_loader_name := Some (Some "app"%string); module_is_named := false;
     module_name := EmptyString; module_version := None |}.

Definition LambdaForm_klass : InstanceKlass :=
  {| klass_id := 4; java_mirror := Some 4%nat;
     external_name := "java.lang.invoke.LambdaForm$MH";
     class_loader_name := None; module_is_named := true;
     module_name := "java.base"; module_version := Some "15"%string |}.

Definition m_fillInStackTrace : Method :=
  {| name := "fillInStackTrace"; method_holder := Throwable_klass;
     orig_method_idnum := 17; constants_version := 0;
     is_hidden := false; is_native := false |}.

Definition m_init : Method :=
  {| name := "<init>"; method_holder := MyException_klass;
     orig_method_idnum := 0; constants_version := 0;
     is_hidden := false; is_native := false |}.

Definition m_main : Method :=
  {| name := "main"; method_holder := Main_klass;
     orig_method_idnum := 5; constants_version := 0;
     is_hidden := false; is_native := false |}.

Definition m_run : Method :=
  {| name := "run"; method_holder := Main_klass;
     orig_method_idnum := 6; constants_version := 0;
     is_hidden := false; is_native := false |}.

Definition m_invoke : Method :=
  {| name := "invoke"; method_holder := LambdaForm_klass;
     orig_method_idnum := 2; constants_version := 0;
     is_hidden := true; is_native := false |}.

(** Every class is a subclass of java.lang.Throwable's class 1 here, and of
    itself. *)
Definition sample_is_subtype_of (k super : nat) : bool :=
  (super =? 1)%nat || (k =? super)%nat.

Definition sample_merge (bci version : Z) : Z := bci * 65536 + version.
Definition sample_bci_at (merged : Z) : Z := merged / 65536.
Definition sample_version_at (merged : Z) : Z := merged mod 65536.

Definition always_served (n : nat) : bool := true.
Definition never_served (n : nat) : bool := false.

Definition new_throwable : Throwable :=
  {| t_klass := 2; backtrace := None; depth := 0; stackTrace := None |}.

Definition vm0 : vm :=
  {| chunks := []; boxes := 0; allocations := 0; throwable := new_throwable;
     elements := []; source_file := ∅; pending_exception := None |}.

Definition builder0 : BacktraceBuilder :=
  {| _backtrace := Some 0%nat; _head := Some 0%nat;
     _has_hidden_top_frame := None; _index := 0 |}.

(** The chunk that a builder's first [expand] allocates when
    [trace_chunk_size] is 32, and the state of a thread that has done just
    that. *)
Definition fresh_chunk32 : chunk :=
  {| c_methods := replicate 32 0; c_bcis := replicate 32 0;
     c_mirrors := replicate 32 None; c_names := replicate 32 None;
     c_next := None; c_hidden := None |}.

Definition vm1 : vm :=
  {| chunks := [fresh_chunk32]; boxes := 0; allocations := 5;
     throwable := new_throwable; elements := []; source_file := ∅;
     pending_exception := None |}.

(** A chunk filled by 32 activations of [m_main] at bci 0, the state of a
    thread that has pushed them, and its builder. *)
Definition full_chunk32 : chunk :=
  {| c_methods := replicate 32 5; c_bcis := replicate 32 0;
     c_mirrors := replicate 32 (Some 3%nat);
     c_names := replicate 32 (Some "main"%string);
     c_next := None; c_hidden := None |}.

Definition vm_full : vm :=
  {| chunks := [full_chunk32]; boxes := 0; allocations := 5;
     throwable := new_throwable; elements := []; source_file := ∅;
     pending_exception := None |}.

Definition builder_full : BacktraceBuilder :=
  {| _backtrace := Some 0%nat; _head := Some 0%nat;
     _has_hidden_top_frame := None; _index := 32 |}.

(** [push] of the same frame, [n] times over. *)
Fixpoint push_times (n : nat) (method : Method) (bci : Z)
    (b : BacktraceBuilder) : M BacktraceBuilder :=
  match n with
  | O => ret b
  | S n => b <- push b method bci ;; push_times n method bci b
  end.

(** An element object as allocated, a frame as the iterator yields it for
    [m_main] at bci 3 of class version 0, and a state with one element
    object. *)
Definition blank_element : StackTraceElement :=
  {| declaringClass := None; declaringClassObject := None;
     classLoaderName := None; methodName := None; moduleName := None;
     moduleVersion := None; fileName := None; lineNumber := 0 |}.

Definition bte_main : BacktraceElement :=
  {| _method_id := 5; _bci := 3; _version := 0;
     _name := Some "main"%string; _mirror := Some 3%nat |}.

Definition vm_element : vm :=
  {| chunks := []; boxes := 0; allocations := 0; throwable := new_throwable;
     elements := [blank_element]; source_file := ∅; pending_exception := None |}.

(** A class whose methods have all been redefined away: nothing resolves. *)
Definition resolves_nothing (holder : InstanceKlass) (idnum version : Z)
    : option Method := None.

Definition sample_as_Klass (mirror : oop) : InstanceKlass := Main_klass.
Definition sample_line_number (method : Method) (bci : Z) : Z := 100 + bci.
Definition sample_source_file_name (holder : InstanceKlass) (version : Z)
    : option Symbol := Some "Main.java"%string.

(** The stack of a thread that runs [new MyException()] in [Main.run],
    called through a hidden method handle frame inlined into compiled code
    of [Main.run], under [Main.main]; and a deep recursion of [Main.main]. *)
Definition sample_stack : list frame :=
  [ interpreted_frame m_fillInStackTrace 0;
    interpreted_frame m_init 4;
    compiled_frame m_run [(m_invoke, 2); (m_run, 7)];
    other_frame;
    interpreted_frame m_main 3 ].

Definition deep_stack : list frame :=
  interpreted_frame m_fillInStackTrace 0
  :: interpreted_frame m_init 4
  :: replicate 33 (interpreted_frame m_main 3).

(** The same thread with the hidden frame on top of its stack. *)
Definition hidden_top_stack : list frame :=
  [ interpreted_frame m_fillInStackTrace 0;
    interpreted_frame m_init 4;
    interpreted_frame m_invoke 2;
    interpreted_frame m_main 3 ].

Definition always_fill (t : Throwable) : bool := true.

(** [Main]'s methods resolve at version 0; and a stack of 3 * 32 + 1
    activations of [Main.main]. *)
Definition sample_resolve (holder : InstanceKlass) (idnum version : Z)
    : option Method :=
  if negb (version =? 0) then None
  else if idnum =? 5 then Some m_main
  else if idnum =? 6 then Some m_run
  else None.

Definition stack_of_97 : list frame :=
  replicate 97 (interpreted_frame m_main 3).

(** * Further functions of javaClasses.cpp, and the words for their
    properties *)

(** ** The frames of a trace, in other words *)

(** The frames left when the leading [fillInStackTrace] frames are skipped
    (unless [sf]) and then the leading constructor frames (unless [si]):
    the stack as the test of [is_hidden] sees it. *)
Definition after_elision (sf si : bool) (klass : nat)
    (frames : list (Method * Z)) : list (Method * Z) :=
  let l1 := if sf then frames
            else drop_while (fun f => is_fillInStackTrace_of klass (fst f)) frames in
  if si then l1 else drop_while (fun f => is_init_of klass (fst f)) l1.

(** The frame on top of the stack, once the elided frames are gone, is one
    that hidden-frame suppression drops. *)
Definition top_frame_hidden_from (sf si : bool) (klass : nat)
    (frames : list (Method * Z)) : bool :=
  match after_elision sf si klass frames with
  | f :: _ => suppressed f
  | [] => false
  end.

Definition top_frame_hidden (klass : nat) (frames : list (Method * Z)) : bool :=
  top_frame_hidden_from false false klass frames.

(** A trace cut at [max_depth] frames; a [max_depth] of 0 is no limit. *)
Definition within_depth {A} (max_depth : Z) (l : list A) : list A :=
  if max_depth =? 0 then l else take (Z.to_nat max_depth) l.

(** ** What the builder keeps besides the frames *)

(** The store of builder [b] starts at [base], holds the frames [rows] and
    has the builder's hidden marker in its first chunk; the builder's
    cursor is past a frame unless the store is empty. *)
Definition builder_at (base : nat) (b : BacktraceBuilder) (s : vm)
    (rows : list (Method * Z)) : Prop :=
  store_holds b s rows
  /\ _backtrace b = Some base
  /\ (c_hidden <$> chunks s !! base) = Some (_has_hidden_top_frame b)
  /\ (rows = [] \/ (1 <= _index b)%nat).

(** From [(b, s)] to [(b', s')] every allocation request has given a chunk,
    at five requests each, or the hidden marker, at one request, and the
    marker is created at most once. *)
Definition accounted (b : BacktraceBuilder) (s : vm)
    (b' : BacktraceBuilder) (s' : vm) : Prop :=
  (allocations s' + 5 * length (chunks s) + boxes s
   = allocations s + 5 * length (chunks s') + boxes s')%nat
  /\ boxes s' = (boxes s + match _has_hidden_top_frame b, _has_hidden_top_frame b' with
                           | None, Some _ => 1
                           | _, _ => 0
                           end)%nat
  /\ (_has_hidden_top_frame b <> None -> _has_hidden_top_frame b' <> None)
  /\ (length (chunks s) <= length (chunks s'))%nat.

(** The number of chunks that hold [n] frames. *)
Definition chunks_for (n : nat) : nat :=
  match n with
  | O => 1
  | S m => S (m / trace_chunk_size)
  end.

(** ** The top frame of a trace: get_top_method_and_bci *)

(** [get_top_method_and_bci(oop throwable, Method** method, int* bci)]:
    [Some (m, bci)] when it returns true and stores [m] and [bci], [None]
    when it returns false. *)
Definition get_top_method_and_bci (throwable_o : Throwable) (s : vm)
    : option (Method * Z) :=
  let result := backtrace throwable_o in
  let iter := BacktraceIterator_new result in
  (* No backtrace available. *)
  if negb (repeat (chunks s) iter) then None
  else
    (* If the exception happened in a frame that has been hidden, i.e.,
       omitted from the back trace, we can not compute the message. *)
    let hidden := match result with
                  | Some a => match chunks s !! a with
                              | Some c => c_hidden c
                              | None => None
                              end
                  | None => None
                  end in
    if bool_decide (hidden <> None) then None
    else
      (* Get first backtrace element. *)
      let '(bte, _) := next (chunks s) iter in
      let holder := as_Klass (_mirror bte) in
      let m := method_with_orig_idnum holder (_method_id bte) (_version bte) in
      (* Original version is no longer available. *)
      if bool_decide (m = None) || negb (version_matches m (_version bte)) then None
      else match m with
           | Some m => Some (m, _bci bte)
           | None => None
           end.

(** The method and bci that the element of frame [f] resolves to, when the
    class version it was recorded at is still there. *)
Definition top_of (f : Method * Z) : option (Method * Z) :=
  let bte := element_of f in
  match method_with_orig_idnum (as_Klass (_mirror bte)) (_method_id bte) (_version bte) with
  | Some m => if constants_version m =? _version bte then Some (m, _bci bte) else None
  | None => None
  end.

(** ** What materialization leaves in an element *)

(** A computation that, when it returns, has changed nothing but the
    element object at [element], the class source-file cache and the count
    of allocation requests; it has taken the element from [e] to an [e']
    with [Q a e e'], where [a] is the value it returns. *)
Definition edits {A} (m : M A) (element : nat)
    (Q : A -> StackTraceElement -> StackTraceElement -> Prop) : Prop :=
  forall s a s',
    m s = (Ok a, s') ->
    chunks s' = chunks s
    /\ throwable s' = throwable s
    /\ exists g, elements s' = alter g element (elements s) /\ forall e, Q a e (g e).

(** The element [e] describes the frame [bte] as [fill_in] has it: class,
    method, class loader and module of the frame, and the line number of a
    method that still has the recorded version, or no file and line -1. *)
Definition filled_from (bte : BacktraceElement) (e : StackTraceElement) : Prop :=
  let holder := as_Klass (_mirror bte) in
  let method := method_with_orig_idnum holder (_method_id bte) (_version bte) in
  declaringClass e = Some (external_name holder)
  /\ declaringClassObject e = java_mirror holder
  /\ methodName e = _name bte
  /\ (forall n, class_loader_name holder = Some (Some n) -> classLoaderName e = Some n)
  /\ (module_is_named holder = true ->
      moduleName e = Some (module_name holder)
      /\ moduleVersion e = module_version holder)
  /\ (version_matches method (_version bte) = false ->
      fileName e = None /\ lineNumber e = -1)
  /\ (forall m, method = Some m -> constants_version m = _version bte ->
      lineNumber e = get_line_number m (_bci bte)).

(** ** java_lang_StackTraceElement::create and java_lang_StackFrameInfo *)

(** [k->should_be_initialized()] and [k->initialize(CHECK_0)] for the class
    java.lang.StackTraceElement: class initialization is not defined in
    javaClasses.cpp; it may run any code and raise any exception. *)
Variable should_be_initialized : vm -> bool.
Variable initialize : M unit.

(** [k->allocate_instance_handle(CHECK_0)]: a new element object, its
    fields null and its line number 0, at the next address. *)
Definition allocate_instance_handle : M nat :=
  allocate ;;;
  s <- get ;;
  modify (fun s => with_elements s (elements s ++ [blank_element])) ;;;
  ret (length (elements s)).

(** [java_lang_StackTraceElement::create(const methodHandle& method, int bci, TRAPS)] *)
Definition create (method : Method) (bci : Z) : M nat :=
  s <- get ;;
  (if should_be_initialized s then initialize else ret tt) ;;;
  element <- allocate_instance_handle ;;
  let version := constants_version method in
  fill_in element (method_holder method) (Some method) version bci
    (Some (name method)) ;;;
  ret element.

(** The value of a [short] that an [int] is cast to. *)
Definition to_short (v : Z) : Z := (v + 32768) mod 65536 - 32768.

(** What the code reads of a [java.lang.invoke.MemberName] and of a
    [java.lang.StackFrameInfo]. *)
Record MemberName := {
  vmtarget : option Method;
  clazz : oop
}.

Record StackFrameInfo := {
  memberName : MemberName;
  sfi_bci : Z;                    (* _bci_offset: int *)
  sfi_version : Z                 (* _version_offset: short *)
}.

(** [CallInfo info(method(), ik, CHECK)] followed by
    [MethodHandles::init_method_MemberName(mname, info)], neither defined
    in javaClasses.cpp: the member name that the frame's is made into. *)
Variable init_method_MemberName : MemberName -> Method -> M MemberName.

(** [set_method_and_bci(Handle stackFrame, const methodHandle& method, int bci, TRAPS)];
    the frame object is passed and returned. *)
Definition set_method_and_bci (stackFrame : StackFrameInfo) (method : Method)
    (bci : Z) : M StackFrameInfo :=
  mname <- init_method_MemberName (memberName stackFrame) method ;;
  (* set bci *)
  let stackFrame := {| memberName := mname; sfi_bci := bci;
                       sfi_version := sfi_version stackFrame |} in
  (* method may be redefined; store the version *)
  let version := constants_version method in
  ret {| memberName := memberName stackFrame; sfi_bci := sfi_bci stackFrame;
         sfi_version := to_short version |}.

(** [java_lang_StackFrameInfo::get_method]. *)
Definition get_method (stackFrame : StackFrameInfo) (holder : InstanceKlass)
    : option Method :=
  vmtarget (memberName stackFrame).

(** [to_stack_trace_element(Handle stackFrame, Handle stack_trace_element, TRAPS)];
    nothing is modelled for a null [vmtarget], which the code dereferences. *)
Definition to_stack_trace_element (stackFrame : StackFrameInfo)
    (stack_trace_element : nat) : M unit :=
  let holder := as_Klass (clazz (memberName stackFrame)) in
  let method := get_method stackFrame holder in
  let version := sfi_version stackFrame in
  let bci := sfi_bci stackFrame in
  match method with
  | Some m =>
      fill_in stack_trace_element holder method version bci (Some (name m))
  | None => ret tt
  end.

(** [Main.main] in a class that has been redefined 40000 times, a stack
    frame object as allocated, and a member name initialization that
    resolves to the method it is given. *)
Definition m_main_40000 : Method :=
  {| name := "main"; method_holder := Main_klass;
     orig_method_idnum := 5; constants_version := 40000;
     is_hidden := false; is_native := false |}.

Definition blank_frame : StackFrameInfo :=
  {| memberName := {| vmtarget := None; clazz := None |};
     sfi_bci := 0; sfi_version := 0 |}.

Definition sample_init_method_MemberName (mname : MemberName) (method : Method)
    : M MemberName :=
  ret {| vmtarget := Some method; clazz := java_mirror (method_holder method) |}.

Definition is_initialized (s : vm) : bool := false.

(** ** Printing a stack trace element *)

(** What [sprintf] makes of ["%d"], the flag [WizardMode], and
    [method->code()] as [INTPTR_FORMAT] prints it, [None] for [NULL]. *)
Variable decimal : Z -> string.
Variable WizardMode : bool.
Variable code : Method -> option string.

Definition tab : string := String (Ascii.ascii_of_nat 9) EmptyString.

(** [print_stack_element_to_stream(outputStream* st, Handle mirror, int method_id,
    int version, int bci, Symbol* name)]: the size of the buffer that it
    allocates and the line that it formats in the buffer and prints to
    [st]. *)
Definition print_stack_element_to_stream (mirror : oop) (method_id version bci : Z)
    (name : Symbol) : nat * string :=
  (* Get strings and string lengths *)
  let holder := as_Klass mirror in
  let klass_name := external_name holder in
  let buf_len := String.length klass_name in
  let method_name := name in
  let buf_len := (buf_len + String.length method_name)%nat in
  let source := get_source_file_name holder version in
  let buf_len := match source with
                 | Some source_file_name => (buf_len + String.length source_file_name)%nat
                 | None => buf_len
                 end in
  let module_name' := if module_is_named holder then Some (module_name holder) else None in
  let module_version' := if module_is_named holder then module_version holder else None in
  let buf_len := match module_name' with
                 | Some n => (buf_len + String.length n)%nat
                 | None => buf_len
                 end in
  let buf_len := match module_version' with
                 | Some v => (buf_len + String.length v)%nat
                 | None => buf_len
                 end in
  (* Allocate temporary buffer with extra space for formatting and line number *)
  let size := (buf_len + 64)%nat in
  (* Print stack trace line in buffer *)
  let buf := String.append tab (String.append "at "
               (String.append klass_name (String.append "."
                  (String.append method_name "(")))) in
  (* Print module information *)
  let buf := match module_name' with
             | Some n =>
                 match module_version' with
                 | Some v => String.append buf (String.append n
                               (String.append "@" (String.append v "/")))
                 | None => String.append buf (String.append n "/")
                 end
             | None => buf
             end in
  (* The method can be NULL if the requested class version is gone *)
  let method := method_with_orig_idnum holder method_id version in
  let buf :=
    match method with
    | Some m =>
        if negb (version_matches method version) then String.append buf "Redefined)"
        else
          let line_number := get_line_number m bci in
          if line_number =? -2 then String.append buf "Native Method)"
          else
            let buf :=
              match source with
              | Some source_file_name =>
                  if negb (line_number =? -1) then
                    (* Sourcename and linenumber *)
                    String.append buf (String.append source_file_name
                      (String.append ":" (String.append (decimal line_number) ")")))
                  else
                    (* Just sourcename *)
                    String.append buf (String.append source_file_name ")")
              | None =>
                  (* Neither sourcename nor linenumber *)
                  String.append buf "Unknown Source)"
              end in
            match code m with
            | Some nm =>
                if WizardMode
                then String.append buf (String.append "(nmethod " (String.append nm ")"))
                else buf
            | None => buf
            end
    | None => String.append buf "Redefined)"
    end in
  (size, buf).

(** [java_lang_Throwable::print_stack_element(outputStream*, const methodHandle&, int)] *)
Definition print_stack_element (method : Method) (bci : Z) : nat * string :=
  let mirror := java_mirror (method_holder method) in
  let method_id := orig_method_idnum method in
  let version := constants_version method in
  print_stack_element_to_stream mirror method_id version bci (name method).

(** Decimal digits of an [int], and code that has not been compiled. *)
Fixpoint digits (fuel : nat) (n : Z) (acc : string) : string :=
  match fuel with
  | O => acc
  | S fuel =>
      let acc := String (Ascii.ascii_of_nat (48 + Z.to_nat (n mod 10))) acc in
      if n / 10 =? 0 then acc else digits fuel (n / 10) acc
  end.

Definition sample_decimal (n : Z) : string :=
  if n <? 0 then String.append "-" (digits 10 (- n) EmptyString)
  else digits 10 n EmptyString.

Definition not_compiled (m : Method) : option string := None.

(** ** java_lang_StackTraceElement::decode (JVMCI) *)

(** [holder->constants()->symbol_at(cpref)], [holder->get_klass_version(version)]
    and [holder->source_file_name()], none of them defined in
    javaClasses.cpp. *)
Variable symbol_at : InstanceKlass -> Z -> Symbol.
Variable get_klass_version : InstanceKlass -> Z -> InstanceKlass.
Variable source_file_name : InstanceKlass -> option Symbol.

(** [decode(Handle mirror, int method_id, int version, int bci, int cpref,
    Symbol*& methodname, Symbol*& filename, int& line_number)]: the three
    values that it stores. *)
Definition decode (mirror : oop) (method_id version bci cpref : Z)
    : Symbol * option Symbol * Z :=
  let holder := as_Klass mirror in
  let method := method_with_orig_idnum holder method_id version in
  (* The method can be NULL if the requested class version is gone *)
  let sym := match method with
             | Some m => name m
             | None => symbol_at holder cpref
             end in
  (* Fill in method name *)
  let methodname := sym in
  match method with
  | Some m =>
      if negb (version_matches method version) then
        (* If the method was redefined, accurate line number information isn't available *)
        (methodname, None, -1)
      else
        (* Use a specific ik version as a holder *)
        let holder := get_klass_version holder version in
        (methodname, source_file_name holder, get_line_number m bci)
  | None => (methodname, None, -1)
  end.

(** ** java.lang.ClassLoader *)

(** What the code reads of a class loader object; the loaders live in a
    store of their own, addressed by position. *)
Record ClassLoader := {
  loader_klass : nat;             (* loader->klass(), a class id *)
  parent_field : oop              (* parent_offset *)
}.

(** [SystemDictionary::java_system_loader()] and
    [SystemDictionary::reflect_DelegatingClassLoader_klass()], a class id
    or [NULL]. *)
Variable java_system_loader : oop.
Variable reflect_DelegatingClassLoader_klass : option nat.

(** [java_lang_ClassLoader::parent]; nothing is modelled for a [NULL]
    loader, which the code asserts it is not given. *)
Definition parent (heap : list ClassLoader) (loader : oop) : oop :=
  match loader with
  | Some a => match heap !! a with
              | Some l => parent_field l
              | None => None
              end
  | None => None
  end.

(** [java_lang_ClassLoader::isAncestor(oop loader, oop cl)]: the
    [do ... while (acl != NULL)] loop, [acl] being [loader] at first;
    [None] when [fuel] rounds do not reach its end. *)
Fixpoint isAncestor (fuel : nat) (heap : list ClassLoader) (acl cl : oop)
    : option bool :=
  match fuel with
  | O => None
  | S fuel =>
      let acl := parent heap acl in
      if bool_decide (cl = acl) then Some true
      else if bool_decide (acl <> None) then isAncestor fuel heap acl cl
      else Some false
  end.

Definition is_reflection_class_loader (heap : list ClassLoader) (loader : oop) : bool :=
  match loader with
  | Some a =>
      match reflect_DelegatingClassLoader_klass, heap !! a with
      | Some delegating_cl_class, Some l =>
          is_subtype_of (loader_klass l) delegating_cl_class
      | _, _ => false
      end
  | None => false
  end.

Definition non_reflection_class_loader (heap : list ClassLoader) (loader : oop) : oop :=
  if is_reflection_class_loader heap loader then parent heap loader else loader.

(** The [while (cl != NULL)] loop of [is_trusted_loader]. *)
Fixpoint is_trusted_loop (fuel : nat) (heap : list ClassLoader) (cl loader : oop)
    : option bool :=
  match fuel with
  | O => None
  | S fuel =>
      if bool_decide (cl <> None) then
        if bool_decide (cl = loader) then Some true
        else is_trusted_loop fuel heap (parent heap cl) loader
      else Some false
  end.

Definition is_trusted_loader (fuel : nat) (heap : list ClassLoader) (loader : oop)
    : option bool :=
  let loader := non_reflection_class_loader heap loader in
  is_trusted_loop fuel heap java_system_loader loader.

(** [cl] is the parent of [loader], or the parent of its parent, and so
    on; the last one in the line is the null loader. *)
Inductive delegates_to (heap : list ClassLoader) : oop -> oop -> Prop :=
| delegates_parent a : delegates_to heap (Some a) (parent heap (Some a))
| delegates_further a p cl :
    parent heap (Some a) = Some p ->
    delegates_to heap (Some p) cl ->
    delegates_to heap (Some a) cl.

(** A loader is created with its parent: every parent lies before its
    child in the store. *)
Definition parents_first (heap : list ClassLoader) : Prop :=
  forall a l p, heap !! a = Some l -> parent_field l = Some p -> (p < a)%nat.

(** ** java.lang.invoke.MethodType *)

Record MethodType := {
  rtype : oop;                    (* _rtype_offset *)
  ptypes : list oop               (* _ptypes_offset *)
}.

(** The loop of [java_lang_invoke_MethodType::equals],
    [for (int i = ptype_count(mt1) - 1; i >= 0; i--)], with [n] for
    [i + 1]: whether it returns false. *)
Fixpoint ptypes_differ_below (pts1 pts2 : list oop) (n : nat) : bool :=
  match n with
  | O => false
  | S i =>
      if bool_decide (pts1 !! i <> pts2 !! i) then true
      else ptypes_differ_below pts1 pts2 i
  end.

(** [java_lang_invoke_MethodType::equals(oop mt1, oop mt2)] for the method
    types at two addresses of their store; [None] stands for a read of an
    address that holds no method type. *)
Definition java_lang_invoke_MethodType_equals (heap : list MethodType)
    (mt1 mt2 : nat) : option bool :=
  if bool_decide (mt1 = mt2) then Some true
  else
    match heap !! mt1, heap !! mt2 with
    | Some t1, Some t2 =>
        if bool_decide (rtype t1 <> rtype t2) then Some false
        else if bool_decide (length (ptypes t1) <> length (ptypes t2)) then Some false
        else Some (negb (ptypes_differ_below (ptypes t1) (ptypes t2)
                           (length (ptypes t1))))
    | _, _ => None
    end.

(** The platform loader, the system loader and a loader of the
    application, each the parent of the next; and two method types
    [(C2, C3) -> C1] with one [(C2) -> C1]. *)
Definition sample_loaders : list ClassLoader :=
  [ {| loader_klass := 10; parent_field := None |};
    {| loader_klass := 11; parent_field := Some 0%nat |};
    {| loader_klass := 12; parent_field := Some 1%nat |} ].

Definition sample_method_types : list MethodType :=
  [ {| rtype := Some 1%nat; ptypes := [Some 2%nat; Some 3%nat] |};
    {| rtype := Some 1%nat; ptypes := [Some 2%nat; Some 3%nat] |};
    {| rtype := Some 1%nat; ptypes := [Some 2%nat] |} ].

(** ** java.lang.String *)

(** [java_lang_String::CODER_LATIN1] and [CODER_UTF16] of javaClasses.hpp. *)
Definition CODER_LATIN1 : Z := 0.
Definition CODER_UTF16 : Z := 1.

(** What the code reads of a [java.lang.String]: its [byte[]] value,
    [None] for [NULL], and its coder.  A [jbyte] is a [Z] from -128 to
    127, a [jchar] one from 0 to 65535. *)
Record JavaString := {
  value : option (list Z);        (* value_offset *)
  coder : Z                       (* coder_offset *)
}.

Variable CompactStrings : bool.

(** Whether the low byte of a [jchar] comes first in memory. *)
Variable little_endian : bool.

(** The cast [(jbyte) c]. *)
Definition to_jbyte (c : Z) : Z := (c + 128) mod 256 - 128.

(** [typeArrayOop::byte_at], [byte_at_put], [char_at] and [char_at_put] on
    a [byte[]]: the [jchar] at [index] lies in the bytes [2 * index] and
    [2 * index + 1].  The code keeps every index below the length. *)
Definition byte_at (a : list Z) (index : nat) : Z := default 0 (a !! index).

Definition byte_at_put (a : list Z) (index : nat) (b : Z) : list Z :=
  <[index := b]> a.

Definition low_byte (index : nat) : nat :=
  (2 * index + (if little_endian then 0 else 1))%nat.

Definition high_byte (index : nat) : nat :=
  (2 * index + (if little_endian then 1 else 0))%nat.

Definition char_at (a : list Z) (index : nat) : Z :=
  byte_at a (low_byte index) mod 256
  + 256 * (byte_at a (high_byte index) mod 256).

Definition char_at_put (a : list Z) (index : nat) (c : Z) : list Z :=
  byte_at_put (byte_at_put a (low_byte index) (to_jbyte c))
    (high_byte index) (to_jbyte (c / 256)).

(** [java_lang_String::is_latin1] and [java_lang_String::length(oop,
    typeArrayOop)] of javaClasses.inline.hpp. *)
Definition is_latin1 (java_string : JavaString) : bool :=
  coder java_string =? CODER_LATIN1.

Definition java_lang_String_length (java_string : JavaString) : nat :=
  match value java_string with
  | None => 0%nat
  | Some a =>
      if is_latin1 java_string then length a else Nat.shiftr (length a) 1
  end.

(** [UNICODE::is_latin1(jchar c)]. *)
Definition UNICODE_is_latin1 (c : Z) : bool := c <=? 255.

(** [!is_latin1 ? value->char_at(index)
               : ((jchar) value->byte_at(index)) & 0xff] *)
Definition jchar_at (latin1 : bool) (a : list Z) (index : nat) : Z :=
  if negb latin1 then char_at a index
  else Z.land (to_ushort (byte_at a index)) 255.

(** [java_lang_String::basic_create(length, is_latin1, CHECK_NH)] in a
    store of strings: the new string, with a zeroed array, is put at the
    end of the store, and its address is returned.  The instance and the
    array are one allocation request each. *)
Definition basic_create (strings : list JavaString) (len : nat)
    (latin1 : bool) : M (list JavaString * nat) :=
  allocate ;;;
  let arr_length := if latin1 then len else Nat.shiftl len 1 in
  allocate ;;;
  ret (strings ++ [ {| value := Some (replicate arr_length 0);
                       coder := if latin1 then CODER_LATIN1
                                else CODER_UTF16 |} ],
       length strings).

(** The first loop of [java_lang_String::char_converter], with [n] for
    [length - index]: the [index] it ends with. *)
Fixpoint first_from_char (latin1 : bool) (a : list Z) (from_char : Z)
    (index n : nat) : nat :=
  match n with
  | O => index
  | S n' =>
      let c := jchar_at latin1 a index in
      if c =? from_char then index
      else first_from_char latin1 a from_char (S index) n'
  end.

(** Its second loop: the [to_is_latin1] it ends with. *)
Fixpoint scan_is_latin1 (a : list Z) (from_char : Z) (index n : nat)
    : bool :=
  match n with
  | O => true
  | S n' =>
      let c := char_at a index in
      if negb (c =? from_char) && negb (UNICODE_is_latin1 c) then false
      else scan_is_latin1 a from_char (S index) n'
  end.

(** Its third loop, "Copy contents": the [to_buffer] it ends with. *)
Fixpoint copy_contents (latin1 to_is_latin1 : bool) (from_buffer : list Z)
    (from_char to_char : Z) (index n : nat) (to_buffer : list Z)
    : list Z :=
  match n with
  | O => to_buffer
  | S n' =>
      let c := jchar_at latin1 from_buffer index in
      let c := if c =? from_char then to_char else c in
      copy_contents latin1 to_is_latin1 from_buffer from_char to_char
        (S index) n'
        (if negb to_is_latin1 then char_at_put to_buffer index c
         else byte_at_put to_buffer index (to_jbyte c))
  end.

(** [java_lang_String::char_converter(java_string, from_char, to_char,
    TRAPS)] for the string at an address of the store: the store it leaves
    and the address it returns.  An address that holds no string is
    returned as it is. *)
Definition char_converter (strings : list JavaString) (java_string : nat)
    (from_char to_char : Z) : M (list JavaString * nat) :=
  match strings !! java_string with
  | None => ret (strings, java_string)
  | Some obj =>
      let len := java_lang_String_length obj in
      let latin1 := is_latin1 obj in
      let a := default [] (value obj) in
      let index := first_from_char latin1 a from_char 0 len in
      if (index =? len)%nat then ret (strings, java_string)
      else
        let to_is_latin1 :=
          if CompactStrings && UNICODE_is_latin1 to_char then
            if latin1 then true
            else if negb (UNICODE_is_latin1 from_char) then
                   scan_is_latin1 a from_char 0 len
                 else false
          else false in
        created <- basic_create strings len to_is_latin1 ;;
        let string := snd created in
        let to_buffer :=
          default [] (fst created !! string ≫= value) in
        let to_buffer :=
          copy_contents latin1 to_is_latin1 a from_char to_char 0 len
            to_buffer in
        ret (alter (fun o => {| value := Some to_buffer;
                                coder := coder o |}) string (fst created),
             string)
  end.


(** [java_lang_String::equals(oop java_string, const jchar* chars, int
    len)]: its loops, with [n] for [len - i], and the function. *)
Fixpoint differs_from (latin1 : bool) (a : list Z) (chars : list Z)
    (i n : nat) : bool :=
  match n with
  | O => false
  | S n' =>
      if negb (jchar_at latin1 a i =? default 0 (chars !! i)) then true
      else differs_from latin1 a chars (S i) n'
  end.

Definition java_lang_String_equals_chars (java_string : JavaString)
    (chars : list Z) (len : nat) : bool :=
  let a := default [] (value java_string) in
  let length := java_lang_String_length java_string in
  if negb (length =? len)%nat then false
  else negb (differs_from (is_latin1 java_string) a chars 0 len).




(** [NEW_RESOURCE_ARRAY_RETURN_NULL(jchar, length)]: [None] for [NULL],
    else an array of [length] characters, whatever they are. *)
Variable NEW_RESOURCE_ARRAY_RETURN_NULL : nat -> option (list Z).



(** The characters of a string, as [java_lang_String::as_unicode_string]
    puts them in its result. *)
Definition unicode_of (java_string : JavaString) : list Z :=
  let a := default [] (value java_string) in
  map (jchar_at (is_latin1 java_string) a)
      (seq 0 (java_lang_String_length java_string)).




(** Two strings of one character sequence, ["a/b"] as latin1 and as
    UTF16, and an UTF16 string with a character that is not latin1. *)
Definition sample_strings : list JavaString :=
  [ {| value := Some [97; 47; 98]; coder := CODER_LATIN1 |};
    {| value := Some (if little_endian then [97; 0; 47; 0; 98; 0]
                      else [0; 97; 0; 47; 0; 98]);
       coder := CODER_UTF16 |};
    {| value := Some (if little_endian then [97; 0; -84; 32; 98; 0]
                      else [0; 97; 32; -84; 0; 98]);
       coder := CODER_UTF16 |} ].


(** ** The hidden marker of a capture, as the specification words it *)

(** "If such a hidden frame occurs before any frame has been recorded, the
    store's one-shot hidden-top-frame marker is set": stated of one capture
    with hidden-frame suppression enabled, [f] being the hidden frame and
    [pre] the frames of the stack before it, none of which is recorded. *)
Definition hidden_frame_before_first_record_marks (method : option Method)
    (frames : list frame) (s : vm) : Prop :=
  ShowHiddenFrames = false ->
  forall pre f post s',
    walk frames = pre ++ f :: post ->
    is_hidden (fst f) = true ->
    survivors (t_klass (throwable s)) pre = [] ->
    fill_in_stack_trace_TRAPS method (Some frames) s = (Ok tt, s') ->
    exists a c,
      backtrace (throwable s') = Some a
      /\ chunks s' !! a = Some c
      /\ c_hidden c <> None.

(** The constructor of an exception class that is a hidden class, and the
    stack of a thread that runs it in [Main.main]. *)
Definition m_hidden_init : Method :=
  {| name := "<init>"; method_holder := MyException_klass;
     orig_method_idnum := 0; constants_version := 0;
     is_hidden := true; is_native := false |}.

Definition hidden_init_stack : list frame :=
  [ interpreted_frame m_fillInStackTrace 0;
    interpreted_frame m_hidden_init 4;
    interpreted_frame m_main 3 ].

(** [Main.main] calls [Throwable.fillInStackTrace] on an exception it
    holds: a stack on which a frame of [fillInStackTrace] and one of a
    constructor come after [Main.main]. *)
Definition refill_stack : list frame :=
  [ interpreted_frame m_fillInStackTrace 0;
    interpreted_frame m_init 4;
    interpreted_frame m_main 3;
    interpreted_frame m_fillInStackTrace 0;
    interpreted_frame m_init 4;
    interpreted_frame m_run 7 ].

(** * Properties *)

(** ** Reasoning about [TRAPS] computations *)

Lemma bind_inv {A B} (m : M A) (k : A -> M B) s r s' :
  bind m k s = (r, s') ->
  (exists a s1, m s = (Ok a, s1) /\ k a s1 = (r, s'))
  \/ (exists e, m s = (Throw e, s') /\ r = Throw e).
Proof.
  unfold bind. destruct (m s) as [[a|e] s1]; intros H.
  - left. eauto.
  - right. inversion H; subst. eauto.
Qed.

Lemma bind_Ok {A B} (m : M A) (k : A -> M B) s a s1 :
  m s = (Ok a, s1) -> bind m k s = k a s1.
Proof. unfold bind. intros ->. reflexivity. Qed.

Lemma bind_Throw {A B} (m : M A) (k : A -> M B) s e s1 :
  m s = (Throw e, s1) -> bind m k s = (Throw e, s1).
Proof. unfold bind. intros ->. reflexivity. Qed.

Lemma served_le s k k' : (k' <= k)%nat -> served s k -> served s k'.
Proof. intros Hle H i Hi. apply H. lia. Qed.

Lemma allocate_served s :
  served s 1 ->
  allocate s = (Ok tt, with_allocations s (S (allocations s))).
Proof.
  intros H. unfold allocate.
  specialize (H 0%nat ltac:(lia)). rewrite Nat.add_0_r in H. rewrite H. reflexivity.
Qed.

Lemma served_step s k :
  served s (S k) -> served (with_allocations s (S (allocations s))) k.
Proof.
  intros H i Hi. specialize (H (S i) ltac:(lia)).
  rewrite Nat.add_succ_r in H. exact H.
Qed.

Lemma allocate_inv r s s' :
  allocate s = (r, s') ->
  s' = with_allocations s (S (allocations s))
  /\ ((r = Ok tt /\ alloc_ok (allocations s) = true)
      \/ (r = Throw OutOfMemoryError /\ alloc_ok (allocations s) = false)).
Proof.
  unfold allocate. destruct (alloc_ok _); intros H; inversion H; subst; auto.
Qed.

Lemma same_objects_refl s : same_objects s s.
Proof. repeat split. Qed.

Lemma same_objects_trans s1 s2 s3 :
  same_objects s1 s2 -> same_objects s2 s3 -> same_objects s1 s3.
Proof.
  intros (?&?&?&?) (?&?&?&?). repeat split; congruence.
Qed.

(** ** The builder *)

Lemma expand_served b s :
  served s 5 -> expand b s = (Ok (expanded_builder b s), expanded_state b s).
Proof.
  intros H. unfold expand.
  do 5 (erewrite bind_Ok;
        [| apply allocate_served; eapply served_le; [|eassumption]; lia ];
        apply served_step in H).
  reflexivity.
Qed.

Lemma not_served s k j :
  (j < k)%nat -> alloc_ok (allocations s + j) = false -> ~ served s k.
Proof. intros Hj Hf Hs. rewrite (Hs j Hj) in Hf. discriminate Hf. Qed.

Lemma expand_inv b s r s' :
  expand b s = (r, s') ->
  (r = Ok (expanded_builder b s) /\ s' = expanded_state b s /\ served s 5)
  \/ (r = Throw OutOfMemoryError /\ chunks s' = chunks s /\ boxes s' = boxes s
      /\ same_objects s s' /\ ~ served s 5).
Proof.
  unfold expand. intros H.
  apply bind_inv in H as [(a0 & s0 & Ha & H) | (e & Ha & ->)];
    apply allocate_inv in Ha as [-> [[Hr E0]|[Hr E0]]]; try discriminate Hr;
    [cbv beta in H; clear a0 Hr
    | inversion Hr; subst; right; repeat split;
      apply (not_served s 5 0); [lia | rewrite Nat.add_0_r; exact E0] ].
  apply bind_inv in H as [(a1 & s1 & Ha & H) | (e & Ha & ->)];
    apply allocate_inv in Ha as [-> [[Hr E1]|[Hr E1]]]; try discriminate Hr;
    [cbv beta in H; clear a1 Hr
    | inversion Hr; subst; right; repeat split;
      apply (not_served s 5 1); [lia | rewrite Nat.add_1_r; exact E1] ].
  apply bind_inv in H as [(a2 & s2 & Ha & H) | (e & Ha & ->)];
    apply allocate_inv in Ha as [-> [[Hr E2]|[Hr E2]]]; try discriminate Hr;
    [cbv beta in H; clear a2 Hr
    | inversion Hr; subst; right; repeat split;
      apply (not_served s 5 2); [lia|];
      replace (allocations s + 2)%nat with (S (S (allocations s))) by lia; exact E2 ].
  apply bind_inv in H as [(a3 & s3 & Ha & H) | (e & Ha & ->)];
    apply allocate_inv in Ha as [-> [[Hr E3]|[Hr E3]]]; try discriminate Hr;
    [cbv beta in H; clear a3 Hr
    | inversion Hr; subst; right; repeat split;
      apply (not_served s 5 3); [lia|];
      replace (allocations s + 3)%nat with (S (S (S (allocations s)))) by lia;
      exact E3 ].
  apply bind_inv in H as [(a4 & s4 & Ha & H) | (e & Ha & ->)];
    apply allocate_inv in Ha as [-> [[Hr E4]|[Hr E4]]]; try discriminate Hr;
    [cbv beta in H; clear a4 Hr
    | inversion Hr; subst; right; repeat split;
      apply (not_served s 5 4); [lia|];
      replace (allocations s + 4)%nat with (S (S (S (S (allocations s))))) by lia;
      exact E4 ].
  left. unfold bind, get, modify, ret in H. inversion H; subst.
  repeat split.
  intros i Hi.
  destruct i as [|[|[|[|[|i]]]]]; [| | | | |lia].
  - rewrite Nat.add_0_r. exact E0.
  - rewrite Nat.add_1_r. exact E1.
  - replace (allocations s + 2)%nat with (S (S (allocations s))) by lia. exact E2.
  - replace (allocations s + 3)%nat with (S (S (S (allocations s)))) by lia. exact E3.
  - replace (allocations s + 4)%nat with (S (S (S (S (allocations s))))) by lia.
    exact E4.
Qed.

Lemma push_in_place b method bci s :
  (_index b < trace_chunk_size)%nat ->
  push b method bci s = (Ok (advanced b), written b method bci s).
Proof.
  intros Hlt. unfold push.
  destruct (Nat.leb_spec trace_chunk_size (_index b)); [lia|].
  reflexivity.
Qed.

Lemma push_expanding b method bci s :
  (trace_chunk_size <= _index b)%nat ->
  served s 5 ->
  push b method bci s
  = (Ok (advanced (expanded_builder b s)),
     written (expanded_builder b s) method bci (expanded_state b s)).
Proof.
  intros Hle Hs. unfold push.
  destruct (Nat.leb_spec trace_chunk_size (_index b)); [|lia].
  erewrite bind_Ok by (apply expand_served; assumption).
  reflexivity.
Qed.

Lemma push_inv b method bci s r s' :
  push b method bci s = (r, s') ->
  ((_index b < trace_chunk_size)%nat
   /\ r = Ok (advanced b) /\ s' = written b method bci s)
  \/ ((trace_chunk_size <= _index b)%nat
      /\ r = Ok (advanced (expanded_builder b s))
      /\ s' = written (expanded_builder b s) method bci (expanded_state b s))
  \/ ((trace_chunk_size <= _index b)%nat
      /\ r = Throw OutOfMemoryError /\ chunks s' = chunks s
      /\ boxes s' = boxes s /\ same_objects s s' /\ ~ served s 5).
Proof.
  intros H.
  destruct (Nat.lt_ge_cases (_index b) trace_chunk_size) as [Hlt|Hge].
  - left. rewrite push_in_place in H by assumption. inversion H; auto.
  - right. unfold push in H.
    destruct (Nat.leb_spec trace_chunk_size (_index b)); [|lia].
    apply bind_inv in H as [(b1 & s1 & He & H) | (e & He & ->)];
      apply expand_inv in He as [(Hr & -> & _) | (Hr & ? & ? & ? & ?)];
      try discriminate Hr.
    + left. inversion Hr; subst. inversion H; subst. auto.
    + right. inversion Hr; subst. auto 10.
Qed.

Lemma set_has_hidden_top_frame_set b s x :
  _has_hidden_top_frame b = Some x ->
  set_has_hidden_top_frame b s = (Ok b, s).
Proof. unfold set_has_hidden_top_frame. intros ->. reflexivity. Qed.

Lemma set_has_hidden_top_frame_unset b s :
  _has_hidden_top_frame b = None ->
  served s 1 ->
  set_has_hidden_top_frame b s = (Ok (marked b s), marked_state b s).
Proof.
  unfold set_has_hidden_top_frame. intros -> Hs.
  erewrite bind_Ok by (apply allocate_served; assumption).
  reflexivity.
Qed.

Lemma set_has_hidden_top_frame_inv b s r s' :
  set_has_hidden_top_frame b s = (r, s') ->
  (_has_hidden_top_frame b <> None /\ r = Ok b /\ s' = s)
  \/ (_has_hidden_top_frame b = None /\ r = Ok (marked b s) /\ s' = marked_state b s)
  \/ (_has_hidden_top_frame b = None /\ r = Throw OutOfMemoryError
      /\ chunks s' = chunks s /\ boxes s' = boxes s /\ same_objects s s'
      /\ ~ served s 1).
Proof.
  unfold set_has_hidden_top_frame.
  destruct (_has_hidden_top_frame b) as [x|] eqn:Hh; intros H.
  - left. inversion H; subst. auto.
  - right.
    apply bind_inv in H as [(a & s1 & Ha & H) | (e & Ha & ->)];
      apply allocate_inv in Ha as [-> [[Hr E]|[Hr E]]]; try discriminate Hr.
    + left. inversion H; subst. auto.
    + right. inversion Hr; subst. repeat split.
      apply (not_served s 1 0); [lia | rewrite Nat.add_0_r; exact E].
Qed.

(** C3 (as amended): a call of [expand] whose allocation requests are
    served allocates one new chunk, which becomes the builder's head; the
    next link of the PREVIOUS head is set to the new chunk, the new chunk's
    own next link is null, and the handle of the store, where iteration
    begins, stays where it was: chunks are linked oldest to newest. *)
Theorem expand_links_previous_head_to_new b s :
  served s 5 ->
  exists b' s',
    expand b s = (Ok b', s')
    /\ _head b' = Some (length (chunks s))
    /\ _index b' = 0%nat
    /\ _backtrace b' = _backtrace b
    /\ length (chunks s') = S (length (chunks s))
    /\ chunks s' !! length (chunks s) = Some new_chunk
    /\ next_chunk (chunks s') (_head b') = None
    /\ (forall old, _head b = Some old -> (old < length (chunks s))%nat ->
          next_chunk (chunks s') (Some old) = _head b')
    /\ (forall a, Some a <> _head b -> (a < length (chunks s))%nat ->
          chunks s' !! a = chunks s !! a).
Proof.
  intros Hs. eexists _, _. split; [apply expand_served; exact Hs|].
  cbn [expanded_builder expanded_state _head _index _backtrace chunks with_chunks].
  assert (Hlen : length (chunk_put (set_c_next (Some (length (chunks s))))
                           (_head b) (chunks s)) = length (chunks s)).
  { unfold chunk_put. destruct (_head b); [apply length_alter|reflexivity]. }
  assert (Hnew : (chunk_put (set_c_next (Some (length (chunks s)))) (_head b) (chunks s)
                  ++ [new_chunk]) !! length (chunks s) = Some new_chunk).
  { rewrite lookup_app_r by lia. rewrite Hlen, Nat.sub_diag. reflexivity. }
  repeat split.
  - rewrite length_app, Hlen. cbn. lia.
  - exact Hnew.
  - unfold next_chunk. rewrite Hnew. reflexivity.
  - intros old Hold Hlt. unfold next_chunk.
    rewrite lookup_app_l by lia. rewrite Hold. cbn [chunk_put].
    rewrite list_lookup_alter_eq.
    destruct (lookup_lt_is_Some_2 (chunks s) old Hlt) as [c ->]. reflexivity.
  - intros a Hne Hlt. rewrite lookup_app_l by lia.
    unfold chunk_put. destruct (_head b) as [old|]; [|reflexivity].
    apply list_lookup_alter_ne. congruence.
Qed.

(** C4 (as amended): [push] handles chunk overflow itself.  Below
    [trace_chunk_size] it writes the frame at the cursor of the head chunk
    and allocates nothing; once the cursor has reached [trace_chunk_size]
    it calls [expand] and writes the frame at index 0 of the new head. *)
Theorem push_expands_at_capacity b method bci s :
  ((_index b < trace_chunk_size)%nat ->
     exists b' s',
       push b method bci s = (Ok b', s')
       /\ _head b' = _head b
       /\ _index b' = S (_index b)
       /\ allocations s' = allocations s
       /\ chunks s'
          = chunk_put (write_frame (_index b) method (smear bci)) (_head b) (chunks s))
  /\ ((trace_chunk_size <= _index b)%nat -> served s 5 ->
     exists b' s',
       push b method bci s = (Ok b', s')
       /\ _head b' = Some (length (chunks s))
       /\ _index b' = 1%nat
       /\ allocations s' = (5 + allocations s)%nat
       /\ chunks s'
          = chunk_put (set_c_next (Some (length (chunks s)))) (_head b) (chunks s)
            ++ [write_frame 0 method (smear bci) new_chunk]).
Proof.
  split.
  - intros Hlt. eexists _, _. split; [apply push_in_place; exact Hlt|].
    repeat split.
  - intros Hge Hs. eexists _, _. split; [apply push_expanding; assumption|].
    repeat split.
    cbn [written expanded_builder expanded_state chunks with_chunks _head _index chunk_put].
    assert (Hlen : length (chunk_put (set_c_next (Some (length (chunks s))))
                             (_head b) (chunks s)) = length (chunks s)).
    { unfold chunk_put. destruct (_head b); [apply length_alter|reflexivity]. }
    rewrite <- Hlen at 1.
    rewrite <- (Nat.add_0_r (length (chunk_put _ _ _))).
    rewrite alter_app_r. reflexivity.
Qed.

(** C10: [set_has_hidden_top_frame] is idempotent.  Calling it twice leaves
    the builder and the whole machine state as calling it once does; when
    the marker is already set, a call changes nothing and makes no
    allocation request. *)
Theorem set_has_hidden_top_frame_idempotent b s :
  (b' <- set_has_hidden_top_frame b ;; set_has_hidden_top_frame b') s
  = set_has_hidden_top_frame b s
  /\ (_has_hidden_top_frame b <> None ->
      set_has_hidden_top_frame b s = (Ok b, s)).
Proof.
  split.
  - destruct (set_has_hidden_top_frame b s) as [r s'] eqn:H.
    pose proof H as H'.
    apply set_has_hidden_top_frame_inv in H' as
      [(Hset & -> & ->) | [(Hnone & -> & ->) | (Hnone & -> & _)]].
    + erewrite bind_Ok by exact H. exact H.
    + erewrite bind_Ok by exact H.
      eapply set_has_hidden_top_frame_set. reflexivity.
    + erewrite bind_Throw by exact H. reflexivity.
  - intros Hset. destruct (_has_hidden_top_frame b) as [x|] eqn:Hx; [|congruence].
    eapply set_has_hidden_top_frame_set. exact Hx.
Qed.

(** ** Chunks and chains *)

Lemma insert_pad {A} (l : list A) (x d : A) (n : nat) :
  (length l < n)%nat ->
  <[length l := x]> (l ++ replicate (n - length l) d)
  = (l ++ [x]) ++ replicate (n - S (length l)) d.
Proof.
  intros Hlt.
  replace (n - length l)%nat with (S (n - S (length l))) by lia.
  pose proof (insert_app_r l (replicate (S (n - S (length l))) d) 0 x) as H.
  rewrite Nat.add_0_r in H. rewrite H. cbn. rewrite <- app_assoc. reflexivity.
Qed.

Lemma insert_pad_fmap {A B} (g : A -> B) (l : list A) (a : A) (d : B) (n : nat) :
  (length l < n)%nat ->
  <[length l := g a]> ((g <$> l) ++ replicate (n - length l) d)
  = (g <$> (l ++ [a])) ++ replicate (n - length (l ++ [a])) d.
Proof.
  intros Hlt. rewrite fmap_app, length_app. cbn. rewrite Nat.add_1_r.
  rewrite <- (length_fmap g l). apply insert_pad. rewrite length_fmap. exact Hlt.
Qed.

Lemma write_frame_chunk_of seg nxt hid method bci :
  (length seg < trace_chunk_size)%nat ->
  write_frame (length seg) method (smear bci) (chunk_of seg nxt hid)
  = chunk_of (seg ++ [(method, bci)]) nxt hid.
Proof.
  intros Hlt. unfold write_frame, chunk_of. cbn [c_methods c_bcis c_mirrors c_names c_next c_hidden].
  f_equal.
  - exact (insert_pad_fmap (fun f => to_ushort (orig_method_idnum (fst f)))
             seg (method, bci) 0 trace_chunk_size Hlt).
  - exact (insert_pad_fmap
             (fun f => merge_bci_and_version (smear (snd f)) (constants_version (fst f)))
             seg (method, bci) 0 trace_chunk_size Hlt).
  - exact (insert_pad_fmap (fun f => java_mirror (method_holder (fst f)))
             seg (method, bci) None trace_chunk_size Hlt).
  - exact (insert_pad_fmap (fun f => Some (name (fst f)))
             seg (method, bci) None trace_chunk_size Hlt).
Qed.

Lemma new_chunk_chunk_of : new_chunk = chunk_of [] None None.
Proof. unfold new_chunk, chunk_of. cbn. rewrite Nat.sub_0_r. reflexivity. Qed.

Lemma chain_bounds a rows cl hd idx :
  chain a rows cl hd idx ->
  (S hd = a + length cl)%nat /\ (a <= hd)%nat /\ (idx <= trace_chunk_size)%nat.
Proof.
  induction 1 as [a rows hid Hle | a seg rows hid cl hd idx Hseg Hch IH]; cbn.
  - lia.
  - lia.
Qed.

Lemma chain_length a rows cl hd idx :
  chain a rows cl hd idx ->
  length rows = ((hd - a) * trace_chunk_size + idx)%nat.
Proof.
  induction 1 as [a rows hid Hle | a seg rows hid cl hd idx Hseg Hch IH].
  - rewrite Nat.sub_diag. lia.
  - apply chain_bounds in Hch as (_ & Hle & _).
    rewrite length_app, IH, Hseg.
    replace (hd - a)%nat with (S (hd - S a)) by lia. lia.
Qed.

(** Writing one more frame into a last chunk that has room. *)
Lemma chain_write a rows cl hd idx method bci :
  chain a rows cl hd idx ->
  (idx < trace_chunk_size)%nat ->
  chain a (rows ++ [(method, bci)])
    (alter (write_frame idx method (smear bci)) (hd - a)%nat cl) hd (S idx).
Proof.
  induction 1 as [a rows hid Hle | a seg rows hid cl hd idx Hseg Hch IH]; intros Hlt.
  - rewrite Nat.sub_diag. cbn [alter list_alter].
    rewrite write_frame_chunk_of by exact Hlt.
    replace (S (length rows)) with (length (rows ++ [(method, bci)]))
      by (rewrite length_app; cbn; lia).
    apply chain_last. rewrite length_app. cbn. lia.
  - pose proof (chain_bounds _ _ _ _ _ Hch) as (_ & Hle & _).
    replace (hd - a)%nat with (S (hd - S a)) by lia.
    cbn [alter list_alter]. rewrite <- app_assoc.
    apply chain_cons; [exact Hseg|]. apply IH. exact Hlt.
Qed.

(** Linking a new chunk behind a full last chunk and writing one frame
    into it. *)
Lemma chain_grow a rows cl hd idx method bci :
  chain a rows cl hd idx ->
  (trace_chunk_size <= idx)%nat ->
  (0 < trace_chunk_size)%nat ->
  chain a (rows ++ [(method, bci)])
    (alter (set_c_next (Some (S hd))) (hd - a)%nat cl
     ++ [write_frame 0 method (smear bci) new_chunk]) (S hd) 1.
Proof.
  induction 1 as [a rows hid Hle | a seg rows hid cl hd idx Hseg Hch IH];
    intros Hge Hpos.
  - rewrite Nat.sub_diag. cbn [alter list_alter app].
    change (set_c_next (Some (S a)) (chunk_of rows None hid))
      with (chunk_of rows (Some (S a)) hid).
    apply chain_cons; [lia|].
    rewrite new_chunk_chunk_of.
    pose proof (write_frame_chunk_of [] None None method bci Hpos) as W.
    change (length (@nil (Method * Z))) with 0%nat in W. rewrite W.
    apply (chain_last (S a) [(method, bci)] None). cbn. lia.
  - pose proof (chain_bounds _ _ _ _ _ Hch) as (_ & Hle & _).
    replace (hd - a)%nat with (S (hd - S a)) by lia.
    cbn [alter list_alter app]. rewrite <- app_assoc.
    apply chain_cons; [exact Hseg|]. apply IH; assumption.
Qed.

(** The hidden marker of a chunk is no part of what the chain holds. *)
Lemma chain_mark a rows cl hd idx x k :
  chain a rows cl hd idx ->
  chain a rows (alter (set_c_hidden x) k cl) hd idx.
Proof.
  intros H. revert k.
  induction H as [a rows hid Hle | a seg rows hid cl hd idx Hseg Hch IH]; intros k.
  - destruct k as [|k]; cbn [alter list_alter].
    + change (set_c_hidden x (chunk_of rows None hid)) with (chunk_of rows None x).
      apply chain_last. exact Hle.
    + apply chain_last. exact Hle.
  - destruct k as [|k]; cbn [alter list_alter].
    + change (set_c_hidden x (chunk_of seg (Some (S a)) hid))
        with (chunk_of seg (Some (S a)) x).
      apply chain_cons; assumption.
    + apply chain_cons; [exact Hseg|]. apply IH.
Qed.

(** ** The builder keeps its store a chain *)

Lemma chunk_put_length f o cs : length (chunk_put f o cs) = length cs.
Proof. unfold chunk_put. destruct o; [apply length_alter|reflexivity]. Qed.

Lemma written_expanded_chunks b method bci s :
  chunks (written (expanded_builder b s) method bci (expanded_state b s))
  = chunk_put (set_c_next (Some (length (chunks s)))) (_head b) (chunks s)
    ++ [write_frame 0 method (smear bci) new_chunk].
Proof.
  cbn [written expanded_builder expanded_state chunks with_chunks _head _index chunk_put].
  pose proof (alter_app_r (write_frame 0 method (smear bci))
                (chunk_put (set_c_next (Some (length (chunks s)))) (_head b) (chunks s))
                [new_chunk] 0) as H.
  rewrite Nat.add_0_r, chunk_put_length in H. exact H.
Qed.

Lemma BacktraceBuilder_new_inv s r s' :
  BacktraceBuilder_new s = (r, s') ->
  same_objects s s'
  /\ match r with
     | Ok b => store_holds b s' [] /\ _has_hidden_top_frame b = None /\ served s 5
               /\ _backtrace b = Some (length (chunks s))
     | Throw e => e = OutOfMemoryError /\ ~ served s 5
     end.
Proof.
  unfold BacktraceBuilder_new. intros H.
  apply bind_inv in H as [(b1 & s1 & He & H) | (e & He & ->)];
    apply expand_inv in He as [(Hr & -> & Hs) | (Hr & ? & ? & ? & ?)];
    try discriminate Hr.
  - inversion Hr; subst; clear Hr. inversion H; subst; clear H.
    split; [repeat split|]. split; [|auto].
    exists (chunks s), [new_chunk], (length (chunks s)).
    cbn. repeat split. rewrite new_chunk_chunk_of.
    apply (chain_last (length (chunks s)) [] None). cbn. lia.
  - inversion Hr; subst. auto.
Qed.

Lemma store_holds_push b s rows method bci r s' :
  (0 < trace_chunk_size)%nat ->
  store_holds b s rows ->
  push b method bci s = (r, s') ->
  same_objects s s'
  /\ match r with
     | Ok b' => store_holds b' s' (rows ++ [(method, bci)])
                /\ _has_hidden_top_frame b' = _has_hidden_top_frame b
     | Throw e => e = OutOfMemoryError /\ ~ served s 5
     end.
Proof.
  intros Hpos (pre & cl & hd & Hc & Hb & Hh & Hch) H.
  pose proof (chain_bounds _ _ _ _ _ Hch) as (Hlen & Hle & _).
  apply push_inv in H as
    [(Hlt & -> & ->) | [(Hge & -> & ->) | (Hge & -> & _ & _ & Hsame & Hns)]].
  - split; [repeat split|]. split; [|reflexivity].
    exists pre, (alter (write_frame (_index b) method (smear bci)) (hd - length pre)%nat cl), hd.
    cbn [written advanced chunks with_chunks _backtrace _head _index].
    rewrite Hh, Hc. cbn [chunk_put]. rewrite alter_app_r_alt by exact Hle.
    repeat split; [exact Hb|]. apply chain_write; assumption.
  - split; [repeat split|]. split; [|reflexivity].
    exists pre, (alter (set_c_next (Some (S hd))) (hd - length pre)%nat cl
                 ++ [write_frame 0 method (smear bci) new_chunk]), (S hd).
    rewrite written_expanded_chunks.
    cbn [advanced expanded_builder _backtrace _head _index].
    rewrite Hh, Hc. cbn [chunk_put]. rewrite length_app, <- Hlen.
    rewrite alter_app_r_alt by exact Hle. rewrite <- app_assoc.
    repeat split; [exact Hb|]. eapply chain_grow; eassumption.
  - auto.
Qed.

Lemma store_holds_mark b s rows r s' :
  store_holds b s rows ->
  set_has_hidden_top_frame b s = (r, s') ->
  same_objects s s'
  /\ match r with
     | Ok b' => store_holds b' s' rows /\ _has_hidden_top_frame b' <> None
     | Throw e => e = OutOfMemoryError /\ ~ served s 1
     end.
Proof.
  intros (pre & cl & hd & Hc & Hb & Hh & Hch) H.
  pose proof (chain_bounds _ _ _ _ _ Hch) as (Hlen & Hle & _).
  apply set_has_hidden_top_frame_inv in H as
    [(Hset & -> & ->) | [(Hnone & -> & ->) | (Hnone & -> & _ & _ & Hsame & Hns)]].
  - split; [apply same_objects_refl|]. split; [|exact Hset].
    exists pre, cl, hd. auto.
  - split; [repeat split|]. split; [|discriminate].
    exists pre, (alter (set_c_hidden (Some (boxes s))) (hd - length pre)%nat cl), hd.
    cbn [marked marked_state chunks with_chunks _backtrace _head _index].
    rewrite Hh, Hc. cbn [chunk_put]. rewrite alter_app_r_alt by exact Hle.
    repeat split; [exact Hb|]. apply chain_mark. exact Hch.
  - auto.
Qed.

(** ** The capture loop *)

Lemma not_all_served s k :
  ~ served s k -> ~ (forall n, alloc_ok n = true).
Proof. intros Hns Hall. apply Hns. intros i _. apply Hall. Qed.

Lemma bind_ext {A B} (m : M A) (k1 k2 : A -> M B) s :
  (forall a s1, k1 a s1 = k2 a s1) -> bind m k1 s = bind m k2 s.
Proof.
  intros H. unfold bind. destruct (m s) as [[a|e] s1]; [apply H|reflexivity].
Qed.

Lemma capture_loop_stopped max_depth klass frames ls s :
  below_max_depth max_depth ls = false ->
  capture_loop max_depth klass frames ls s = (Ok ls, s).
Proof.
  intros H. destruct frames as [|[method bci] frames]; cbn [capture_loop];
    rewrite H; reflexivity.
Qed.

(** The loop over the frames of the thread is the loop over the pairs they
    decode to. *)
Lemma capture_frames_walk max_depth klass frames :
  forall ls s,
    capture_frames max_depth klass frames ls s
    = capture_loop max_depth klass (walk frames) ls s.
Proof.
  induction frames as [|fr frames IH]; intros ls s.
  - reflexivity.
  - destruct fr as [method bci | nm_method scopes | ];
      cbn [capture_frames walk flat_map frame_methods app].
    + fold (walk frames). cbn [capture_loop].
      destruct (below_max_depth max_depth ls); [|reflexivity].
      apply bind_ext. exact IH.
    + fold (walk frames).
      destruct (below_max_depth max_depth ls) eqn:Hc.
      2:{ rewrite capture_loop_stopped by exact Hc. reflexivity. }
      destruct (is_native nm_method).
      * cbn [app capture_loop]. rewrite Hc. apply bind_ext. exact IH.
      * clear Hc. revert ls s.
        induction scopes as [|[method bci] scopes IHs]; intros ls s.
        -- apply IH.
        -- cbn [app capture_loop].
           destruct (below_max_depth max_depth ls); [|reflexivity].
           apply bind_ext. exact IHs.
    + fold (walk frames).
      destruct (below_max_depth max_depth ls) eqn:Hc; [apply IH|].
      rewrite capture_loop_stopped by exact Hc. reflexivity.
Qed.

Lemma capture_loop_spec max_depth klass frames :
  forall ls s rows r s',
    (0 < trace_chunk_size)%nat ->
    store_holds (bt ls) s rows ->
    capture_loop max_depth klass frames ls s = (r, s') ->
    same_objects s s'
    /\ match r with
       | Ok ls' =>
           let sel := selected max_depth klass frames (total_count ls)
                        (skip_fillInStackTrace_check ls)
                        (skip_throwableInit_check ls) in
           store_holds (bt ls') s' (rows ++ sel)
           /\ total_count ls' = total_count ls + Z.of_nat (length sel)
       | Throw e => e = OutOfMemoryError /\ ~ (forall n, alloc_ok n = true)
       end.
Proof.
  induction frames as [|[method bci] frames IH]; intros ls s rows r s' Hpos Hst H.
  - cbn in H. unfold below_max_depth in H. cbn [selected].
    assert (r = Ok ls /\ s' = s) as [-> ->].
    { destruct (_ || _) in H; inversion H; auto. }
    split; [apply same_objects_refl|].
    destruct (_ || _); cbn; rewrite app_nil_r, Z.add_0_r; auto.
  - cbn [capture_loop selected] in *. unfold below_max_depth in H.
    destruct ((max_depth =? 0) || negb (max_depth =? total_count ls)) eqn:Hcond.
    2:{ inversion H; subst. split; [apply same_objects_refl|].
        cbn. rewrite app_nil_r, Z.add_0_r. auto. }
    apply bind_inv in H as [(ls1 & s1 & Hf & H) | (e & Hf & ->)].
    + (* the body returns *)
      unfold filter_and_push in Hf.
      destruct (negb (skip_fillInStackTrace_check ls)
                && is_fillInStackTrace_of klass method) eqn:E1.
      { inversion Hf; subst. eapply IH; eassumption. }
      cbn [skip_fillInStackTrace_check skip_throwableInit_check total_count bt] in Hf.
      destruct (negb (skip_throwableInit_check ls) && is_init_of klass method) eqn:E2.
      { inversion Hf; subst. eapply (IH _ _ rows) in H; [|exact Hpos|exact Hst].
        exact H. }
      destruct (is_hidden method && negb ShowHiddenFrames) eqn:E3.
      * destruct (total_count ls =? 0) eqn:E4.
        -- apply bind_inv in Hf as [(b1 & s2 & Hm & Hf) | (e & Hm & Hr)];
             [|discriminate Hr].
           inversion Hf; subst; clear Hf.
           destruct (store_holds_mark _ _ _ _ _ Hst Hm) as (Hsame & Hst1 & _).
           eapply (IH _ _ rows) in H; [|exact Hpos|exact Hst1].
           destruct H as (Hsame' & H). split; [eapply same_objects_trans; eassumption|].
           exact H.
        -- inversion Hf; subst; clear Hf.
           eapply (IH _ _ rows) in H; [|exact Hpos|exact Hst]. exact H.
      * apply bind_inv in Hf as [(b1 & s2 & Hp & Hf) | (e & Hp & Hr)];
          [|discriminate Hr].
        inversion Hf; subst; clear Hf.
        destruct (store_holds_push _ _ _ _ _ _ _ Hpos Hst Hp) as (Hsame & Hst1 & _).
        eapply (IH _ _ (rows ++ [(method, bci)])) in H; [|exact Hpos|exact Hst1].
        destruct H as (Hsame' & H). split; [eapply same_objects_trans; eassumption|].
        destruct r as [ls'|e]; [|exact H].
        cbn [total_count skip_fillInStackTrace_check skip_throwableInit_check] in H.
        cbn zeta in *. rewrite <- app_assoc in H. cbn [app] in H.
        destruct H as [H1 H2]. split; [exact H1|].
        rewrite H2. cbn [length]. lia.
    + (* the body throws *)
      unfold filter_and_push in Hf.
      destruct (negb (skip_fillInStackTrace_check ls)
                && is_fillInStackTrace_of klass method) eqn:E1; [discriminate Hf|].
      cbn [skip_fillInStackTrace_check skip_throwableInit_check total_count bt] in Hf.
      destruct (negb (skip_throwableInit_check ls) && is_init_of klass method) eqn:E2;
        [discriminate Hf|].
      destruct (is_hidden method && negb ShowHiddenFrames) eqn:E3.
      * destruct (total_count ls =? 0) eqn:E4; [|discriminate Hf].
        apply bind_inv in Hf as [(b1 & s2 & Hm & Hf) | (e' & Hm & Hr)];
          [discriminate Hf|].
        inversion Hr; subst.
        destruct (store_holds_mark _ _ _ _ _ Hst Hm) as (Hsame & -> & Hns).
        split; [exact Hsame|]. split; [reflexivity|].
        eapply not_all_served; exact Hns.
      * apply bind_inv in Hf as [(b1 & s2 & Hp & Hf) | (e' & Hp & Hr)];
          [discriminate Hf|].
        inversion Hr; subst.
        destruct (store_holds_push _ _ _ _ _ _ _ Hpos Hst Hp) as (Hsame & -> & Hns).
        split; [exact Hsame|]. split; [reflexivity|].
        eapply not_all_served; exact Hns.
Qed.

(** Without a cut at the maximum depth the loop pushes the survivors. *)
Lemma selected_survivors max_depth klass frames :
  forall count sf si,
    max_depth = 0 \/ count + Z.of_nat (length frames) <= max_depth ->
    selected max_depth klass frames count sf si = survivors_from sf si klass frames.
Proof.
  induction frames as [|[method bci] frames IH]; intros count sf si Hd.
  - cbn. destruct (_ || _); destruct sf, si; reflexivity.
  - cbn [selected].
    assert (Hcond : (max_depth =? 0) || negb (max_depth =? count) = true).
    { destruct Hd as [->|Hd]; [reflexivity|].
      cbn [length] in Hd. apply orb_true_intro. right.
      apply negb_true_iff, Z.eqb_neq. lia. }
    rewrite Hcond.
    assert (Hd0 : max_depth = 0 \/ count + Z.of_nat (length frames) <= max_depth).
    { destruct Hd as [->|Hd]; [auto|]. cbn [length] in Hd. right. lia. }
    assert (Hd1 : max_depth = 0 \/ count + 1 + Z.of_nat (length frames) <= max_depth).
    { destruct Hd as [->|Hd]; [auto|]. cbn [length] in Hd. right. lia. }
    assert (Hfilter : forall l,
              List.filter (fun f => negb (suppressed f)) ((method, bci) :: l)
              = if is_hidden method && negb ShowHiddenFrames
                then List.filter (fun f => negb (suppressed f)) l
                else (method, bci) :: List.filter (fun f => negb (suppressed f)) l).
    { intros l. cbn [List.filter]. unfold suppressed at 1. cbn [fst].
      destruct (is_hidden method && negb ShowHiddenFrames); reflexivity. }
    destruct (negb sf && is_fillInStackTrace_of klass method) eqn:E1.
    { rewrite IH by exact Hd0. destruct sf; [discriminate E1|]. cbn in E1.
      unfold survivors_from. cbn [drop_while fst]. rewrite E1. reflexivity. }
    assert (L1 : (if sf then (method, bci) :: frames
                  else drop_while (fun f => is_fillInStackTrace_of klass (fst f))
                         ((method, bci) :: frames))
                 = (method, bci) :: frames).
    { destruct sf; [reflexivity|]. cbn in E1. cbn [drop_while fst].
      rewrite E1. reflexivity. }
    unfold survivors_from. rewrite L1.
    destruct (negb si && is_init_of klass method) eqn:E2.
    { rewrite IH by exact Hd0. destruct si; [discriminate E2|]. cbn in E2.
      unfold survivors_from. cbn [drop_while fst]. rewrite E2. reflexivity. }
    assert (L2 : (if si then (method, bci) :: frames
                  else drop_while (fun f => is_init_of klass (fst f))
                         ((method, bci) :: frames))
                 = (method, bci) :: frames).
    { destruct si; [reflexivity|]. cbn in E2. cbn [drop_while fst].
      rewrite E2. reflexivity. }
    rewrite L2, Hfilter.
    destruct (is_hidden method && negb ShowHiddenFrames) eqn:E3.
    + rewrite IH by exact Hd0. reflexivity.
    + rewrite IH by exact Hd1. reflexivity.
Qed.

(** ** Iterating over a chain *)

Lemma padded_lookup {A B} (g : A -> B) (seg : list A) (d : B) (n i : nat) (f : A) :
  seg !! i = Some f -> ((g <$> seg) ++ replicate n d) !! i = Some (g f).
Proof.
  intros H. apply lookup_app_l_Some. rewrite list_lookup_fmap, H. reflexivity.
Qed.

Lemma padded_lookup_end {A B} (g : A -> B) (seg : list A) (d : B) (n : nat) :
  (length seg < n)%nat ->
  ((g <$> seg) ++ replicate (n - length seg) d) !! length seg = Some d.
Proof.
  intros Hlt. rewrite lookup_app_r by (rewrite length_fmap; lia).
  rewrite length_fmap, Nat.sub_diag.
  apply lookup_replicate. split; [reflexivity|lia].
Qed.

Lemma next_in_chunk h a seg nxt hid i f :
  h !! a = Some (chunk_of seg nxt hid) ->
  seg !! i = Some f ->
  next h (at_index a i) = (element_of f, after a (S i) nxt).
Proof.
  intros Hc Hf. unfold next, column_at, next_chunk, after.
  cbn [at_index it_index it_result it_columns]. rewrite Hc.
  cbn [chunk_of c_methods c_bcis c_mirrors c_names c_next].
  rewrite !(padded_lookup _ _ _ _ _ _ Hf). cbn [default].
  destruct (trace_chunk_size <=? S i)%nat; reflexivity.
Qed.

Lemma repeat_in_chunk h a seg nxt hid i f :
  h !! a = Some (chunk_of seg nxt hid) ->
  seg !! i = Some f ->
  java_mirror (method_holder (fst f)) <> None ->
  repeat h (at_index a i) = true.
Proof.
  intros Hc Hf Hm. unfold repeat, column_at.
  cbn [at_index it_index it_result it_columns]. rewrite Hc.
  cbn [chunk_of c_mirrors]. rewrite (padded_lookup _ _ _ _ _ _ Hf). cbn [default].
  apply andb_true_intro. split; apply bool_decide_eq_true_2; [discriminate|exact Hm].
Qed.

Lemma repeat_at_end h a seg hid :
  h !! a = Some (chunk_of seg None hid) ->
  (length seg <= trace_chunk_size)%nat ->
  repeat h (after a (length seg) None) = false.
Proof.
  intros Hc Hle. unfold after.
  destruct (Nat.leb_spec trace_chunk_size (length seg)) as [Hfull|Hroom].
  - unfold repeat. cbn [init it_result]. apply andb_false_intro1.
    apply bool_decide_eq_false_2. intros H. apply H. reflexivity.
  - unfold repeat, column_at. cbn [at_index it_index it_result it_columns].
    rewrite Hc. cbn [chunk_of c_mirrors].
    rewrite padded_lookup_end by exact Hroom. cbn [default].
    apply andb_false_intro2.
    apply bool_decide_eq_false_2. intros H. apply H. reflexivity.
Qed.

Lemma after_inside a i nxt :
  (i < trace_chunk_size)%nat -> after a i nxt = at_index a i.
Proof.
  intros Hlt. unfold after.
  destruct (Nat.leb_spec trace_chunk_size i); [lia|reflexivity].
Qed.

(** Reading the rest of one chunk. *)
Lemma iterate_chunk h a seg nxt hid :
  h !! a = Some (chunk_of seg nxt hid) ->
  (length seg <= trace_chunk_size)%nat ->
  Forall (fun f => java_mirror (method_holder (fst f)) <> None) seg ->
  forall n i fuel,
    (i + n = length seg)%nat ->
    iterate (n + fuel) h (after a i nxt)
    = (fun l => (element_of <$> drop i seg) ++ l)
        <$> iterate fuel h (after a (length seg) nxt).
Proof.
  intros Hc Hle Hnn n.
  induction n as [|n IH]; intros i fuel Hi.
  - rewrite Nat.add_0_r in Hi. subst i. rewrite drop_all. cbn.
    destruct (iterate fuel h _); reflexivity.
  - assert (Hlt : (i < length seg)%nat) by lia.
    destruct (lookup_lt_is_Some_2 seg i Hlt) as [f Hf].
    rewrite after_inside by lia.
    cbn [Nat.add iterate].
    rewrite (repeat_in_chunk h a seg nxt hid i f Hc Hf)
      by (eapply (proj1 (Forall_lookup _ _) Hnn); exact Hf).
    rewrite (next_in_chunk h a seg nxt hid i f Hc Hf).
    rewrite (IH (S i) fuel) by lia.
    rewrite (drop_S seg f i Hf). cbn [fmap list_fmap app].
    destruct (iterate fuel h _); reflexivity.
Qed.

(** The iterator reads back what the chain holds, in the order of the
    pushes. *)
Lemma iterate_chain a rows cl hd idx :
  chain a rows cl hd idx ->
  (0 < trace_chunk_size)%nat ->
  Forall (fun f => java_mirror (method_holder (fst f)) <> None) rows ->
  forall pre,
    length pre = a ->
    iterate (S (length rows)) (pre ++ cl) (at_index a 0) = Some (element_of <$> rows).
Proof.
  intros Hch Hpos.
  induction Hch as [a rows hid Hle | a seg rows hid cl hd idx Hseg Hch IH];
    intros Hnn pre Hpre.
  - assert (Hc : (pre ++ [chunk_of rows None hid]) !! a = Some (chunk_of rows None hid)).
    { rewrite lookup_app_r by lia. rewrite Hpre, Nat.sub_diag. reflexivity. }
    rewrite <- (after_inside a 0 None Hpos).
    replace (S (length rows)) with (length rows + 1)%nat by lia.
    rewrite (iterate_chunk _ _ _ _ _ Hc Hle Hnn (length rows) 0 1) by lia.
    cbn [iterate]. rewrite (repeat_at_end _ _ _ _ Hc Hle).
    cbn. rewrite app_nil_r. reflexivity.
  - apply Forall_app in Hnn as [Hnn1 Hnn2].
    set (c := chunk_of seg (Some (S a)) hid).
    assert (Hc : (pre ++ c :: cl) !! a = Some c).
    { rewrite lookup_app_r by lia. rewrite Hpre, Nat.sub_diag. reflexivity. }
    rewrite <- (after_inside a 0 (Some (S a)) Hpos).
    rewrite length_app.
    replace (S (length seg + length rows)) with (length seg + S (length rows))%nat by lia.
    rewrite (iterate_chunk _ _ _ _ _ Hc ltac:(lia) Hnn1 (length seg) 0 (S (length rows)))
      by lia.
    assert (Hafter : after a (length seg) (Some (S a)) = at_index (S a) 0).
    { unfold after. rewrite Hseg, Nat.leb_refl. reflexivity. }
    rewrite Hafter.
    replace (pre ++ c :: cl) with ((pre ++ [c]) ++ cl) by (rewrite <- app_assoc; reflexivity).
    rewrite (IH Hnn2 (pre ++ [c])) by (rewrite length_app; cbn; lia).
    cbn. rewrite fmap_app. reflexivity.
Qed.

(** ** fill_in_stack_trace *)

Lemma modify_inv f s (r : result unit) s' :
  modify f s = (r, s') -> r = Ok tt /\ s' = f s.
Proof. unfold modify. intros H. inversion H. auto. Qed.

Lemma Forall_selected (P : Method * Z -> Prop) max_depth klass frames :
  Forall P frames ->
  forall count sf si, Forall P (selected max_depth klass frames count sf si).
Proof.
  induction 1 as [|[method bci] frames Hx Hfr IH]; intros count sf si; cbn [selected].
  - destruct (_ || _); constructor.
  - destruct (_ || _); [|constructor].
    destruct (negb sf && _); [apply IH|].
    destruct (negb si && _); [apply IH|].
    destruct (is_hidden method && _); [apply IH|].
    constructor; [exact Hx|apply IH].
Qed.

Lemma fill_in_stack_trace_TRAPS_spec method last_Java_frame s r s' :
  StackTraceInThrowable = true ->
  (0 < trace_chunk_size)%nat ->
  fill_in_stack_trace_TRAPS method last_Java_frame s = (r, s') ->
  t_klass (throwable s') = t_klass (throwable s)
  /\ stackTrace (throwable s') = None
  /\ elements s' = elements s
  /\ source_file s' = source_file s
  /\ pending_exception s' = pending_exception s
  /\ match r with
     | Ok _ =>
         match captured method last_Java_frame (t_klass (throwable s)) with
         | Some rows => trace_holds s' rows
         | None => backtrace (throwable s') = None
                   /\ depth (throwable s') = depth (throwable s)
         end
     | Throw e =>
         e = OutOfMemoryError
         /\ backtrace (throwable s') = None
         /\ depth (throwable s') = depth (throwable s)
         /\ ~ (forall n, alloc_ok n = true)
     end.
Proof.
  intros HST Hpos H. unfold fill_in_stack_trace_TRAPS in H.
  rewrite HST in H. cbn [negb] in H.
  apply bind_inv in H as [(u1 & s1 & Hm & H) | (e & Hm & _)];
    [|apply modify_inv in Hm as [Hm _]; discriminate Hm].
  apply modify_inv in Hm as [_ ->].
  apply bind_inv in H as [(u2 & s2 & Hm & H) | (e & Hm & _)];
    [|apply modify_inv in Hm as [Hm _]; discriminate Hm].
  apply modify_inv in Hm as [_ ->]. cbv beta in H.
  cbn [throwable with_throwable] in H.
  set (s0 := with_throwable _ _) in H.
  assert (H0 : t_klass (throwable s0) = t_klass (throwable s)
               /\ stackTrace (throwable s0) = None
               /\ backtrace (throwable s0) = None
               /\ depth (throwable s0) = depth (throwable s)
               /\ elements s0 = elements s /\ source_file s0 = source_file s
               /\ pending_exception s0 = pending_exception s)
    by (repeat split).
  clearbody s0. destruct H0 as (Hk0 & Hst0 & Hbt0 & Hd0 & He0 & Hsf0 & Hp0).
  apply bind_inv in H as [(b & s2 & Hn & H) | (e & Hn & ->)];
    apply BacktraceBuilder_new_inv in Hn as (Hsame & Hn).
  2:{ (* the first chunk cannot be allocated *)
      destruct Hsame as (Ht & He & Hsf & Hp). destruct Hn as [-> Hns].
      rewrite Ht, He, Hsf, Hp. repeat split; try assumption.
      eapply not_all_served; exact Hns. }
  destruct Hn as (Hst & _ & _ & _).
  destruct Hsame as (Ht & He & Hsf & Hp).
  destruct last_Java_frame as [frames|]; cbn [captured].
  - (* the thread has Java frames *)
    apply bind_inv in H as [(sg & s3 & Hg & H) | (e & Hg & _)];
      [|discriminate Hg].
    inversion Hg; subst sg s3; clear Hg. cbv beta in H.
    apply bind_inv in H as [(ls & s3 & Hl & H) | (e & Hl & ->)];
      rewrite capture_frames_walk in Hl;
      apply (capture_loop_spec _ _ _ (loop_start b) _ [] _ _ Hpos Hst) in Hl
        as (Hsame & Hl).
    2:{ destruct Hsame as (Ht' & He' & Hsf' & Hp'). destruct Hl as [-> Hna].
        rewrite Ht', He', Hsf', Hp', Ht, He, Hsf, Hp. repeat split; assumption. }
    destruct Hsame as (Ht' & He' & Hsf' & Hp').
    apply bind_inv in H as [(u3 & s4 & Hm & H) | (e & Hm & _)];
      [|apply modify_inv in Hm as [Hm _]; discriminate Hm].
    apply modify_inv in Hm as [_ ->]. apply modify_inv in H as [-> ->].
    cbn [throwable with_throwable elements source_file pending_exception
         set_depth set_backtrace t_klass stackTrace].
    rewrite Ht', He', Hsf', Hp', Ht, He, Hsf, Hp.
    repeat split; try assumption.
    cbn zeta in Hl. cbn [loop_start total_count skip_fillInStackTrace_check
                         skip_throwableInit_check bt app] in Hl.
    destruct Hl as ((pre & cl & hd & Hc & Hb & Hh & Hch) & Hcount).
    rewrite Ht, Hk0 in Hch, Hcount.
    exists pre, cl, hd, (_index (bt ls)).
    cbn [chunks with_throwable throwable backtrace depth set_depth set_backtrace].
    repeat split; assumption.
  - (* no last Java frame *)
    destruct method as [m|].
    2:{ inversion H; subst. rewrite Ht, He, Hsf, Hp. repeat split; assumption. }
    destruct (1 <=? MaxJavaStackTraceDepth).
    2:{ inversion H; subst. rewrite Ht, He, Hsf, Hp. repeat split; assumption. }
    apply bind_inv in H as [(b1 & s3 & Hp1 & H) | (e & Hp1 & ->)];
      apply (store_holds_push _ _ _ _ _ _ _ Hpos Hst) in Hp1 as (Hsame & Hp1).
    2:{ destruct Hsame as (Ht' & He' & Hsf' & Hp'). destruct Hp1 as [-> Hns].
        rewrite Ht', He', Hsf', Hp', Ht, He, Hsf, Hp. repeat split; try assumption.
        eapply not_all_served; exact Hns. }
    destruct Hsame as (Ht' & He' & Hsf' & Hp').
    apply bind_inv in H as [(u3 & s4 & Hm & H) | (e & Hm & _)];
      [|apply modify_inv in Hm as [Hm _]; discriminate Hm].
    apply modify_inv in Hm as [_ ->]. apply modify_inv in H as [-> ->].
    cbn [throwable with_throwable elements source_file pending_exception
         set_depth set_backtrace t_klass stackTrace].
    rewrite Ht', He', Hsf', Hp', Ht, He, Hsf, Hp.
    repeat split; try assumption.
    destruct Hp1 as ((pre & cl & hd & Hc & Hb & Hh & Hch) & _).
    exists pre, cl, hd, (_index b1).
    cbn [chunks with_throwable throwable backtrace depth set_depth set_backtrace app] in *.
    repeat split; assumption.
Qed.

(** C1: a fresh capture of a stack of at most [MaxJavaStackTraceDepth]
    frames, none of whose allocations fails, records as depth the number of
    frames that survive elision and hidden-frame suppression, and iterating
    the completed store yields exactly these frames, innermost first. *)
Theorem fresh_capture_depth_and_iteration method frames s :
  StackTraceInThrowable = true ->
  (0 < trace_chunk_size)%nat ->
  (forall n, alloc_ok n = true) ->
  Forall (fun f => java_mirror (method_holder (fst f)) <> None) (walk frames) ->
  Z.of_nat (length (walk frames)) <= MaxJavaStackTraceDepth ->
  exists s',
    fill_in_stack_trace_TRAPS method (Some frames) s = (Ok tt, s')
    /\ let kept := survivors (t_klass (throwable s)) (walk frames) in
       depth (throwable s') = Z.of_nat (length kept)
       /\ iterate (S (length kept)) (chunks s')
            (BacktraceIterator_new (backtrace (throwable s')))
          = Some (element_of <$> kept).
Proof.
  intros HST Hpos Hall Hnn Hdepth.
  destruct (fill_in_stack_trace_TRAPS method (Some frames) s) as [r s'] eqn:H.
  apply fill_in_stack_trace_TRAPS_spec in H as (_ & _ & _ & _ & _ & H);
    [|exact HST|exact Hpos].
  destruct r as [[]|e]; [|destruct H as (_ & _ & _ & Hna); contradiction].
  exists s'. split; [reflexivity|].
  cbn [captured] in H.
  rewrite selected_survivors in H by (right; lia).
  fold (survivors (t_klass (throwable s)) (walk frames)) in H.
  assert (Hkept : Forall (fun f => java_mirror (method_holder (fst f)) <> None)
                    (survivors (t_klass (throwable s)) (walk frames))).
  { unfold survivors.
    rewrite <- (selected_survivors MaxJavaStackTraceDepth _ _ 0) by (right; lia).
    apply Forall_selected. exact Hnn. }
  destruct H as (pre & cl & hd & idx & Hc & Hb & Hch & Hd).
  cbn zeta. split; [exact Hd|].
  rewrite Hb, Hc.
  exact (iterate_chain _ _ _ _ _ Hch Hpos Hkept pre eq_refl).
Qed.

(** C5, at the input where it fails: with [MaxJavaStackTraceDepth] at 0,
    which the loop of the same function reads as "no limit", a capture on a
    thread without Java frames pushes nothing for the method it is given:
    the throwable is left without a backtrace and its depth is not set. *)
Theorem no_frame_capture_unlimited_depth_records_nothing m s :
  StackTraceInThrowable = true ->
  (0 < trace_chunk_size)%nat ->
  (forall n, alloc_ok n = true) ->
  MaxJavaStackTraceDepth = 0 ->
  exists s',
    fill_in_stack_trace_TRAPS (Some m) None s = (Ok tt, s')
    /\ backtrace (throwable s') = None
    /\ depth (throwable s') = depth (throwable s).
Proof.
  intros HST Hpos Hall Hmax.
  destruct (fill_in_stack_trace_TRAPS (Some m) None s) as [r s'] eqn:H.
  apply fill_in_stack_trace_TRAPS_spec in H as (_ & _ & _ & _ & _ & H);
    [|exact HST|exact Hpos].
  destruct r as [[]|e]; [|destruct H as (_ & _ & _ & Hna); contradiction].
  exists s'. split; [reflexivity|].
  cbn [captured] in H. rewrite Hmax in H. cbn in H. exact H.
Qed.

(** With a maximum depth of at least 1 the same capture records the one
    frame that C5 describes. *)
Lemma no_frame_capture_records_method m s :
  StackTraceInThrowable = true ->
  (0 < trace_chunk_size)%nat ->
  (forall n, alloc_ok n = true) ->
  1 <= MaxJavaStackTraceDepth ->
  java_mirror (method_holder m) <> None ->
  exists s',
    fill_in_stack_trace_TRAPS (Some m) None s = (Ok tt, s')
    /\ depth (throwable s') = 1
    /\ iterate 2 (chunks s') (BacktraceIterator_new (backtrace (throwable s')))
       = Some [element_of (m, 0)].
Proof.
  intros HST Hpos Hall Hmax Hm.
  destruct (fill_in_stack_trace_TRAPS (Some m) None s) as [r s'] eqn:H.
  apply fill_in_stack_trace_TRAPS_spec in H as (_ & _ & _ & _ & _ & H);
    [|exact HST|exact Hpos].
  destruct r as [[]|e]; [|destruct H as (_ & _ & _ & Hna); contradiction].
  exists s'. split; [reflexivity|].
  cbn [captured] in H.
  destruct (Z.leb_spec 1 MaxJavaStackTraceDepth); [|lia].
  destruct H as (pre & cl & hd & idx & Hc & Hb & Hch & Hd).
  split; [exact Hd|].
  rewrite Hb, Hc.
  refine (iterate_chain _ _ _ _ _ Hch Hpos _ pre eq_refl).
  repeat constructor. exact Hm.
Qed.

(** C9: a capture never hands a new exception to its caller, with or
    without a failure inside: the pending exception of the thread is what
    it was before the call.  The exception object keeps its class, and its
    trace is absent or complete: when the capture fails inside, the
    backtrace is null and the depth untouched; when it does not, the
    backtrace holds all the captured frames and the depth is their
    number. *)
Theorem capture_suppresses_failures method last_Java_frame s :
  (0 < trace_chunk_size)%nat ->
  let s' := fill_in_stack_trace method last_Java_frame s in
  pending_exception s' = pending_exception s
  /\ t_klass (throwable s') = t_klass (throwable s)
  /\ elements s' = elements s
  /\ (s' = s
      \/ backtrace (throwable s') = None
      \/ exists rows, trace_holds s' rows)
  /\ (StackTraceInThrowable = true ->
      should_fill_in_stack_trace (throwable s) = true ->
      forall e s1,
        fill_in_stack_trace_TRAPS method last_Java_frame
          (with_pending_exception s None) = (Throw e, s1) ->
        backtrace (throwable s') = None
        /\ depth (throwable s') = depth (throwable s)).
Proof.
  intros Hpos. cbv zeta. unfold fill_in_stack_trace.
  destruct StackTraceInThrowable eqn:HST; cbn [negb].
  2:{ repeat split; auto; discriminate. }
  destruct (should_fill_in_stack_trace (throwable s)) eqn:Hfill; cbn [negb].
  2:{ repeat split; auto; discriminate. }
  destruct (fill_in_stack_trace_TRAPS method last_Java_frame
              (with_pending_exception s None)) as [r s1] eqn:H.
  pose proof (fill_in_stack_trace_TRAPS_spec _ _ _ _ _ HST Hpos H)
    as (Hk & _ & He & _ & _ & Hr).
  cbn [throwable with_pending_exception elements] in Hk, He, Hr.
  destruct r as [u|e];
    cbn [pending_exception with_pending_exception throwable elements chunks].
  - split; [reflexivity|]. split; [exact Hk|]. split; [exact He|]. split.
    + right.
      destruct (captured method last_Java_frame (t_klass (throwable s))) as [rows|].
      * right. exists rows.
        destruct Hr as (pre & cl & hd & idx & Hc & Hb & Hch & Hd).
        exists pre, cl, hd, idx. cbn. auto.
      * left. apply Hr.
    + intros _ _ e s2 Heq. discriminate Heq.
  - split; [reflexivity|]. split; [exact Hk|]. split; [exact He|]. split.
    + right. left. apply Hr.
    + intros _ _ e' s2 Heq. split; apply Hr.
Qed.

(** ** Elision and hidden frames *)

Lemma filter_and_push_flags klass method bci ls s ls' s' :
  filter_and_push klass method bci ls s = (Ok ls', s') ->
  (skip_fillInStackTrace_check ls = true -> skip_fillInStackTrace_check ls' = true)
  /\ (skip_throwableInit_check ls = true -> skip_throwableInit_check ls' = true)
  /\ (is_fillInStackTrace_of klass method = false ->
      skip_fillInStackTrace_check ls' = true)
  /\ (skip_fillInStackTrace_check ls' = true ->
      is_init_of klass method = false ->
      skip_throwableInit_check ls' = true).
Proof.
  unfold filter_and_push. intros H.
  destruct (negb (skip_fillInStackTrace_check ls)
            && is_fillInStackTrace_of klass method) eqn:E1.
  { inversion H; subst. apply andb_true_iff in E1 as [E1 E1'].
    apply negb_true_iff in E1. repeat split; congruence. }
  cbn [skip_fillInStackTrace_check skip_throwableInit_check total_count bt] in H.
  destruct (negb (skip_throwableInit_check ls) && is_init_of klass method) eqn:E2.
  { inversion H; subst. cbn. apply andb_true_iff in E2 as [E2 E2'].
    apply negb_true_iff in E2. repeat split; congruence. }
  assert (Hflags : skip_fillInStackTrace_check ls' = true
                   /\ skip_throwableInit_check ls' = true).
  { destruct (is_hidden method && negb ShowHiddenFrames).
    - destruct (total_count ls =? 0).
      + apply bind_inv in H as [(b & s1 & _ & H) | (e & _ & Hr)]; [|discriminate Hr].
        inversion H; subst. auto.
      + inversion H; subst. auto.
    - apply bind_inv in H as [(b & s1 & _ & H) | (e & _ & Hr)]; [|discriminate Hr].
      inversion H; subst. auto. }
  destruct Hflags. repeat split; auto.
Qed.

Lemma capture_loop_flags max_depth klass frames :
  forall ls s ls' s',
    capture_loop max_depth klass frames ls s = (Ok ls', s') ->
    (skip_fillInStackTrace_check ls = true -> skip_fillInStackTrace_check ls' = true)
    /\ (skip_throwableInit_check ls = true -> skip_throwableInit_check ls' = true).
Proof.
  induction frames as [|[method bci] frames IH]; intros ls s ls' s' H;
    cbn [capture_loop] in H.
  - destruct (below_max_depth _ _); inversion H; subst; auto.
  - destruct (below_max_depth _ _); [|inversion H; subst; auto].
    apply bind_inv in H as [(ls1 & s1 & Hf & H) | (e & _ & Hr)]; [|discriminate Hr].
    apply filter_and_push_flags in Hf as (Hf1 & Hf2 & _).
    apply IH in H as (H1 & H2). auto.
Qed.

Lemma fillInStackTrace_is_no_init klass method :
  is_fillInStackTrace_of klass method = true -> is_init_of klass method = false.
Proof.
  unfold is_fillInStackTrace_of, is_init_of. intros H.
  apply andb_true_iff in H as [H _]. apply String.eqb_eq in H. rewrite H.
  reflexivity.
Qed.

Lemma init_is_no_fillInStackTrace klass method :
  is_init_of klass method = true -> is_fillInStackTrace_of klass method = false.
Proof.
  unfold is_fillInStackTrace_of, is_init_of. intros H.
  apply andb_true_iff in H as [H _]. apply String.eqb_eq in H. rewrite H.
  reflexivity.
Qed.

(** ** Materialization *)

Lemma well_behaved_ret {A} (a : A) : well_behaved (ret a).
Proof. intros s r s' H. inversion H; subst. auto. Qed.

Lemma well_behaved_bind {A B} (m : M A) (k : A -> M B) :
  well_behaved m -> (forall a, well_behaved (k a)) -> well_behaved (bind m k).
Proof.
  intros Hm Hk s r s' H.
  apply bind_inv in H as [(a & s1 & Ha & H) | (e & Ha & ->)].
  - apply Hm in Ha as [L1 _]. apply Hk in H as [L2 H]. split; [congruence|exact H].
  - apply Hm in Ha. exact Ha.
Qed.

Lemma well_behaved_allocate : well_behaved allocate.
Proof.
  intros s r s' H. apply allocate_inv in H as [-> [[-> E]|[-> E]]];
    (split; [reflexivity|]); [exact I|].
  split; [reflexivity|]. intros Hall. rewrite Hall in E. discriminate E.
Qed.

Lemma well_behaved_put element f : well_behaved (put element f).
Proof.
  intros s r s' H. apply modify_inv in H as [-> ->]. cbn.
  split; [apply length_alter|exact I].
Qed.

Lemma well_behaved_get : well_behaved get.
Proof. intros s r s' H. inversion H; subst. auto. Qed.

Lemma well_behaved_intern symbol : well_behaved (intern symbol).
Proof.
  destruct symbol; cbn [intern].
  - apply well_behaved_bind; [apply well_behaved_allocate|].
    intros _. apply well_behaved_ret.
  - apply well_behaved_ret.
Qed.

Lemma well_behaved_set_class_source_file java_class v :
  well_behaved (set_class_source_file java_class v).
Proof.
  intros s r s' H. apply modify_inv in H as [-> ->].
  destruct java_class; cbn; auto.
Qed.

Lemma well_behaved_fill_in_names element holder name :
  well_behaved (fill_in_names element holder name).
Proof.
  unfold fill_in_names.
  repeat first
    [ apply well_behaved_allocate
    | apply well_behaved_put
    | apply well_behaved_intern
    | apply well_behaved_ret
    | apply well_behaved_bind; [|intros ?]
    | match goal with
      | |- well_behaved (match ?x with _ => _ end) => destruct x
      end ].
Qed.

Lemma well_behaved_fill_in_source element holder method version bci :
  well_behaved (fill_in_source element holder method version bci).
Proof.
  unfold fill_in_source.
  destruct (_ || _).
  - apply well_behaved_bind; [|intros ?]; apply well_behaved_put.
  - apply well_behaved_bind; [apply well_behaved_get|intros s0].
    apply well_behaved_bind; [|intros ?].
    + destruct (get_source_file_name holder version),
        (class_source_file (java_mirror holder) s0);
        repeat first
          [ apply well_behaved_intern
          | apply well_behaved_set_class_source_file
          | apply well_behaved_ret
          | apply well_behaved_bind; [|intros ?] ].
    + apply well_behaved_bind; [apply well_behaved_put|intros ?].
      destruct method; [apply well_behaved_put|apply well_behaved_ret].
Qed.

(** What the second part of [fill_in] leaves in the element. *)
Lemma fill_in_source_element element holder method version bci s s' u :
  (element < length (elements s))%nat ->
  fill_in_source element holder method version bci s = (Ok u, s') ->
  exists e,
    elements s' !! element = Some e
    /\ (version_matches method version = false ->
        fileName e = None /\ lineNumber e = -1)
    /\ (forall m, method = Some m -> constants_version m = version ->
        lineNumber e = get_line_number m bci).
Proof.
  intros Hlt H. unfold fill_in_source in H.
  destruct (lookup_lt_is_Some_2 _ _ Hlt) as [e0 He0].
  destruct (bool_decide (method = None) || negb (version_matches method version))
    eqn:Hcond.
  - (* the method was redefined *)
    unfold bind, put, modify in H. inversion H; subst; clear H. cbn.
    rewrite !list_lookup_alter_eq, He0. cbn.
    eexists. split; [reflexivity|]. split; [auto|].
    intros m -> Hv. apply orb_true_iff in Hcond as [Hn|Hn].
    + apply bool_decide_eq_true_1 in Hn. discriminate Hn.
    + apply negb_true_iff in Hn. cbn in Hn. apply Z.eqb_neq in Hn. contradiction.
  - apply orb_false_iff in Hcond as [Hn Hv]. apply negb_false_iff in Hv.
    destruct method as [m|]; [|discriminate Hv]. cbn in Hv.
    apply bind_inv in H as [(s0 & s1 & Hg & H) | (e & _ & Hr)]; [|discriminate Hr].
    inversion Hg; subst s0 s1; clear Hg. cbv beta in H.
    apply bind_inv in H as [(sf & s1 & Hsf & H) | (e & _ & Hr)]; [|discriminate Hr].
    assert (Hlen : length (elements s1) = length (elements s)).
    { destruct (get_source_file_name holder version),
        (class_source_file (java_mirror holder) s).
      - inversion Hsf; subst; reflexivity.
      - revert Hsf.
        apply (well_behaved_bind (intern _)
                 (fun x => set_class_source_file _ x ;;; ret x)
                 (well_behaved_intern _)).
        intros x. apply well_behaved_bind;
          [apply well_behaved_set_class_source_file | intros; apply well_behaved_ret].
      - revert Hsf.
        apply (well_behaved_bind (set_class_source_file _ None) (fun _ => ret None)
                 (well_behaved_set_class_source_file _ _)).
        intros; apply well_behaved_ret.
      - inversion Hsf; subst; reflexivity. }
    destruct (lookup_lt_is_Some_2 (elements s1) element ltac:(lia)) as [e1 He1].
    unfold bind, put, modify in H. inversion H; subst; clear H. cbn.
    rewrite !list_lookup_alter_eq, He1. cbn.
    eexists. split; [reflexivity|]. split.
    + intros Hf. rewrite Hf in Hv. discriminate Hv.
    + intros m' Hm' _. inversion Hm'; subst. reflexivity.
Qed.

(** C2: materializing a frame whose method no longer resolves at the stored
    version (or resolves to a method of another version) gives an element
    with a null file name and line number -1.  A line number is only ever
    taken from a method of the stored version.  Nothing is raised for a
    redefinition: the only exception is [OutOfMemoryError], from a string
    allocation that is not served. *)
Theorem redefined_frame_degrades bte element s r s' :
  (element < length (elements s))%nat ->
  materialize bte element s = (r, s') ->
  let holder := as_Klass (_mirror bte) in
  let method := method_with_orig_idnum holder (_method_id bte) (_version bte) in
  match r with
  | Ok _ =>
      exists e,
        elements s' !! element = Some e
        /\ (method = None -> fileName e = None /\ lineNumber e = -1)
        /\ (version_matches method (_version bte) = false ->
            fileName e = None /\ lineNumber e = -1)
        /\ (forall m, method = Some m -> constants_version m = _version bte ->
            lineNumber e = get_line_number m (_bci bte))
  | Throw e => e = OutOfMemoryError /\ ~ (forall n, alloc_ok n = true)
  end.
Proof.
  intros Hlt H. cbv zeta. unfold materialize, fill_in in H.
  apply bind_inv in H as [(u & s1 & Hn & H) | (e & Hn & ->)];
    apply well_behaved_fill_in_names in Hn as [Hlen Hn].
  - destruct r as [u'|e].
    + apply fill_in_source_element in H as (e & He & Hv & Hm); [|lia].
      exists e. split; [exact He|]. split; [|split; assumption].
      intros Hnone. apply Hv. rewrite Hnone. reflexivity.
    + apply well_behaved_fill_in_source in H as [_ H]. exact H.
  - exact Hn.
Qed.

(** C8 (as amended): extraction raises [NullPointerException] when the
    throwable or the destination array is a null handle, and
    [IndexOutOfBoundsException] when both are there and the length of the
    array differs from the recorded depth, whatever the depth; in both
    cases nothing has been touched.  A null backtrace is no error: with an
    array of the recorded depth the call returns and fills in nothing. *)
Theorem extraction_checks_handles_and_length fuel throwable_h stack_trace_array_h s :
  (throwable_h = None \/ stack_trace_array_h = None ->
   get_stack_trace_elements fuel throwable_h stack_trace_array_h s
   = Some (Throw NullPointerException, s))
  /\ (forall t arr,
         throwable_h = Some t -> stack_trace_array_h = Some arr ->
         Z.of_nat (length arr) <> depth t ->
         get_stack_trace_elements fuel throwable_h stack_trace_array_h s
         = Some (Throw IndexOutOfBoundsException, s))
  /\ (forall t arr,
         throwable_h = Some t -> stack_trace_array_h = Some arr ->
         Z.of_nat (length arr) = depth t ->
         backtrace t = None ->
         (0 < fuel)%nat ->
         get_stack_trace_elements fuel throwable_h stack_trace_array_h s
         = Some (Ok tt, s)).
Proof.
  split; [|split].
  - intros [-> | ->]; [reflexivity|]. destruct throwable_h; reflexivity.
  - intros t arr -> -> Hne. unfold get_stack_trace_elements.
    destruct (Z.eqb_spec (Z.of_nat (length arr)) (depth t)); [contradiction|].
    reflexivity.
  - intros t arr -> -> Heq Hbt Hfuel. unfold get_stack_trace_elements.
    destruct (Z.eqb_spec (Z.of_nat (length arr)) (depth t)); [|contradiction].
    cbn [negb]. rewrite Hbt.
    destruct fuel as [|fuel]; [lia|]. reflexivity.
Qed.

(** ** Preallocated backtraces *)

(** Reading a store of one chunk. *)
Lemma iterate_one_chunk h a rows hid :
  h !! a = Some (chunk_of rows None hid) ->
  (length rows <= trace_chunk_size)%nat ->
  (0 < trace_chunk_size)%nat ->
  Forall (fun f => java_mirror (method_holder (fst f)) <> None) rows ->
  iterate (S (length rows)) h (BacktraceIterator_new (Some a))
  = Some (element_of <$> rows).
Proof.
  intros Hc Hle Hpos Hnn.
  change (BacktraceIterator_new (Some a)) with (at_index a 0).
  rewrite <- (after_inside a 0 None Hpos).
  replace (S (length rows)) with (length rows + 1)%nat by lia.
  rewrite (iterate_chunk _ _ _ _ _ Hc Hle Hnn (length rows) 0 1) by lia.
  cbn [iterate]. rewrite (repeat_at_end _ _ _ _ Hc Hle).
  cbn. rewrite app_nil_r. reflexivity.
Qed.

(** The loop over the [vframeStream] writes into the one chunk it is given,
    up to the end of that chunk. *)
Lemma preallocated_loop_spec frames :
  forall seg b s a hid,
    _head b = Some a ->
    _index b = length seg ->
    chunks s !! a = Some (chunk_of seg None hid) ->
    (length seg < trace_chunk_size)%nat ->
    exists b' s',
      preallocated_loop frames (length seg) b s
      = (Ok (length (seg ++ take (trace_chunk_size - length seg) frames), b'), s')
      /\ chunks s' !! a
         = Some (chunk_of (seg ++ take (trace_chunk_size - length seg) frames) None hid)
      /\ length (chunks s') = length (chunks s)
      /\ (forall a', a' <> a -> chunks s' !! a' = chunks s !! a')
      /\ allocations s' = allocations s
      /\ boxes s' = boxes s
      /\ same_objects s s'.
Proof.
  induction frames as [|[method bci] frames IH]; intros seg b s a hid Hh Hi Hc Hlt.
  - exists b, s. rewrite take_nil, app_nil_r. cbn [preallocated_loop].
    repeat split; auto.
  - cbn [preallocated_loop].
    erewrite bind_Ok by (apply push_in_place; lia).
    assert (Hc1 : chunks (written b method bci s) !! a
                  = Some (chunk_of (seg ++ [(method, bci)]) None hid)).
    { cbn [written chunks with_chunks]. rewrite Hh, Hi. cbn [chunk_put].
      rewrite list_lookup_alter_eq, Hc. cbn [fmap option_fmap option_map].
      rewrite write_frame_chunk_of by exact Hlt. reflexivity. }
    assert (Hlen1 : length (chunks (written b method bci s)) = length (chunks s)).
    { cbn [written chunks with_chunks]. apply chunk_put_length. }
    assert (Hother : forall a', a' <> a ->
               chunks (written b method bci s) !! a' = chunks s !! a').
    { intros a' Hne. cbn [written chunks with_chunks]. rewrite Hh. cbn [chunk_put].
      apply list_lookup_alter_ne. congruence. }
    destruct (Nat.leb_spec trace_chunk_size (S (length seg))) as [Hfull|Hroom].
    + exists (advanced b), (written b method bci s).
      replace (trace_chunk_size - length seg)%nat with 1%nat by lia.
      cbn [take]. rewrite take_0.
      replace (S (length seg)) with (length (seg ++ [(method, bci)]))
        by (rewrite length_app; cbn; lia).
      repeat split; auto.
    + destruct (IH (seg ++ [(method, bci)]) (advanced b) (written b method bci s) a hid)
        as (b' & s' & Hl & Hc' & Hlen' & Hother' & Ha' & Hb' & Hsame').
      * exact Hh.
      * cbn [advanced _index]. rewrite Hi, length_app. cbn. lia.
      * exact Hc1.
      * rewrite length_app. cbn. lia.
      * rewrite length_app in Hl, Hc'. cbn [length] in Hl, Hc'.
        rewrite Nat.add_1_r in Hl, Hc'.
        replace (trace_chunk_size - length seg)%nat
          with (S (trace_chunk_size - S (length seg))) by lia.
        cbn [take].
        replace (seg ++ (method, bci) :: take (trace_chunk_size - S (length seg)) frames)
          with ((seg ++ [(method, bci)])
                  ++ take (trace_chunk_size - S (length seg)) frames)
          by (rewrite <- app_assoc; reflexivity).
        exists b', s'. split; [exact Hl|]. split; [exact Hc'|].
        split; [congruence|]. split.
        { intros a' Hne. rewrite Hother' by exact Hne. apply Hother. exact Hne. }
        split; [rewrite Ha'; reflexivity|]. split; [rewrite Hb'; reflexivity|].
        eapply same_objects_trans; [|exact Hsame']. repeat split.
Qed.

(** What [fill_in_stack_trace_of_preallocated_backtrace] does with a chunk
    that holds no frame yet. *)
Lemma preallocated_fill_spec unassigned frames s a hid :
  StackTraceInThrowable = true ->
  (0 < trace_chunk_size)%nat ->
  backtrace (throwable s) = Some a ->
  chunks s !! a = Some (chunk_of [] None hid) ->
  Forall (fun f => java_mirror (method_holder (fst f)) <> None) (walk frames) ->
  exists s',
    fill_in_stack_trace_of_preallocated_backtrace unassigned frames s = (Ok tt, s')
    /\ let kept := take trace_chunk_size (walk frames) in
       depth (throwable s') = Z.of_nat (length kept)
       /\ stackTrace (throwable s') = unassigned
       /\ backtrace (throwable s') = Some a
       /\ t_klass (throwable s') = t_klass (throwable s)
       /\ allocations s' = allocations s
       /\ length (chunks s') = length (chunks s)
       /\ (forall a', a' <> a -> chunks s' !! a' = chunks s !! a')
       /\ iterate (S (length kept)) (chunks s')
            (BacktraceIterator_new (backtrace (throwable s')))
          = Some (element_of <$> kept).
Proof.
  intros HST Hpos Hbt Hc Hnn.
  unfold fill_in_stack_trace_of_preallocated_backtrace.
  rewrite HST. cbn [negb].
  unfold bind at 1. cbn [get].
  destruct (preallocated_loop_spec (walk frames) []
              (BacktraceBuilder_preallocated (backtrace (throwable s)) s) s a hid)
    as (b' & s1 & Hl & Hc' & Hlen' & Hother' & Ha' & Hb' & Ht & He & Hsf & Hp).
  - rewrite Hbt. reflexivity.
  - reflexivity.
  - exact Hc.
  - cbn. exact Hpos.
  - cbn [length app] in Hl, Hc'. rewrite Nat.sub_0_r in Hl, Hc'.
    erewrite bind_Ok by exact Hl.
    unfold bind, modify. cbn [fst].
    eexists. split; [reflexivity|].
    cbn [throwable with_throwable set_depth set_stacktrace depth stackTrace backtrace
         t_klass allocations chunks].
    rewrite Ht, Hbt.
    repeat split; auto.
    apply (iterate_one_chunk _ _ _ hid Hc').
    + rewrite length_take. lia.
    + exact Hpos.
    + apply Forall_take. exact Hnn.
Qed.

(** X1: filling in a preallocated backtrace makes no allocation request.
    With the chunk as [expand] allocates it, the call records the first
    [trace_chunk_size] frames of the thread, without any elision, writes
    into no other chunk, sets the depth to their number and the stack
    trace to the unassigned marker; iterating the backtrace yields these
    frames, innermost first. *)
Theorem preallocated_fill_records_without_allocating unassigned frames s a :
  StackTraceInThrowable = true ->
  (0 < trace_chunk_size)%nat ->
  backtrace (throwable s) = Some a ->
  chunks s !! a = Some new_chunk ->
  Forall (fun f => java_mirror (method_holder (fst f)) <> None) (walk frames) ->
  exists s',
    fill_in_stack_trace_of_preallocated_backtrace unassigned frames s = (Ok tt, s')
    /\ let kept := take trace_chunk_size (walk frames) in
       depth (throwable s') = Z.of_nat (length kept)
       /\ stackTrace (throwable s') = unassigned
       /\ backtrace (throwable s') = Some a
       /\ allocations s' = allocations s
       /\ length (chunks s') = length (chunks s)
       /\ (forall a', a' <> a -> chunks s' !! a' = chunks s !! a')
       /\ iterate (S (length kept)) (chunks s')
            (BacktraceIterator_new (backtrace (throwable s')))
          = Some (element_of <$> kept).
Proof.
  intros HST Hpos Hbt Hc Hnn. rewrite new_chunk_chunk_of in Hc.
  destruct (preallocated_fill_spec unassigned frames s a None HST Hpos Hbt Hc Hnn)
    as (s' & Hrun & Hd & Hs & Hb & _ & Ha & Hl & Ho & Hi).
  exists s'. split; [exact Hrun|]. cbn zeta. auto 10.
Qed.

Lemma allocate_backtrace_served s :
  StackTraceInThrowable = true ->
  served s 5 ->
  exists s1,
    allocate_backtrace s = (Ok tt, s1)
    /\ chunks s1 = chunks s ++ [new_chunk]
    /\ throwable s1 = set_backtrace (throwable s) (Some (length (chunks s)))
    /\ allocations s1 = (5 + allocations s)%nat.
Proof.
  intros HST Hs. unfold allocate_backtrace, BacktraceBuilder_new.
  rewrite HST. cbn [negb].
  erewrite bind_Ok; [|erewrite bind_Ok by (apply expand_served; exact Hs); reflexivity].
  eexists. split; [reflexivity|]. repeat split.
Qed.

Lemma allocate_backtrace_not_served s :
  StackTraceInThrowable = true ->
  ~ served s 5 ->
  exists s1,
    allocate_backtrace s = (Throw OutOfMemoryError, s1)
    /\ throwable s1 = throwable s
    /\ chunks s1 = chunks s.
Proof.
  intros HST Hns. unfold allocate_backtrace. rewrite HST. cbn [negb].
  destruct (BacktraceBuilder_new s) as [r s1] eqn:Hn.
  pose proof Hn as Hn'. unfold BacktraceBuilder_new in Hn'.
  apply bind_inv in Hn' as [(b1 & s2 & He & _) | (e & He & ->)];
    apply expand_inv in He as [(Hr & -> & Hs) | (Hr & Hc & _ & (Ht & _) & _)];
    try discriminate Hr; try contradiction.
  inversion Hr; subst e.
  erewrite bind_Throw by exact Hn. exists s1. auto.
Qed.

(** X2: [allocate_backtrace] prepares a throwable for
    [fill_in_stack_trace_of_preallocated_backtrace].  When its five
    allocation requests are served it appends one empty chunk to the heap
    and makes it the backtrace of the throwable, whose depth it leaves
    alone; a later fill then makes no further allocation request and
    records the first [trace_chunk_size] frames.  When a request is not
    served it raises [OutOfMemoryError] and leaves the throwable and the
    chunks as they were. *)
Theorem allocate_backtrace_prepares_fill unassigned frames s :
  StackTraceInThrowable = true ->
  (0 < trace_chunk_size)%nat ->
  Forall (fun f => java_mirror (method_holder (fst f)) <> None) (walk frames) ->
  (served s 5 ->
   exists s1 s2,
     allocate_backtrace s = (Ok tt, s1)
     /\ chunks s1 = chunks s ++ [new_chunk]
     /\ backtrace (throwable s1) = Some (length (chunks s))
     /\ depth (throwable s1) = depth (throwable s)
     /\ fill_in_stack_trace_of_preallocated_backtrace unassigned frames s1 = (Ok tt, s2)
     /\ allocations s2 = (5 + allocations s)%nat
     /\ length (chunks s2) = S (length (chunks s))
     /\ let kept := take trace_chunk_size (walk frames) in
        depth (throwable s2) = Z.of_nat (length kept)
        /\ iterate (S (length kept)) (chunks s2)
             (BacktraceIterator_new (backtrace (throwable s2)))
           = Some (element_of <$> kept))
  /\ (~ served s 5 ->
      exists s1,
        allocate_backtrace s = (Throw OutOfMemoryError, s1)
        /\ throwable s1 = throwable s
        /\ chunks s1 = chunks s).
Proof.
  intros HST Hpos Hnn. split.
  - intros Hs.
    destruct (allocate_backtrace_served s HST Hs) as (s1 & Hrun & Hc & Ht & Ha).
    assert (Hbt : backtrace (throwable s1) = Some (length (chunks s)))
      by (rewrite Ht; reflexivity).
    assert (Hnew : chunks s1 !! length (chunks s) = Some (chunk_of [] None None)).
    { rewrite Hc, lookup_app_r by lia. rewrite Nat.sub_diag, <- new_chunk_chunk_of.
      reflexivity. }
    destruct (preallocated_fill_spec unassigned frames s1 _ None HST Hpos Hbt Hnew Hnn)
      as (s2 & Hfill & Hd & _ & Hb & _ & Ha2 & Hl & _ & Hi).
    exists s1, s2. split; [exact Hrun|]. split; [exact Hc|]. split; [exact Hbt|].
    split; [rewrite Ht; reflexivity|]. split; [exact Hfill|].
    split; [congruence|]. split.
    { rewrite Hl, Hc, length_app. cbn. lia. }
    cbn zeta. auto.
  - apply allocate_backtrace_not_served. exact HST.
Qed.

(** ** The maximum depth *)

Lemma after_elision_cons sf si klass method bci frames :
  after_elision sf si klass ((method, bci) :: frames)
  = if negb sf && is_fillInStackTrace_of klass method
    then after_elision sf si klass frames
    else if negb si && is_init_of klass method
    then after_elision true si klass frames
    else (method, bci) :: frames.
Proof.
  unfold after_elision. cbn [drop_while fst].
  destruct sf; cbn [negb andb].
  - destruct si; cbn [negb andb]; [reflexivity|].
    cbn [drop_while fst]. destruct (is_init_of klass method); reflexivity.
  - destruct (is_fillInStackTrace_of klass method); [reflexivity|].
    destruct si; cbn [negb andb]; [reflexivity|].
    cbn [drop_while fst]. destruct (is_init_of klass method); reflexivity.
Qed.

Lemma survivors_from_elision sf si klass frames :
  survivors_from sf si klass frames
  = List.filter (fun f => negb (suppressed f)) (after_elision sf si klass frames).
Proof. reflexivity. Qed.

Lemma survivors_from_cons sf si klass method bci frames :
  survivors_from sf si klass ((method, bci) :: frames)
  = if negb sf && is_fillInStackTrace_of klass method
    then survivors_from sf si klass frames
    else if negb si && is_init_of klass method
    then survivors_from true si klass frames
    else if is_hidden method && negb ShowHiddenFrames
    then survivors_from true true klass frames
    else (method, bci) :: survivors_from true true klass frames.
Proof.
  rewrite !survivors_from_elision, after_elision_cons.
  destruct (negb sf && is_fillInStackTrace_of klass method); [reflexivity|].
  destruct (negb si && is_init_of klass method); [reflexivity|].
  cbn [List.filter]. unfold suppressed at 1. cbn [fst].
  destruct (is_hidden method && negb ShowHiddenFrames); reflexivity.
Qed.

(** With a maximum depth the loop pushes the survivors up to that depth. *)
Lemma selected_take max_depth klass frames :
  forall count sf si,
    0 < max_depth -> count <= max_depth ->
    selected max_depth klass frames count sf si
    = take (Z.to_nat (max_depth - count)) (survivors_from sf si klass frames).
Proof.
  induction frames as [|[method bci] frames IH]; intros count sf si Hmax Hcount.
  - cbn [selected]. rewrite survivors_from_elision.
    assert (Hnil : after_elision sf si klass [] = []) by (destruct sf, si; reflexivity).
    rewrite Hnil. cbn [List.filter]. rewrite take_nil.
    destruct (_ || _); reflexivity.
  - cbn [selected].
    destruct (Z.eqb_spec max_depth 0) as [H0|_]; [lia|]. cbn [orb].
    destruct (Z.eqb_spec max_depth count) as [->|Hne]; cbn [negb].
    + rewrite Z.sub_diag. reflexivity.
    + rewrite survivors_from_cons.
      destruct (negb sf && is_fillInStackTrace_of klass method);
        [apply IH; assumption|].
      destruct (negb si && is_init_of klass method); [apply IH; assumption|].
      destruct (is_hidden method && negb ShowHiddenFrames); [apply IH; assumption|].
      rewrite IH by lia.
      replace (Z.to_nat (max_depth - count))
        with (S (Z.to_nat (max_depth - (count + 1)))) by lia.
      reflexivity.
Qed.

Lemma selected_within_depth max_depth klass frames :
  0 <= max_depth ->
  selected max_depth klass frames 0 false false
  = within_depth max_depth (survivors klass frames).
Proof.
  intros Hmax. unfold within_depth, survivors.
  destruct (Z.eqb_spec max_depth 0) as [->|Hne].
  - apply selected_survivors. left. reflexivity.
  - rewrite selected_take by lia. rewrite Z.sub_0_r. reflexivity.
Qed.

(** X3: a capture records the innermost [MaxJavaStackTraceDepth] of the
    frames that survive elision and hidden-frame suppression, and all of
    them when the flag is 0: the depth of the throwable is the number of
    these frames, which the limit bounds, and iterating the completed store
    yields exactly them, innermost first. *)
Theorem capture_keeps_innermost_frames_within_max_depth method frames s :
  StackTraceInThrowable = true ->
  (0 < trace_chunk_size)%nat ->
  (forall n, alloc_ok n = true) ->
  Forall (fun f => java_mirror (method_holder (fst f)) <> None) (walk frames) ->
  0 <= MaxJavaStackTraceDepth ->
  exists s',
    fill_in_stack_trace_TRAPS method (Some frames) s = (Ok tt, s')
    /\ let kept := within_depth MaxJavaStackTraceDepth
                     (survivors (t_klass (throwable s)) (walk frames)) in
       depth (throwable s') = Z.of_nat (length kept)
       /\ (0 < MaxJavaStackTraceDepth -> depth (throwable s') <= MaxJavaStackTraceDepth)
       /\ iterate (S (length kept)) (chunks s')
            (BacktraceIterator_new (backtrace (throwable s')))
          = Some (element_of <$> kept).
Proof.
  intros HST Hpos Hall Hnn Hmax.
  destruct (fill_in_stack_trace_TRAPS method (Some frames) s) as [r s'] eqn:H.
  apply fill_in_stack_trace_TRAPS_spec in H as (_ & _ & _ & _ & _ & H);
    [|exact HST|exact Hpos].
  destruct r as [[]|e]; [|destruct H as (_ & _ & _ & Hna); contradiction].
  exists s'. split; [reflexivity|].
  cbn [captured] in H.
  assert (Hkept : Forall (fun f => java_mirror (method_holder (fst f)) <> None)
                    (within_depth MaxJavaStackTraceDepth
                       (survivors (t_klass (throwable s)) (walk frames)))).
  { rewrite <- selected_within_depth by exact Hmax.
    apply Forall_selected. exact Hnn. }
  rewrite selected_within_depth in H by exact Hmax.
  destruct H as (pre & cl & hd & idx & Hc & Hb & Hch & Hd).
  cbn zeta. split; [exact Hd|]. split.
  - intros Hlim. rewrite Hd. unfold within_depth.
    destruct (Z.eqb_spec MaxJavaStackTraceDepth 0); [lia|].
    rewrite length_take. lia.
  - rewrite Hb, Hc.
    exact (iterate_chain _ _ _ _ _ Hch Hpos Hkept pre eq_refl).
Qed.

(** ** Chunks, allocation requests and the hidden marker of a capture *)

Lemma hidden_alter (f : chunk -> chunk) (i j : nat) (l : list chunk) :
  (forall c, c_hidden (f c) = c_hidden c) ->
  (c_hidden <$> alter f i l !! j) = (c_hidden <$> l !! j).
Proof.
  intros Hf. destruct (decide (i = j)) as [->|Hne].
  - rewrite list_lookup_alter_eq. destruct (l !! j); cbn; [rewrite Hf|]; reflexivity.
  - rewrite list_lookup_alter_ne by exact Hne. reflexivity.
Qed.

Lemma hidden_chunk_put (f : chunk -> chunk) (o : oop) (j : nat) (l : list chunk) :
  (forall c, c_hidden (f c) = c_hidden c) ->
  (c_hidden <$> chunk_put f o l !! j) = (c_hidden <$> l !! j).
Proof.
  intros Hf. destruct o; [apply hidden_alter; exact Hf|reflexivity].
Qed.

Lemma store_holds_base b s rows base :
  store_holds b s rows -> _backtrace b = Some base -> (base < length (chunks s))%nat.
Proof.
  intros (pre & cl & hd & Hc & Hb & _ & Hch) Hbase.
  apply chain_bounds in Hch as (Hlen & Hle & _).
  rewrite Hb in Hbase. inversion Hbase; subst base.
  rewrite Hc, length_app. lia.
Qed.

Lemma store_holds_empty_head b s base :
  (0 < trace_chunk_size)%nat ->
  store_holds b s [] -> _backtrace b = Some base -> _head b = Some base.
Proof.
  intros Hpos (pre & cl & hd & Hc & Hb & Hh & Hch) Hbase.
  pose proof (chain_bounds _ _ _ _ _ Hch) as (_ & Hle & _).
  apply chain_length in Hch. cbn [length] in Hch.
  rewrite Hb in Hbase. inversion Hbase; subst base.
  rewrite Hh. f_equal. nia.
Qed.

Lemma accounted_refl b s : accounted b s b s.
Proof.
  unfold accounted. repeat split; auto.
  destruct (_has_hidden_top_frame b); lia.
Qed.

Lemma accounted_trans b1 s1 b2 s2 b3 s3 :
  accounted b1 s1 b2 s2 -> accounted b2 s2 b3 s3 -> accounted b1 s1 b3 s3.
Proof.
  unfold accounted. intros (A1 & B1 & M1 & L1) (A2 & B2 & M2 & L2).
  repeat split; [lia| |auto|lia].
  destruct (_has_hidden_top_frame b1) as [x1|], (_has_hidden_top_frame b2) as [x2|],
    (_has_hidden_top_frame b3) as [x3|]; try lia.
  - exfalso. apply M1; [discriminate|reflexivity].
  - exfalso. apply M2; [discriminate|reflexivity].
Qed.

Lemma builder_at_push base b s rows method bci b' s' :
  (0 < trace_chunk_size)%nat ->
  builder_at base b s rows ->
  push b method bci s = (Ok b', s') ->
  builder_at base b' s' (rows ++ [(method, bci)])
  /\ accounted b s b' s'
  /\ _has_hidden_top_frame b' = _has_hidden_top_frame b.
Proof.
  intros Hpos (Hst & Hbase & Hhid & _) H.
  pose proof (store_holds_base _ _ _ _ Hst Hbase) as Hlt.
  destruct (store_holds_push _ _ _ _ _ _ _ Hpos Hst H) as (_ & Hst' & Hsame).
  apply push_inv in H as
    [(Hin & Hr & ->) | [(Hge & Hr & ->) | (_ & Hr & _)]];
    [| |discriminate Hr]; inversion Hr; subst b'; clear Hr.
  - split; [|split; [|reflexivity]].
    + split; [exact Hst'|]. split; [exact Hbase|]. split.
      * cbn [written chunks with_chunks advanced _has_hidden_top_frame].
        rewrite hidden_chunk_put by reflexivity. exact Hhid.
      * right. cbn. lia.
    + unfold accounted.
      cbn [written advanced chunks with_chunks allocations boxes _has_hidden_top_frame].
      rewrite chunk_put_length.
      repeat split; auto. destruct (_has_hidden_top_frame b); lia.
  - split; [|split; [|reflexivity]].
    + split; [exact Hst'|]. split; [exact Hbase|]. split.
      * rewrite written_expanded_chunks.
        rewrite lookup_app_l by (rewrite chunk_put_length; exact Hlt).
        rewrite hidden_chunk_put by reflexivity. exact Hhid.
      * right. cbn. lia.
    + unfold accounted. rewrite written_expanded_chunks.
      rewrite length_app, chunk_put_length.
      cbn [written advanced expanded_builder expanded_state chunks with_chunks
           allocations with_allocations boxes _has_hidden_top_frame length].
      repeat split; auto; try lia. destruct (_has_hidden_top_frame b); lia.
Qed.

Lemma builder_at_mark base b s b' s' :
  (0 < trace_chunk_size)%nat ->
  builder_at base b s [] ->
  set_has_hidden_top_frame b s = (Ok b', s') ->
  builder_at base b' s' []
  /\ accounted b s b' s'
  /\ _has_hidden_top_frame b' <> None.
Proof.
  intros Hpos (Hst & Hbase & Hhid & _) H.
  pose proof (store_holds_base _ _ _ _ Hst Hbase) as Hlt.
  pose proof (store_holds_empty_head _ _ _ Hpos Hst Hbase) as Hhead.
  destruct (store_holds_mark _ _ _ _ _ Hst H) as (_ & Hst' & Hset).
  split; [|split; [|exact Hset]].
  - apply set_has_hidden_top_frame_inv in H as
      [(_ & Hr & ->) | [(Hnone & Hr & ->) | (_ & Hr & _)]];
      [| |discriminate Hr]; inversion Hr; subst b'; clear Hr.
    + split; [exact Hst'|]. split; [exact Hbase|]. split; [exact Hhid|]. left. reflexivity.
    + split; [exact Hst'|]. split; [exact Hbase|]. split; [|left; reflexivity].
      cbn [marked marked_state chunks with_chunks _has_hidden_top_frame].
      rewrite Hhead. cbn [chunk_put]. rewrite list_lookup_alter_eq.
      destruct (lookup_lt_is_Some_2 _ _ Hlt) as [c ->]. reflexivity.
  - apply set_has_hidden_top_frame_inv in H as
      [(Hs & Hr & ->) | [(Hnone & Hr & ->) | (_ & Hr & _)]];
      [| |discriminate Hr]; inversion Hr; subst b'; clear Hr.
    + apply accounted_refl.
    + unfold accounted.
      cbn [marked marked_state chunks with_chunks allocations with_allocations boxes
           with_boxes _has_hidden_top_frame].
      rewrite chunk_put_length, Hnone. repeat split; auto; lia.
Qed.

Lemma top_frame_hidden_from_cons sf si klass method bci frames :
  top_frame_hidden_from sf si klass ((method, bci) :: frames)
  = if negb sf && is_fillInStackTrace_of klass method
    then top_frame_hidden_from sf si klass frames
    else if negb si && is_init_of klass method
    then top_frame_hidden_from true si klass frames
    else is_hidden method && negb ShowHiddenFrames.
Proof.
  unfold top_frame_hidden_from. rewrite after_elision_cons.
  destruct (negb sf && is_fillInStackTrace_of klass method); [reflexivity|].
  destruct (negb si && is_init_of klass method); reflexivity.
Qed.

(** The loop of a capture keeps the store of its builder where it is,
    accounts for its allocation requests, and sets the hidden marker when
    the top frame is hidden, and then only. *)
Lemma capture_loop_top max_depth klass frames :
  forall ls s rows ls' s' base,
    (0 < trace_chunk_size)%nat ->
    builder_at base (bt ls) s rows ->
    total_count ls = Z.of_nat (length rows) ->
    capture_loop max_depth klass frames ls s = (Ok ls', s') ->
    builder_at base (bt ls') s'
      (rows ++ selected max_depth klass frames (total_count ls)
                 (skip_fillInStackTrace_check ls) (skip_throwableInit_check ls))
    /\ accounted (bt ls) s (bt ls') s'
    /\ (_has_hidden_top_frame (bt ls') <> None <->
        _has_hidden_top_frame (bt ls) <> None
        \/ (rows = []
            /\ top_frame_hidden_from (skip_fillInStackTrace_check ls)
                 (skip_throwableInit_check ls) klass frames = true)).
Proof.
  induction frames as [|[method bci] frames IH];
    intros ls s rows ls' s' base Hpos Hat Hcount H.
  - cbn [capture_loop] in H.
    assert (ls' = ls /\ s' = s) as [-> ->]
      by (destruct (below_max_depth _ _); inversion H; auto).
    cbn [selected]. 
    replace (if (max_depth =? 0) || negb (max_depth =? total_count ls)
             then [] else []) with (@nil (Method * Z)) by (destruct (_ || _); reflexivity).
    rewrite app_nil_r. split; [exact Hat|]. split; [apply accounted_refl|].
    split; [auto|]. intros [Hh|[_ Hh]]; [exact Hh|].
    unfold top_frame_hidden_from, after_elision in Hh.
    destruct (skip_fillInStackTrace_check ls), (skip_throwableInit_check ls);
      discriminate Hh.
  - cbn [capture_loop selected] in *. unfold below_max_depth in H.
    destruct ((max_depth =? 0) || negb (max_depth =? total_count ls)) eqn:Hcond.
    2:{ inversion H; subst. rewrite app_nil_r.
        split; [exact Hat|]. split; [apply accounted_refl|].
        split; [auto|]. intros [Hh|[-> _]]; [exact Hh|].
        exfalso. cbn [length] in Hcount. rewrite Hcount in Hcond.
        destruct (Z.eqb_spec max_depth 0) as [|Hne]; [discriminate Hcond|].
        cbn [orb] in Hcond. apply negb_false_iff, Z.eqb_eq in Hcond. contradiction. }
    rewrite top_frame_hidden_from_cons.
    apply bind_inv in H as [(ls1 & s1 & Hf & H) | (e & _ & Hr)]; [|discriminate Hr].
    unfold filter_and_push in Hf.
    destruct (negb (skip_fillInStackTrace_check ls)
              && is_fillInStackTrace_of klass method) eqn:E1.
    { inversion Hf; subst. eapply IH; eassumption. }
    cbn [skip_fillInStackTrace_check skip_throwableInit_check total_count bt] in Hf.
    destruct (negb (skip_throwableInit_check ls) && is_init_of klass method) eqn:E2.
    { inversion Hf; subst. eapply (IH _ _ rows) in H; [|exact Hpos|exact Hat|exact Hcount].
      exact H. }
    destruct (is_hidden method && negb ShowHiddenFrames) eqn:E3.
    + destruct (Z.eqb_spec (total_count ls) 0) as [E4|E4].
      * apply bind_inv in Hf as [(b1 & s2 & Hm & Hf) | (e & _ & Hr)];
          [|discriminate Hr].
        inversion Hf; subst ls1 s2; clear Hf.
        assert (Hrows : rows = []).
        { destruct rows; [reflexivity|]. cbn [length] in Hcount. lia. }
        subst rows.
        destruct (builder_at_mark _ _ _ _ _ Hpos Hat Hm) as (Hat1 & Hacc1 & Hset).
        eapply (IH _ _ []) in H; [|exact Hpos|exact Hat1|exact Hcount].
        cbn [bt total_count skip_fillInStackTrace_check skip_throwableInit_check] in H.
        destruct H as (Hat' & Hacc' & Hiff).
        split; [exact Hat'|]. split; [eapply accounted_trans; eassumption|].
        split; [auto|]. intros _. apply Hiff. left. exact Hset.
      * inversion Hf; subst ls1 s1; clear Hf.
        eapply (IH _ _ rows) in H; [|exact Hpos|exact Hat|exact Hcount].
        cbn [bt total_count skip_fillInStackTrace_check skip_throwableInit_check] in H.
        destruct H as (Hat' & Hacc' & Hiff).
        split; [exact Hat'|]. split; [exact Hacc'|].
        split.
        -- intros Hh. apply Hiff in Hh as [Hh|[-> _]]; [left; exact Hh|].
           cbn [length] in Hcount. contradiction.
        -- intros [Hh|[-> _]]; [apply Hiff; left; exact Hh|].
           cbn [length] in Hcount. contradiction.
    + apply bind_inv in Hf as [(b1 & s2 & Hp & Hf) | (e & _ & Hr)];
        [|discriminate Hr].
      inversion Hf; subst ls1 s2; clear Hf.
      destruct (builder_at_push _ _ _ _ _ _ _ _ Hpos Hat Hp) as (Hat1 & Hacc1 & Hsame).
      eapply (IH _ _ (rows ++ [(method, bci)])) in H; [|exact Hpos|exact Hat1|].
      2:{ cbn [total_count]. rewrite length_app. cbn [length]. lia. }
      cbn [bt total_count skip_fillInStackTrace_check skip_throwableInit_check] in H.
      destruct H as (Hat' & Hacc' & Hiff).
      rewrite <- app_assoc in Hat'. cbn [app] in Hat'.
      split; [exact Hat'|]. split; [eapply accounted_trans; eassumption|].
      rewrite Hsame in Hiff. split.
      * intros Hh. apply Hiff in Hh as [Hh|[Hnil _]]; [left; exact Hh|].
        destruct rows; discriminate Hnil.
      * intros [Hh|[_ Hh]]; [apply Hiff; left; exact Hh|discriminate Hh].
Qed.

Lemma chain_chunks a rows cl hd idx :
  chain a rows cl hd idx ->
  (0 < trace_chunk_size)%nat ->
  rows = [] \/ (1 <= idx)%nat ->
  length cl = chunks_for (length rows).
Proof.
  intros Hch Hpos Hidx.
  pose proof (chain_bounds _ _ _ _ _ Hch) as (Hlen & Hle & Hi).
  pose proof (chain_length _ _ _ _ _ Hch) as Hrows.
  destruct (length rows) as [|m] eqn:Hm.
  - cbn [chunks_for]. symmetry in Hrows.
    apply Nat.eq_add_0 in Hrows as [Hmul _].
    apply Nat.eq_mul_0 in Hmul as [Hmul|Hmul]; lia.
  - cbn [chunks_for].
    assert (Hidx' : (1 <= idx)%nat).
    { destruct Hidx as [->|Hidx]; [discriminate Hm|exact Hidx]. }
    assert (Hdiv : (m / trace_chunk_size = hd - a)%nat).
    { replace m with ((hd - a) * trace_chunk_size + (idx - 1))%nat by lia.
      rewrite Nat.div_add_l by lia. rewrite Nat.div_small by lia. lia. }
    lia.
Qed.

Lemma chain_first a rows cl hd idx :
  chain a rows cl hd idx ->
  exists nxt hid cl', cl = chunk_of (take trace_chunk_size rows) nxt hid :: cl'.
Proof.
  destruct 1 as [a rows hid Hle | a seg rows hid cl hd idx Hseg Hch].
  - exists None, hid, []. rewrite take_ge by exact Hle. reflexivity.
  - exists (Some (S a)), hid, cl. rewrite take_app_length' by (symmetry; exact Hseg).
    reflexivity.
Qed.

Lemma builder_at_chunks base b s s' rows :
  chunks s' = chunks s -> builder_at base b s rows -> builder_at base b s' rows.
Proof.
  intros Hc ((pre & cl & hd & H1 & H2 & H3 & H4) & Hb & Hh & Hi).
  split; [|rewrite Hc; auto].
  exists pre, cl, hd. rewrite Hc. auto.
Qed.

Lemma BacktraceBuilder_new_Ok s b s' :
  BacktraceBuilder_new s = (Ok b, s') ->
  builder_at (length (chunks s)) b s' []
  /\ _has_hidden_top_frame b = None
  /\ allocations s' = (5 + allocations s)%nat
  /\ length (chunks s') = S (length (chunks s))
  /\ boxes s' = boxes s.
Proof.
  intros H.
  destruct (BacktraceBuilder_new_inv _ _ _ H) as (_ & Hst & Hh & _ & Hb).
  unfold BacktraceBuilder_new in H.
  apply bind_inv in H as [(b1 & s1 & He & H) | (e & _ & Hr)]; [|discriminate Hr].
  apply expand_inv in He as [(Hr & -> & _) | (Hr & _)]; [|discriminate Hr].
  inversion Hr; subst b1; clear Hr. inversion H; subst; clear H.
  cbn [expanded_state expanded_builder chunks with_chunks allocations with_allocations
       boxes _head _has_hidden_top_frame chunk_put] in *.
  split; [|repeat split; rewrite ?length_app; cbn; lia].
  split; [exact Hst|]. split; [exact Hb|]. split; [|left; reflexivity].
  unfold expanded_state. cbn [chunks with_chunks _head chunk_put _has_hidden_top_frame].
  rewrite lookup_app_r by lia. rewrite Nat.sub_diag. reflexivity.
Qed.

(** The store that a capture of a thread with Java frames completes. *)
Lemma fill_in_stack_trace_TRAPS_top method frames s s' :
  StackTraceInThrowable = true ->
  (0 < trace_chunk_size)%nat ->
  fill_in_stack_trace_TRAPS method (Some frames) s = (Ok tt, s') ->
  let klass := t_klass (throwable s) in
  let rows := selected MaxJavaStackTraceDepth klass (walk frames) 0 false false in
  exists b,
    builder_at (length (chunks s)) b s' rows
    /\ backtrace (throwable s') = Some (length (chunks s))
    /\ depth (throwable s') = Z.of_nat (length rows)
    /\ (allocations s' + 5 * length (chunks s) + boxes s
        = allocations s + 5 * length (chunks s') + boxes s')%nat
    /\ boxes s' = (boxes s + if top_frame_hidden klass (walk frames) then 1 else 0)%nat
    /\ (_has_hidden_top_frame b <> None <-> top_frame_hidden klass (walk frames) = true).
Proof.
  intros HST Hpos H. cbv zeta. unfold fill_in_stack_trace_TRAPS in H.
  rewrite HST in H. cbn [negb] in H.
  apply bind_inv in H as [(u1 & s1 & Hm & H) | (e & _ & Hr)]; [|discriminate Hr].
  apply modify_inv in Hm as [_ ->].
  apply bind_inv in H as [(u2 & s2 & Hm & H) | (e & _ & Hr)]; [|discriminate Hr].
  apply modify_inv in Hm as [_ ->]. cbv beta in H.
  cbn [throwable with_throwable] in H.
  set (s0 := with_throwable _ _) in H.
  assert (H0 : t_klass (throwable s0) = t_klass (throwable s)
               /\ chunks s0 = chunks s /\ allocations s0 = allocations s
               /\ boxes s0 = boxes s) by (repeat split).
  clearbody s0. destruct H0 as (Hk0 & Hc0 & Ha0 & Hb0).
  apply bind_inv in H as [(b & s2 & Hn & H) | (e & _ & Hr)]; [|discriminate Hr].
  pose proof (BacktraceBuilder_new_inv _ _ _ Hn) as ((Ht & _) & _).
  apply BacktraceBuilder_new_Ok in Hn as (Hat & Hnone & Ha2 & Hl2 & Hb2).
  apply bind_inv in H as [(sg & s3 & Hg & H) | (e & Hg & _)]; [|discriminate Hg].
  inversion Hg; subst sg s3; clear Hg. cbv beta in H.
  apply bind_inv in H as [(ls & s3 & Hl & H) | (e & _ & Hr)]; [|discriminate Hr].
  rewrite capture_frames_walk in Hl.
  pose proof (capture_loop_spec _ _ _ (loop_start b) _ [] _ _ Hpos (proj1 Hat) Hl)
    as (_ & _ & Hcount).
  apply (capture_loop_top _ _ _ (loop_start b) _ [] _ _ (length (chunks s0)) Hpos Hat
           eq_refl) in Hl as (Hat' & Hacc & Hiff).
  cbn [loop_start total_count skip_fillInStackTrace_check skip_throwableInit_check
       bt app] in Hat', Hacc, Hiff, Hcount.
  pose proof Hat' as (Hst' & Hbase' & _).
  pose proof H as Hfinal.
  apply bind_inv in H as [(u3 & s4 & Hm & H) | (e & _ & Hr)]; [|discriminate Hr].
  apply modify_inv in Hm as [_ ->]. apply modify_inv in H as [_ ->].
  rewrite Ht, Hk0, Hc0 in *.
  exists (bt ls).
  cbn [throwable with_throwable set_depth set_backtrace backtrace depth chunks
       allocations boxes].
  split; [eapply builder_at_chunks; [|exact Hat']; reflexivity|].
  split; [exact Hbase'|].
  split; [exact Hcount|].
  destruct Hacc as (A & B & _ & _).
  split; [lia|]. 
  assert (Hiff' : _has_hidden_top_frame (bt ls) <> None
                  <-> top_frame_hidden (t_klass (throwable s)) (walk frames) = true).
  { unfold top_frame_hidden. rewrite Hiff. rewrite Hnone. split.
    - intros [Hx|[_ Hx]]; [contradiction|exact Hx].
    - intros Hx. right. split; [reflexivity|exact Hx]. }
  split; [|exact Hiff'].
  rewrite B, Hnone, Hb2, Hb0.
  destruct (_has_hidden_top_frame (bt ls)) as [x|] eqn:Hx,
    (top_frame_hidden (t_klass (throwable s)) (walk frames)) eqn:Htop; try reflexivity.
  - exfalso. assert (Some x <> None) as Hy by discriminate.
    apply Hiff' in Hy. discriminate Hy.
  - exfalso. apply (proj2 Hiff'); reflexivity.
Qed.

(** X4: what a capture costs.  A capture none of whose allocation requests
    fails appends to the heap just the chunks that its frames need, one
    chunk for an empty trace and one per [trace_chunk_size] frames
    otherwise, and makes five allocation requests per chunk, and one more,
    for the hidden marker, when the top frame of the stack is hidden. *)
Theorem capture_allocates_chunks_as_needed method frames s :
  StackTraceInThrowable = true ->
  (0 < trace_chunk_size)%nat ->
  (forall n, alloc_ok n = true) ->
  0 <= MaxJavaStackTraceDepth ->
  exists s',
    fill_in_stack_trace_TRAPS method (Some frames) s = (Ok tt, s')
    /\ let klass := t_klass (throwable s) in
       let n := length (within_depth MaxJavaStackTraceDepth
                          (survivors klass (walk frames))) in
       let marker := if top_frame_hidden klass (walk frames) then 1%nat else 0%nat in
       depth (throwable s') = Z.of_nat n
       /\ length (chunks s') = (length (chunks s) + chunks_for n)%nat
       /\ allocations s' = (allocations s + 5 * chunks_for n + marker)%nat
       /\ boxes s' = (boxes s + marker)%nat.
Proof.
  intros HST Hpos Hall Hmax.
  destruct (fill_in_stack_trace_TRAPS method (Some frames) s) as [r s'] eqn:H.
  pose proof (fill_in_stack_trace_TRAPS_spec _ _ _ _ _ HST Hpos H)
    as (_ & _ & _ & _ & _ & Hr).
  destruct r as [[]|e]; [|destruct Hr as (_ & _ & _ & Hna); contradiction].
  exists s'. split; [reflexivity|].
  apply fill_in_stack_trace_TRAPS_top in H as (b & Hat & _ & Hd & Hacc & Hbox & _);
    [|exact HST|exact Hpos].
  rewrite selected_within_depth in Hat, Hd by exact Hmax.
  destruct Hat as ((pre & cl & hd & Hc & Hb & _ & Hch) & Hbase & _ & Hidx).
  rewrite Hb in Hbase. injection Hbase as Hpre.
  pose proof (chain_chunks _ _ _ _ _ Hch Hpos Hidx) as Hcl.
  assert (Hlen : length (chunks s')
                 = (length (chunks s)
                    + chunks_for (length (within_depth MaxJavaStackTraceDepth
                                            (survivors (t_klass (throwable s))
                                               (walk frames)))))%nat).
  { rewrite Hc, length_app, Hcl, Hpre. reflexivity. }
  cbv zeta. split; [exact Hd|]. split; [exact Hlen|].
  split; [|exact Hbox]. lia.
Qed.

Lemma get_top_method_and_bci_chunk throwable_o s a rows nxt hid :
  (0 < trace_chunk_size)%nat ->
  backtrace throwable_o = Some a ->
  chunks s !! a = Some (chunk_of rows nxt hid) ->
  (length rows <= trace_chunk_size)%nat ->
  Forall (fun f => java_mirror (method_holder (fst f)) <> None) rows ->
  get_top_method_and_bci throwable_o s
  = match rows with
    | [] => None
    | f :: _ => if bool_decide (hid <> None) then None else top_of f
    end.
Proof.
  intros Hpos Hbt Hc Hle Hnn. unfold get_top_method_and_bci. rewrite Hbt.
  change (BacktraceIterator_new (Some a)) with (at_index a 0).
  destruct rows as [|f rows].
  - assert (Hrep : repeat (chunks s) (at_index a 0) = false).
    { unfold repeat, column_at. cbn [at_index it_index it_result it_columns].
      rewrite Hc. cbn [chunk_of c_mirrors fmap list_fmap app length].
      rewrite lookup_replicate_2 by lia. cbn [default].
      apply andb_false_intro2. apply bool_decide_eq_false_2. intros H. apply H. reflexivity. }
    rewrite Hrep. reflexivity.
  - assert (Hf : (f :: rows) !! 0%nat = Some f) by reflexivity.
    rewrite (repeat_in_chunk _ _ _ _ _ _ _ Hc Hf)
      by (inversion Hnn; assumption).
    cbn [negb]. rewrite Hc. cbn [chunk_of c_hidden].
    destruct (bool_decide (hid <> None)); [reflexivity|].
    rewrite (next_in_chunk _ _ _ _ _ _ _ Hc Hf).
    unfold top_of.
    destruct (method_with_orig_idnum _ _ _) as [m|]; [|reflexivity].
    cbn [version_matches]. rewrite bool_decide_eq_false_2 by discriminate.
    cbn [orb]. destruct (constants_version m =? _); reflexivity.
Qed.

(** X5: the top frame of a captured trace.  After a capture,
    [get_top_method_and_bci] answers nothing when the frame on top of the
    stack, the elided frames apart, is a hidden frame that the capture has
    dropped, and nothing when the trace is empty; otherwise it answers for
    the first frame of the trace: the method that this frame resolves to at
    the class version it was recorded at, with its bci. *)
Theorem top_method_of_a_capture_skips_hidden_top method frames s :
  StackTraceInThrowable = true ->
  (0 < trace_chunk_size)%nat ->
  (forall n, alloc_ok n = true) ->
  Forall (fun f => java_mirror (method_holder (fst f)) <> None) (walk frames) ->
  0 <= MaxJavaStackTraceDepth ->
  exists s',
    fill_in_stack_trace_TRAPS method (Some frames) s = (Ok tt, s')
    /\ let klass := t_klass (throwable s) in
       get_top_method_and_bci (throwable s') s'
       = if top_frame_hidden klass (walk frames) then None
         else match within_depth MaxJavaStackTraceDepth
                      (survivors klass (walk frames)) with
              | [] => None
              | f :: _ => top_of f
              end.
Proof.
  intros HST Hpos Hall Hnn Hmax.
  destruct (fill_in_stack_trace_TRAPS method (Some frames) s) as [r s'] eqn:H.
  pose proof (fill_in_stack_trace_TRAPS_spec _ _ _ _ _ HST Hpos H)
    as (_ & _ & _ & _ & _ & Hr).
  destruct r as [[]|e]; [|destruct Hr as (_ & _ & _ & Hna); contradiction].
  exists s'. split; [reflexivity|].
  assert (Hkept : Forall (fun f => java_mirror (method_holder (fst f)) <> None)
                    (within_depth MaxJavaStackTraceDepth
                       (survivors (t_klass (throwable s)) (walk frames)))).
  { rewrite <- selected_within_depth by exact Hmax.
    apply Forall_selected. exact Hnn. }
  apply fill_in_stack_trace_TRAPS_top in H as (b & Hat & Hbt & _ & _ & _ & Hiff);
    [|exact HST|exact Hpos].
  rewrite selected_within_depth in Hat by exact Hmax.
  cbv zeta.
  set (rows := within_depth MaxJavaStackTraceDepth
                 (survivors (t_klass (throwable s)) (walk frames))) in *.
  destruct Hat as ((pre & cl & hd & Hc & Hb & _ & Hch) & Hbase & Hhid & _).
  rewrite Hb in Hbase. injection Hbase as Hpre.
  destruct (chain_first _ _ _ _ _ Hch) as (nxt & hid & cl' & ->).
  assert (Hfirst : chunks s' !! length (chunks s)
                   = Some (chunk_of (take trace_chunk_size rows) nxt hid)).
  { rewrite Hc, <- Hpre, lookup_app_r by lia. rewrite Nat.sub_diag. reflexivity. }
  rewrite Hfirst in Hhid. cbn in Hhid. inversion Hhid as [Hmark].
  rewrite (get_top_method_and_bci_chunk _ _ _ _ _ _ Hpos Hbt Hfirst)
    by (rewrite ?length_take; try lia; apply Forall_take; exact Hkept).
  destruct (top_frame_hidden (t_klass (throwable s)) (walk frames)) eqn:Htop.
  - assert (Hset : hid <> None) by (rewrite Hmark; apply Hiff; reflexivity).
    rewrite bool_decide_eq_true_2 by exact Hset.
    destruct (take trace_chunk_size rows); reflexivity.
  - assert (Hunset : ~ hid <> None).
    { rewrite Hmark. intros Hx. apply Hiff in Hx. discriminate Hx. }
    rewrite bool_decide_eq_false_2 by exact Hunset.
    destruct rows as [|f rows']; [rewrite take_nil; reflexivity|].
    destruct trace_chunk_size; [lia|]. reflexivity.
Qed.

(** X6: [get_top_method_and_bci] never answers from a trace whose top frame
    is hidden, nor with a method of another class version than the one
    recorded.  When it answers, the throwable has a backtrace whose first
    chunk carries no hidden marker and a mirror in its first slot, and the
    answer is the method that the first slot resolves to, of the recorded
    version, with the recorded bci. *)
Theorem get_top_method_and_bci_sound throwable_o s m bci :
  get_top_method_and_bci throwable_o s = Some (m, bci) ->
  exists a c,
    backtrace throwable_o = Some a
    /\ chunks s !! a = Some c
    /\ c_hidden c = None
    /\ default None (c_mirrors c !! 0%nat) <> None
    /\ let merged := default 0 (c_bcis c !! 0%nat) in
       method_with_orig_idnum (as_Klass (default None (c_mirrors c !! 0%nat)))
         (default 0 (c_methods c !! 0%nat)) (version_at merged) = Some m
       /\ constants_version m = version_at merged
       /\ bci = bci_at merged.
Proof.
  unfold get_top_method_and_bci. intros H.
  destruct (backtrace throwable_o) as [a|] eqn:Hbt.
  2:{ cbn in H. discriminate H. }
  change (BacktraceIterator_new (Some a)) with (at_index a 0) in H.
  destruct (repeat (chunks s) (at_index a 0)) eqn:Hrep; [|discriminate H].
  cbn [negb] in H.
  unfold repeat, column_at in Hrep. cbn [at_index it_index it_result it_columns] in Hrep.
  destruct (chunks s !! a) as [c|] eqn:Hc.
  2:{ apply andb_true_iff in Hrep as [_ Hrep].
      apply bool_decide_eq_true_1 in Hrep. contradiction. }
  apply andb_true_iff in Hrep as [_ Hrep]. apply bool_decide_eq_true_1 in Hrep.
  destruct (bool_decide (c_hidden c <> None)) eqn:Hhid; [discriminate H|].
  apply bool_decide_eq_false_1 in Hhid.
  unfold next, column_at in H. cbn [at_index it_index it_result it_columns] in H.
  rewrite Hc in H.
  destruct (trace_chunk_size <=? 1)%nat;
    cbn [_mirror _method_id _version _bci] in H;
    (destruct (method_with_orig_idnum _ _ _) as [m'|] eqn:Hm; [|discriminate H]);
    cbn [version_matches] in H;
    rewrite bool_decide_eq_false_2 in H by discriminate;
    cbn [orb] in H;
    (destruct (Z.eqb_spec (constants_version m')
                 (version_at (default 0 (c_bcis c !! 0%nat)))) as [Hv|Hv];
     [|discriminate H]);
    cbn [negb] in H; inversion H; subst m' bci;
    exists a, c; cbv zeta;
    (repeat split; try assumption);
    destruct (c_hidden c); [exfalso; apply Hhid; discriminate|reflexivity
                           |exfalso; apply Hhid; discriminate|reflexivity].
Qed.

(** ** Extraction of a captured trace *)

Lemma edits_weaken {A} (m : M A) element
    (Q Q' : A -> StackTraceElement -> StackTraceElement -> Prop) :
  edits m element Q -> (forall a e e', Q a e e' -> Q' a e e') -> edits m element Q'.
Proof.
  intros Hm Hq s a s' H. destruct (Hm s a s' H) as (Hc & Ht & g & Hg & HQ).
  split; [exact Hc|]. split; [exact Ht|]. exists g. auto.
Qed.

Lemma edits_bind {A B} (m : M A) (k : A -> M B) element
    (Q1 : A -> StackTraceElement -> StackTraceElement -> Prop)
    (Q2 : A -> B -> StackTraceElement -> StackTraceElement -> Prop) :
  edits m element Q1 ->
  (forall a, edits (k a) element (Q2 a)) ->
  edits (bind m k) element (fun b e e'' => exists a e', Q1 a e e' /\ Q2 a b e' e'').
Proof.
  intros Hm Hk s b s' H.
  apply bind_inv in H as [(a & s1 & Ha & H) | (e & _ & Hr)]; [|discriminate Hr].
  destruct (Hm s a s1 Ha) as (Hc1 & Ht1 & g1 & Hg1 & HQ1).
  destruct (Hk a s1 b s' H) as (Hc2 & Ht2 & g2 & Hg2 & HQ2).
  split; [congruence|]. split; [congruence|].
  exists (g2 ∘ g1). split.
  - rewrite Hg2, Hg1. apply list_alter_alter_eq.
  - intros e. exists a, (g1 e). split; [apply HQ1|apply HQ2].
Qed.

Lemma edits_unchanged {A} (m : M A) element (P : A -> Prop) :
  (forall s a s', m s = (Ok a, s') ->
     chunks s' = chunks s /\ throwable s' = throwable s /\ elements s' = elements s
     /\ P a) ->
  edits m element (fun a e e' => P a /\ e' = e).
Proof.
  intros Hm s a s' H. destruct (Hm s a s' H) as (Hc & Ht & He & HP).
  split; [exact Hc|]. split; [exact Ht|].
  exists id. split; [|split; [exact HP|reflexivity]].
  rewrite He. symmetry. apply list_alter_id. reflexivity.
Qed.

Lemma edits_ret {A} (a : A) element :
  edits (ret a) element (fun a' e e' => a' = a /\ e' = e).
Proof.
  apply edits_unchanged. intros s a' s' H. inversion H; subst. repeat split.
Qed.

Lemma edits_allocate element : edits allocate element (fun _ e e' => True /\ e' = e).
Proof.
  apply (edits_unchanged allocate element (fun _ => True)). intros s a s' H.
  apply allocate_inv in H as [-> _]. repeat split.
Qed.

Lemma edits_get element : edits get element (fun _ e e' => True /\ e' = e).
Proof.
  apply (edits_unchanged get element (fun _ => True)).
  intros s a s' H. inversion H; subst. repeat split.
Qed.

Lemma edits_intern symbol element :
  edits (intern symbol) element (fun a e e' => a = symbol /\ e' = e).
Proof.
  apply edits_unchanged. intros s a s' H. destruct symbol as [x|]; cbn [intern] in H.
  - apply bind_inv in H as [(u & s1 & Ha & H) | (e & _ & Hr)]; [|discriminate Hr].
    apply allocate_inv in Ha as [-> _]. inversion H; subst. repeat split.
  - inversion H; subst. repeat split.
Qed.

Lemma edits_set_class_source_file java_class v element :
  edits (set_class_source_file java_class v) element (fun _ e e' => True /\ e' = e).
Proof.
  apply (edits_unchanged _ element (fun _ => True)).
  intros s a s' H. apply modify_inv in H as [_ ->].
  destruct java_class; repeat split.
Qed.

Lemma edits_put element f :
  edits (put element f) element (fun _ e e' => e' = f e).
Proof.
  intros s a s' H. apply modify_inv in H as [_ ->].
  split; [reflexivity|]. split; [reflexivity|]. exists f. split; reflexivity.
Qed.

Ltac edits_step :=
  lazymatch goal with
  | |- edits (put _ _) _ _ => apply edits_put
  | |- edits allocate _ _ => apply edits_allocate
  | |- edits get _ _ => apply edits_get
  | |- edits (intern _) _ _ => apply edits_intern
  | |- edits (set_class_source_file _ _) _ _ => apply edits_set_class_source_file
  | |- edits (ret _) _ _ => apply edits_ret
  | |- edits (bind _ _) _ _ => eapply edits_bind; [|intros ?]
  end.

Ltac edits_facts :=
  repeat match goal with
         | H : exists _, _ |- _ => destruct H as [? H]
         | H : _ /\ _ |- _ => destruct H
         end.

Lemma edits_fill_in_names element holder name :
  edits (fill_in_names element holder name) element
    (fun _ e e' =>
       declaringClass e' = Some (external_name holder)
       /\ declaringClassObject e' = java_mirror holder
       /\ methodName e' = name
       /\ (forall n, class_loader_name holder = Some (Some n) ->
           classLoaderName e' = Some n)
       /\ (module_is_named holder = true ->
           moduleName e' = Some (module_name holder)
           /\ moduleVersion e' = module_version holder)).
Proof.
  unfold fill_in_names.
  destruct (class_loader_name holder) as [[loader_name|]|] eqn:Hl;
    destruct (module_is_named holder) eqn:Hm;
    (eapply edits_weaken; [repeat edits_step|]);
    cbv beta; intros a e e' H; edits_facts;
    subst; cbn; repeat split; try congruence; intros; congruence.
Qed.

Lemma edits_fill_in_source element holder method version bci :
  edits (fill_in_source element holder method version bci) element
    (fun _ e e' =>
       exists fn ln,
         e' = set_lineNumber ln (set_fileName fn e)
         /\ (version_matches method version = false -> fn = None /\ ln = -1)
         /\ (forall m, method = Some m -> constants_version m = version ->
             ln = get_line_number m bci)).
Proof.
  unfold fill_in_source.
  destruct (bool_decide (method = None) || negb (version_matches method version))
    eqn:Hcond.
  - eapply edits_weaken; [repeat edits_step|].
    cbv beta. intros a e e' H. edits_facts. subst.
    exists None, (-1). split; [reflexivity|]. split; [auto|].
    intros m -> Hv. apply orb_true_iff in Hcond as [Hn|Hn].
    + apply bool_decide_eq_true_1 in Hn. discriminate Hn.
    + apply negb_true_iff in Hn. cbn in Hn. apply Z.eqb_neq in Hn. contradiction.
  - apply orb_false_iff in Hcond as [_ Hv]. apply negb_false_iff in Hv.
    destruct method as [m|]; [|discriminate Hv].
    eapply edits_weaken.
    + eapply edits_bind; [apply edits_get|intros s0].
      eapply (edits_bind _ _ _ (fun _ e e' => e' = e)
                (fun source_file _ e e' =>
                   e' = set_lineNumber (get_line_number m bci)
                          (set_fileName source_file e))).
      * destruct (get_source_file_name holder version),
          (class_source_file (java_mirror holder) s0);
          (eapply edits_weaken; [repeat edits_step|]);
          cbv beta; intros a e e' H; edits_facts; congruence.
      * intros source_file.
        eapply edits_weaken; [repeat edits_step|].
        cbv beta. intros a e e' H. edits_facts. subst. reflexivity.
    + cbv beta. intros a e e' H. edits_facts. subst.
      eexists _, (get_line_number m bci). split; [reflexivity|]. split.
      * intros Hf. rewrite Hf in Hv. discriminate Hv.
      * intros m' Hm' _. inversion Hm'; subst. reflexivity.
Qed.

Lemma edits_materialize bte element :
  edits (materialize bte element) element (fun _ _ e' => filled_from bte e').
Proof.
  unfold materialize, fill_in.
  eapply edits_weaken.
  - eapply edits_bind; [apply edits_fill_in_names|intros ?].
    apply edits_fill_in_source.
  - cbv beta. intros a e e' (u & e1 & (H1 & H2 & H3 & H4 & H5) & fn & ln & -> & H6 & H7).
    unfold filled_from. cbn. auto 10.
Qed.

(** With every allocation request served, materialization returns. *)
Lemma materialize_returns bte element s :
  (forall n, alloc_ok n = true) ->
  exists s', materialize bte element s = (Ok tt, s').
Proof.
  intros Hall. destruct (materialize bte element s) as [[[]|e] s'] eqn:H.
  - exists s'. reflexivity.
  - exfalso. unfold materialize, fill_in in H.
    apply (well_behaved_bind _ _ (well_behaved_fill_in_names _ _ _)
             (fun _ => well_behaved_fill_in_source _ _ _ _ _)) in H as [_ [_ Hna]].
    contradiction.
Qed.

(** The loop of [get_stack_trace_elements] over the elements [es] that the
    iterator yields, when the first [k] entries of the array from [idx] on
    are distinct element objects and the next one, if the trace goes on, is
    not. *)
Lemma fill_elements_spec (arr : list oop) :
  (forall n, alloc_ok n = true) ->
  forall fuel it es idx k s,
    iterate fuel (chunks s) it = Some es ->
    (k <= length es)%nat ->
    (forall i, (i < k)%nat -> exists el, arr !! (idx + i)%nat = Some (Some el)) ->
    (forall i j el, (i < k)%nat -> (j < k)%nat ->
        arr !! (idx + i)%nat = Some (Some el) ->
        arr !! (idx + j)%nat = Some (Some el) -> i = j) ->
    ((k < length es)%nat -> forall el, arr !! (idx + k)%nat <> Some (Some el)) ->
    exists s',
      fill_elements fuel arr it idx s
      = Some (if (k <? length es)%nat then Throw NullPointerException else Ok tt, s')
      /\ chunks s' = chunks s
      /\ throwable s' = throwable s
      /\ length (elements s') = length (elements s)
      /\ (forall i bte el,
             (i < k)%nat -> es !! i = Some bte ->
             arr !! (idx + i)%nat = Some (Some el) ->
             (el < length (elements s))%nat ->
             exists e, elements s' !! el = Some e /\ filled_from bte e)
      /\ (forall j, (forall i, (i < k)%nat -> arr !! (idx + i)%nat <> Some (Some j)) ->
             elements s' !! j = elements s !! j).
Proof.
  intros Hall.
  induction fuel as [|fuel IH]; intros it es idx k s Hit Hk Hvalid Hdistinct Hnull.
  - discriminate Hit.
  - cbn [iterate fill_elements] in *.
    destruct (repeat (chunks s) it) eqn:Hrep.
    2:{ inversion Hit; subst es. cbn [length] in *.
        assert (k = 0%nat) by lia. subst k.
        exists s. repeat split; auto. intros i bte el Hi. lia. }
    destruct (next (chunks s) it) as [bte it'] eqn:Hnext.
    apply fmap_Some in Hit as (es' & Hit & ->).
    destruct k as [|k].
    + exists s. cbn [length Nat.ltb Nat.leb].
      specialize (Hnull ltac:(cbn; lia)). rewrite Nat.add_0_r in Hnull.
      destruct (arr !! idx) as [[el|]|] eqn:Harr;
        [exfalso; apply (Hnull el); reflexivity| |];
        (repeat split; auto); intros i bte' el Hi; lia.
    + destruct (Hvalid 0%nat ltac:(lia)) as (el0 & Hel0).
      pose proof Hel0 as Hel0'. rewrite Nat.add_0_r in Hel0'. rewrite Hel0'.
      destruct (materialize_returns bte el0 s Hall) as (s1 & Hm). rewrite Hm.
      destruct (edits_materialize bte el0 s tt s1 Hm) as (Hc1 & Ht1 & g & Hg & Hfilled).
      assert (Hlen1 : length (elements s1) = length (elements s))
        by (rewrite Hg; apply length_alter).
      assert (Hshift : forall i, (S idx + i = idx + S i)%nat) by (intros; lia).
      destruct (IH it' es' (S idx) k s1) as (s' & Hrun & Hc & Ht & Hlen & Hfill & Hrest).
      * rewrite Hc1. exact Hit.
      * cbn [length] in Hk. lia.
      * intros i Hi. rewrite Hshift. apply Hvalid. lia.
      * intros i j el Hi Hj. rewrite !Hshift. intros Hx Hy.
        pose proof (Hdistinct (S i) (S j) el ltac:(lia) ltac:(lia) Hx Hy). lia.
      * intros Hlt. cbn [length] in Hnull. rewrite Hshift. apply Hnull. lia.
      * exists s'. split; [exact Hrun|]. split; [congruence|]. split; [congruence|].
        split; [congruence|]. split.
        -- intros i bte' el Hi Hes Harr Hel. destruct i as [|i].
           ++ cbn in Hes. inversion Hes; subst bte'.
              rewrite Hel0 in Harr. inversion Harr; subst el.
              destruct (lookup_lt_is_Some_2 _ _ Hel) as [e0 He0].
              exists (g e0). split; [|apply Hfilled].
              rewrite Hrest.
              ** rewrite Hg, list_lookup_alter_eq, He0. reflexivity.
              ** intros i Hi'. rewrite Hshift. intros Hx.
                 pose proof (Hdistinct (S i) 0%nat el0 ltac:(lia) ltac:(lia) Hx Hel0).
                 lia.
           ++ cbn in Hes. apply (Hfill i bte' el); [lia|exact Hes| |lia].
              rewrite Hshift. exact Harr.
        -- intros j Hj. rewrite Hrest.
           ++ rewrite Hg. apply list_lookup_alter_ne.
              intros ->. apply (Hj 0%nat); [lia|exact Hel0].
           ++ intros i Hi. rewrite Hshift. apply Hj. lia.
Qed.

(** Extraction of a complete trace into an array that starts with the
    distinct element objects [addrs] and, when these are fewer than the
    frames, goes on with a null entry. *)
Lemma get_stack_trace_elements_spec s rows addrs rest s0 :
  (0 < trace_chunk_size)%nat ->
  (forall n, alloc_ok n = true) ->
  trace_holds s rows ->
  Forall (fun f => java_mirror (method_holder (fst f)) <> None) rows ->
  chunks s0 = chunks s ->
  NoDup addrs ->
  length ((Some <$> addrs) ++ rest) = length rows ->
  (forall x rest', rest = x :: rest' -> x = None) ->
  exists s',
    get_stack_trace_elements (S (length rows)) (Some (throwable s))
      (Some ((Some <$> addrs) ++ rest)) s0
    = Some (match rest with
            | [] => Ok tt
            | _ :: _ => Throw NullPointerException
            end, s')
    /\ chunks s' = chunks s0
    /\ throwable s' = throwable s0
    /\ length (elements s') = length (elements s0)
    /\ (forall i f el,
           rows !! i = Some f -> addrs !! i = Some el ->
           (el < length (elements s0))%nat ->
           exists e, elements s' !! el = Some e /\ filled_from (element_of f) e)
    /\ (forall j, j ∉ addrs -> elements s' !! j = elements s0 !! j).
Proof.
  intros Hpos Hall (pre & cl & hd & idx & Hc & Hb & Hch & Hd) Hnn Hc0 Hnd Hlen Hrest.
  unfold get_stack_trace_elements.
  match goal with
  | |- context [?a =? ?b] => destruct (Z.eqb_spec a b) as [_|Hne]
  end.
  2:{ exfalso. apply Hne. rewrite Hd. f_equal. exact Hlen. }
  cbn [negb]. rewrite Hb.
  pose proof (iterate_chain _ _ _ _ _ Hch Hpos Hnn pre eq_refl) as Hit.
  rewrite <- Hc, <- Hc0 in Hit.
  change (BacktraceIterator_new (Some (length pre))) with (at_index (length pre) 0).
  rewrite length_app, length_fmap in Hlen.
  assert (Hlook : forall i el, ((Some <$> addrs) ++ rest) !! i = Some (Some el) ->
                               (i < length addrs)%nat -> addrs !! i = Some el).
  { intros i el Hx Hi. rewrite lookup_app_l in Hx by (rewrite length_fmap; exact Hi).
    rewrite list_lookup_fmap in Hx. destruct (addrs !! i); inversion Hx; reflexivity. }
  destruct (fill_elements_spec ((Some <$> addrs) ++ rest) Hall _ _ _ 0%nat
              (length addrs) s0 Hit)
    as (s' & Hrun & Hc' & Ht' & Hl' & Hfill & Hother).
  - rewrite length_fmap. lia.
  - intros i Hi. destruct (lookup_lt_is_Some_2 addrs i Hi) as [el Hel].
    exists el. cbn [Nat.add]. rewrite lookup_app_l by (rewrite length_fmap; exact Hi).
    rewrite list_lookup_fmap, Hel. reflexivity.
  - intros i j el Hi Hj Hx Hy. cbn [Nat.add] in Hx, Hy.
    eapply NoDup_lookup; [exact Hnd|apply Hlook; eassumption|apply Hlook; eassumption].
  - rewrite length_fmap. intros Hlt el. cbn [Nat.add].
    rewrite lookup_app_r by (rewrite length_fmap; lia).
    rewrite length_fmap, Nat.sub_diag.
    destruct rest as [|x rest']; [cbn in Hlen; lia|].
    rewrite (Hrest x rest' eq_refl). discriminate.
  - rewrite length_fmap in Hrun. exists s'. split.
    { rewrite Hrun. destruct rest as [|x rest'].
      - cbn [length] in Hlen. rewrite Nat.add_0_r in Hlen. rewrite Hlen, Nat.ltb_irrefl.
        reflexivity.
      - cbn [length] in Hlen.
        destruct (Nat.ltb_spec (length addrs) (length rows)); [reflexivity|lia]. }
    split; [exact Hc'|]. split; [exact Ht'|]. split; [exact Hl'|]. split.
    + intros i f el Hf Hel Hvalid.
      assert (Hi : (i < length addrs)%nat) by (eapply lookup_lt_Some; exact Hel).
      apply (Hfill i (element_of f) el Hi); [| |exact Hvalid].
      * rewrite list_lookup_fmap, Hf. reflexivity.
      * cbn [Nat.add]. rewrite lookup_app_l by (rewrite length_fmap; exact Hi).
        rewrite list_lookup_fmap, Hel. reflexivity.
    + intros j Hj. apply Hother. intros i Hi Hx. cbn [Nat.add] in Hx.
      apply Hj. eapply list_elem_of_lookup_2. apply Hlook; eassumption.
Qed.

(** A capture none of whose allocations fails leaves a complete trace of
    the frames within the maximum depth. *)
Lemma capture_trace_holds method frames s :
  StackTraceInThrowable = true ->
  (0 < trace_chunk_size)%nat ->
  (forall n, alloc_ok n = true) ->
  Forall (fun f => java_mirror (method_holder (fst f)) <> None) (walk frames) ->
  0 <= MaxJavaStackTraceDepth ->
  exists s1,
    fill_in_stack_trace_TRAPS method (Some frames) s = (Ok tt, s1)
    /\ let kept := within_depth MaxJavaStackTraceDepth
                     (survivors (t_klass (throwable s)) (walk frames)) in
       trace_holds s1 kept
       /\ Forall (fun f => java_mirror (method_holder (fst f)) <> None) kept.
Proof.
  intros HST Hpos Hall Hnn Hmax.
  destruct (fill_in_stack_trace_TRAPS method (Some frames) s) as [r s1] eqn:H.
  apply fill_in_stack_trace_TRAPS_spec in H as (_ & _ & _ & _ & _ & H);
    [|exact HST|exact Hpos].
  destruct r as [[]|e]; [|destruct H as (_ & _ & _ & Hna); contradiction].
  exists s1. split; [reflexivity|].
  cbn [captured] in H. rewrite selected_within_depth in H by exact Hmax.
  cbv zeta. split; [exact H|].
  rewrite <- selected_within_depth by exact Hmax.
  apply Forall_selected. exact Hnn.
Qed.

(** X7: extraction after capture.  When a trace has been captured and the
    destination array holds as many distinct element objects as the trace
    has frames, [get_stack_trace_elements] returns normally, leaves the
    backtrace and the throwable as they are, and has filled the i-th
    element of the array from the i-th frame of the trace, innermost first:
    class, method, class loader and module names of that frame, and its
    line number, or no file name and line -1 when the method's class
    version is gone.  Element objects that are not in the array are not
    touched. *)
Theorem extraction_fills_each_element_from_its_frame method frames s :
  StackTraceInThrowable = true ->
  (0 < trace_chunk_size)%nat ->
  (forall n, alloc_ok n = true) ->
  Forall (fun f => java_mirror (method_holder (fst f)) <> None) (walk frames) ->
  0 <= MaxJavaStackTraceDepth ->
  exists s1,
    fill_in_stack_trace_TRAPS method (Some frames) s = (Ok tt, s1)
    /\ let kept := within_depth MaxJavaStackTraceDepth
                     (survivors (t_klass (throwable s)) (walk frames)) in
       forall els addrs,
         length addrs = length kept ->
         NoDup addrs ->
         Forall (fun el => (el < length els)%nat) addrs ->
         exists s2,
           get_stack_trace_elements (S (length kept)) (Some (throwable s1))
             (Some (Some <$> addrs)) (with_elements s1 els) = Some (Ok tt, s2)
           /\ chunks s2 = chunks s1
           /\ throwable s2 = throwable s1
           /\ length (elements s2) = length els
           /\ (forall i f el,
                  kept !! i = Some f -> addrs !! i = Some el ->
                  exists e, elements s2 !! el = Some e /\ filled_from (element_of f) e)
           /\ (forall j, j ∉ addrs -> elements s2 !! j = els !! j).
Proof.
  intros HST Hpos Hall Hnn Hmax.
  destruct (capture_trace_holds method frames s HST Hpos Hall Hnn Hmax)
    as (s1 & Hrun & Htrace & Hkept).
  exists s1. split; [exact Hrun|]. cbv zeta. intros els addrs Hlen Hnd Hvalid.
  destruct (get_stack_trace_elements_spec s1 _ addrs [] (with_elements s1 els)
              Hpos Hall Htrace Hkept eq_refl Hnd)
    as (s2 & Hget & Hc & Ht & Hl & Hfill & Hother).
  - rewrite app_nil_r, length_fmap. exact Hlen.
  - intros x rest' Hx. discriminate Hx.
  - rewrite app_nil_r in Hget. exists s2. split; [exact Hget|].
    split; [exact Hc|]. split; [exact Ht|]. split; [exact Hl|]. split; [|exact Hother].
    intros i f el Hf Hel. apply (Hfill i f el Hf Hel).
    cbn [elements with_elements].
    eapply (proj1 (Forall_lookup _ _) Hvalid). exact Hel.
Qed.

(** X8: extraction is not atomic.  When the destination array has the
    length of the trace but a null entry after the distinct element
    objects [addrs], [get_stack_trace_elements] raises
    [NullPointerException] at that entry; the elements before it have been
    filled from their frames and stay so, and the backtrace is as it
    was. *)
Theorem extraction_stops_at_a_null_element method frames s :
  StackTraceInThrowable = true ->
  (0 < trace_chunk_size)%nat ->
  (forall n, alloc_ok n = true) ->
  Forall (fun f => java_mirror (method_holder (fst f)) <> None) (walk frames) ->
  0 <= MaxJavaStackTraceDepth ->
  exists s1,
    fill_in_stack_trace_TRAPS method (Some frames) s = (Ok tt, s1)
    /\ let kept := within_depth MaxJavaStackTraceDepth
                     (survivors (t_klass (throwable s)) (walk frames)) in
       forall els addrs rest,
         length ((Some <$> addrs) ++ None :: rest) = length kept ->
         NoDup addrs ->
         Forall (fun el => (el < length els)%nat) addrs ->
         exists s2,
           get_stack_trace_elements (S (length kept)) (Some (throwable s1))
             (Some ((Some <$> addrs) ++ None :: rest)) (with_elements s1 els)
           = Some (Throw NullPointerException, s2)
           /\ chunks s2 = chunks s1
           /\ throwable s2 = throwable s1
           /\ (forall i f el,
                  kept !! i = Some f -> addrs !! i = Some el ->
                  exists e, elements s2 !! el = Some e /\ filled_from (element_of f) e)
           /\ (forall j, j ∉ addrs -> elements s2 !! j = els !! j).
Proof.
  intros HST Hpos Hall Hnn Hmax.
  destruct (capture_trace_holds method frames s HST Hpos Hall Hnn Hmax)
    as (s1 & Hrun & Htrace & Hkept).
  exists s1. split; [exact Hrun|]. cbv zeta. intros els addrs rest Hlen Hnd Hvalid.
  destruct (get_stack_trace_elements_spec s1 _ addrs (None :: rest)
              (with_elements s1 els) Hpos Hall Htrace Hkept eq_refl Hnd Hlen)
    as (s2 & Hget & Hc & Ht & Hl & Hfill & Hother).
  - intros x rest' Hx. inversion Hx. reflexivity.
  - exists s2. split; [exact Hget|].
    split; [exact Hc|]. split; [exact Ht|]. split; [|exact Hother].
    intros i f el Hf Hel. apply (Hfill i f el Hf Hel).
    cbn [elements with_elements].
    eapply (proj1 (Forall_lookup _ _) Hvalid). exact Hel.
Qed.

(** ** A capture only appends to the heap *)

Lemma take_chunk_put f hd base l :
  (base <= hd)%nat -> take base (chunk_put f (Some hd) l) = take base l.
Proof. intros Hle. cbn [chunk_put]. apply take_alter_ge. exact Hle. Qed.

Lemma store_holds_head b s rows base :
  store_holds b s rows -> _backtrace b = Some base ->
  exists hd, _head b = Some hd /\ (base <= hd)%nat /\ (base < length (chunks s))%nat.
Proof.
  intros Hst Hbase. pose proof (store_holds_base _ _ _ _ Hst Hbase) as Hlt.
  destruct Hst as (pre & cl & hd & Hc & Hb & Hh & Hch).
  apply chain_bounds in Hch as (_ & Hle & _).
  rewrite Hb in Hbase. injection Hbase as <-.
  exists hd. auto.
Qed.

Lemma push_prefix b s rows base method bci r s' :
  store_holds b s rows -> _backtrace b = Some base ->
  push b method bci s = (r, s') ->
  take base (chunks s') = take base (chunks s)
  /\ match r with
     | Ok b' => _backtrace b' = Some base
     | Throw _ => True
     end.
Proof.
  intros Hst Hbase H.
  destruct (store_holds_head _ _ _ _ Hst Hbase) as (hd & Hh & Hle & Hlt).
  apply push_inv in H as
    [(_ & -> & ->) | [(_ & -> & ->) | (_ & -> & Hc & _)]].
  - split; [|exact Hbase]. cbn [written chunks with_chunks]. rewrite Hh.
    apply take_chunk_put. exact Hle.
  - split; [|exact Hbase]. rewrite written_expanded_chunks.
    rewrite take_app_le by (rewrite chunk_put_length; lia).
    rewrite Hh. apply take_chunk_put. exact Hle.
  - split; [rewrite Hc; reflexivity|exact I].
Qed.

Lemma mark_prefix b s rows base r s' :
  store_holds b s rows -> _backtrace b = Some base ->
  set_has_hidden_top_frame b s = (r, s') ->
  take base (chunks s') = take base (chunks s)
  /\ match r with
     | Ok b' => _backtrace b' = Some base
     | Throw _ => True
     end.
Proof.
  intros Hst Hbase H.
  destruct (store_holds_head _ _ _ _ Hst Hbase) as (hd & Hh & Hle & Hlt).
  apply set_has_hidden_top_frame_inv in H as
    [(_ & -> & ->) | [(_ & -> & ->) | (_ & -> & Hc & _)]].
  - split; [reflexivity|exact Hbase].
  - split; [|exact Hbase]. cbn [marked_state chunks with_chunks]. rewrite Hh.
    apply take_chunk_put. exact Hle.
  - split; [rewrite Hc; reflexivity|exact I].
Qed.

Lemma filter_and_push_prefix klass method bci ls s rows base r s1 :
  (0 < trace_chunk_size)%nat ->
  store_holds (bt ls) s rows -> _backtrace (bt ls) = Some base ->
  filter_and_push klass method bci ls s = (r, s1) ->
  take base (chunks s1) = take base (chunks s)
  /\ match r with
     | Ok ls1 => (exists rows1, store_holds (bt ls1) s1 rows1)
                 /\ _backtrace (bt ls1) = Some base
     | Throw _ => True
     end.
Proof.
  intros Hpos Hst Hbase H. unfold filter_and_push in H.
  destruct (negb (skip_fillInStackTrace_check ls)
            && is_fillInStackTrace_of klass method).
  { inversion H; subst. split; [reflexivity|]. split; [eauto|exact Hbase]. }
  cbn [skip_fillInStackTrace_check skip_throwableInit_check total_count bt] in H.
  destruct (negb (skip_throwableInit_check ls) && is_init_of klass method).
  { inversion H; subst. split; [reflexivity|]. split; [eauto|exact Hbase]. }
  destruct (is_hidden method && negb ShowHiddenFrames).
  - destruct (total_count ls =? 0).
    + apply bind_inv in H as [(b1 & s2 & Hm & H) | (e & Hm & ->)].
      * inversion H; subst; clear H.
        destruct (mark_prefix _ _ _ _ _ _ Hst Hbase Hm) as (Hp & Hb).
        destruct (store_holds_mark _ _ _ _ _ Hst Hm) as (_ & Hst1 & _).
        split; [exact Hp|]. split; [eauto|exact Hb].
      * destruct (mark_prefix _ _ _ _ _ _ Hst Hbase Hm) as (Hp & _). auto.
    + inversion H; subst. split; [reflexivity|]. split; [eauto|exact Hbase].
  - apply bind_inv in H as [(b1 & s2 & Hp1 & H) | (e & Hp1 & ->)].
    + inversion H; subst; clear H.
      destruct (push_prefix _ _ _ _ _ _ _ _ Hst Hbase Hp1) as (Hp & Hb).
      destruct (store_holds_push _ _ _ _ _ _ _ Hpos Hst Hp1) as (_ & Hst1 & _).
      split; [exact Hp|]. split; [eauto|exact Hb].
    + destruct (push_prefix _ _ _ _ _ _ _ _ Hst Hbase Hp1) as (Hp & _). auto.
Qed.

Lemma capture_loop_prefix max_depth klass frames :
  forall ls s rows base r s',
    (0 < trace_chunk_size)%nat ->
    store_holds (bt ls) s rows -> _backtrace (bt ls) = Some base ->
    capture_loop max_depth klass frames ls s = (r, s') ->
    take base (chunks s') = take base (chunks s).
Proof.
  induction frames as [|[method bci] frames IH];
    intros ls s rows base r s' Hpos Hst Hbase H; cbn [capture_loop] in H.
  - destruct (below_max_depth _ _); inversion H; reflexivity.
  - destruct (below_max_depth _ _); [|inversion H; reflexivity].
    apply bind_inv in H as [(ls1 & s1 & Hf & H) | (e & Hf & ->)];
      destruct (filter_and_push_prefix _ _ _ _ _ _ _ _ _ Hpos Hst Hbase Hf)
        as (Hp & Hnext).
    + destruct Hnext as ((rows1 & Hst1) & Hbase1).
      rewrite <- Hp. eapply IH; eassumption.
    + exact Hp.
Qed.

(** X9: a capture only appends to the heap.  Whatever its outcome, and
    whatever the thread's stack, [fill_in_stack_trace] leaves the chunks
    that were on the heap before the call as they were, the backtraces of
    other throwables among them, and the element objects and the
    source-file cache too: all it writes to is the throwable and the
    chunks it has allocated itself. *)
Theorem capture_leaves_existing_chunks_alone method last_Java_frame s :
  (0 < trace_chunk_size)%nat ->
  let s' := fill_in_stack_trace method last_Java_frame s in
  take (length (chunks s)) (chunks s') = chunks s
  /\ (forall a c, chunks s !! a = Some c -> chunks s' !! a = Some c)
  /\ elements s' = elements s
  /\ source_file s' = source_file s.
Proof.
  intros Hpos. cbv zeta.
  assert (Hgoal : forall s' : vm,
             take (length (chunks s)) (chunks s') = chunks s ->
             elements s' = elements s -> source_file s' = source_file s ->
             take (length (chunks s)) (chunks s') = chunks s
             /\ (forall a c, chunks s !! a = Some c -> chunks s' !! a = Some c)
             /\ elements s' = elements s
             /\ source_file s' = source_file s).
  { intros s' Hp He Hsf. split; [exact Hp|]. split; [|auto].
    intros a c Hc. rewrite <- Hp in Hc.
    apply lookup_take_Some in Hc as [Hc _]. exact Hc. }
  unfold fill_in_stack_trace.
  destruct StackTraceInThrowable eqn:HST; cbn [negb];
    [|apply Hgoal; [apply firstn_all|reflexivity|reflexivity]].
  destruct (should_fill_in_stack_trace (throwable s)); cbn [negb];
    [|apply Hgoal; [apply firstn_all|reflexivity|reflexivity]].
  destruct (fill_in_stack_trace_TRAPS method last_Java_frame
              (with_pending_exception s None)) as [r s1] eqn:H.
  pose proof (fill_in_stack_trace_TRAPS_spec _ _ _ _ _ HST Hpos H)
    as (_ & _ & He & Hsf & _ & _).
  assert (Hp : take (length (chunks s)) (chunks s1) = chunks s).
  { unfold fill_in_stack_trace_TRAPS in H. rewrite HST in H. cbn [negb] in H.
    apply bind_inv in H as [(u1 & s2 & Hm & H) | (e & Hm & _)];
      [|apply modify_inv in Hm as [Hm _]; discriminate Hm].
    apply modify_inv in Hm as [_ ->].
    apply bind_inv in H as [(u2 & s2 & Hm & H) | (e & Hm & _)];
      [|apply modify_inv in Hm as [Hm _]; discriminate Hm].
    apply modify_inv in Hm as [_ ->]. cbv beta in H.
    cbn [throwable with_throwable] in H.
    set (s0 := with_throwable _ _) in H.
    assert (Hc0 : chunks s0 = chunks s) by reflexivity.
    clearbody s0.
    apply bind_inv in H as [(b & s2 & Hn & H) | (e & Hn & ->)].
    2:{ unfold BacktraceBuilder_new in Hn.
        apply bind_inv in Hn as [(b1 & s2 & He' & Hn) | (e' & He' & Hr)];
          [discriminate Hn|].
        apply expand_inv in He' as [(Hr' & _) | (_ & Hc & _)]; [discriminate Hr'|].
        rewrite Hc, Hc0. apply firstn_all. }
    pose proof (BacktraceBuilder_new_Ok _ _ _ Hn)
      as ((Hst & Hbase & _) & _ & _ & Hlen & _).
    assert (Hnew : take (length (chunks s0)) (chunks s2) = chunks s0).
    { unfold BacktraceBuilder_new in Hn.
      apply bind_inv in Hn as [(b1 & s3 & He' & Hn) | (e' & _ & Hr)];
        [|discriminate Hr].
      apply expand_inv in He' as [(_ & -> & _) | (Hr' & _)]; [|discriminate Hr'].
      inversion Hn; subst.
      cbn [expanded_state chunks with_chunks _head chunk_put].
      apply take_app_length. }
    assert (Hfinal : forall s3 : vm,
               take (length (chunks s0)) (chunks s3)
               = take (length (chunks s0)) (chunks s2) ->
               take (length (chunks s)) (chunks s3) = chunks s).
    { intros s3 Hx. rewrite <- Hc0 at 2. rewrite <- Hnew, <- Hx, Hc0. reflexivity. }
    destruct last_Java_frame as [frames|].
    - apply bind_inv in H as [(sg & s3 & Hg & H) | (e & Hg & _)];
        [|discriminate Hg].
      inversion Hg; subst sg s3; clear Hg. cbv beta in H.
      apply bind_inv in H as [(ls & s3 & Hl & H) | (e & Hl & ->)];
        rewrite capture_frames_walk in Hl;
        apply (capture_loop_prefix _ _ _ (loop_start b) _ [] _ _ _ Hpos Hst Hbase)
          in Hl.
      + apply bind_inv in H as [(u3 & s4 & Hm & H) | (e & Hm & _)];
          [|apply modify_inv in Hm as [Hm _]; discriminate Hm].
        apply modify_inv in Hm as [_ ->]. apply modify_inv in H as [_ ->].
        apply Hfinal. exact Hl.
      + apply Hfinal. exact Hl.
    - destruct method as [m|]; [|inversion H; subst; apply Hfinal; reflexivity].
      destruct (1 <=? MaxJavaStackTraceDepth);
        [|inversion H; subst; apply Hfinal; reflexivity].
      apply bind_inv in H as [(b1 & s3 & Hp1 & H) | (e & Hp1 & ->)];
        destruct (push_prefix _ _ _ _ _ _ _ _ Hst Hbase Hp1) as (Hp & _).
      + apply bind_inv in H as [(u3 & s4 & Hm & H) | (e & Hm & _)];
          [|apply modify_inv in Hm as [Hm _]; discriminate Hm].
        apply modify_inv in Hm as [_ ->]. apply modify_inv in H as [_ ->].
        apply Hfinal. exact Hp.
      + apply Hfinal. exact Hp. }
  cbn [elements source_file with_pending_exception] in He, Hsf.
  destruct r; apply Hgoal; assumption.
Qed.

(** ** The source-file cache *)

(** X10: the file name of an element and the source-file cache of its
    class.  For a method of the recorded class version, the second part of
    [fill_in] sets the line number of the method and leaves the element's
    file name and the cache entry of the class equal.  A cache entry that
    is set is trusted as it is, with no allocation request, whatever the
    class now names as its source file; an entry that is not set is
    initialized from the class, at one request; a class without a source
    file gets the entry dumped and a null file name.  The entries of other
    classes are not touched. *)
Theorem fill_in_source_keeps_cache_and_file_name_equal element holder m bci s a :
  (element < length (elements s))%nat ->
  java_mirror holder = Some a ->
  served s 1 ->
  exists s' e,
    fill_in_source element holder (Some m) (constants_version m) bci s = (Ok tt, s')
    /\ elements s' !! element = Some e
    /\ lineNumber e = get_line_number m bci
    /\ fileName e = source_file s' !! a
    /\ match get_source_file_name holder (constants_version m), source_file s !! a with
       | Some x, None => fileName e = Some x /\ allocations s' = S (allocations s)
       | Some _, Some y => fileName e = Some y /\ allocations s' = allocations s
       | None, _ => fileName e = None /\ allocations s' = allocations s
       end
    /\ (forall a', a' <> a -> source_file s' !! a' = source_file s !! a').
Proof.
  intros Hlt Hmirror Hs.
  destruct (lookup_lt_is_Some_2 _ _ Hlt) as [e0 He0].
  unfold fill_in_source, version_matches.
  rewrite Z.eqb_refl, bool_decide_eq_false_2 by discriminate.
  cbn [negb orb]. unfold bind at 1. cbn [get].
  unfold class_source_file. rewrite Hmirror.
  destruct (get_source_file_name holder (constants_version m)) as [x|],
    (source_file s !! a) as [y|] eqn:Hcache.
  - (* the cache is set: trust it *)
    unfold bind, ret, put, modify. eexists _, _. split; [reflexivity|].
    cbn [elements with_elements source_file allocations].
    rewrite !list_lookup_alter_eq, He0. cbn.
    split; [reflexivity|]. split; [reflexivity|]. split; [symmetry; exact Hcache|].
    split; [split; reflexivity|reflexivity].
  - (* the cache is not set: initialize it *)
    unfold intern, bind. rewrite (allocate_served s Hs).
    unfold ret, set_class_source_file, put, modify. eexists _, _. split; [reflexivity|].
    cbn [elements with_elements with_source_file with_allocations source_file
         allocations].
    rewrite !list_lookup_alter_eq, He0. cbn.
    split; [reflexivity|]. split; [reflexivity|].
    split; [rewrite lookup_insert_eq; reflexivity|].
    split; [split; reflexivity|].
    intros a' Hne. apply lookup_insert_ne. congruence.
  - (* the class has no source file: dump the cache *)
    unfold bind, ret, set_class_source_file, put, modify.
    eexists _, _. split; [reflexivity|].
    cbn [elements with_elements with_source_file source_file allocations].
    rewrite !list_lookup_alter_eq, He0. cbn.
    split; [reflexivity|]. split; [reflexivity|].
    split; [rewrite lookup_delete_eq; reflexivity|].
    split; [split; reflexivity|].
    intros a' Hne. apply lookup_delete_ne. congruence.
  - unfold bind, ret, put, modify. eexists _, _. split; [reflexivity|].
    cbn [elements with_elements source_file allocations].
    rewrite !list_lookup_alter_eq, He0. cbn.
    split; [reflexivity|]. split; [reflexivity|]. split; [symmetry; exact Hcache|].
    split; [split; reflexivity|reflexivity].
Qed.

(** ** The builder and the iterator *)

Lemma iterate_store b s rows :
  (0 < trace_chunk_size)%nat ->
  store_holds b s rows ->
  Forall (fun f => java_mirror (method_holder (fst f)) <> None) rows ->
  iterate (S (length rows)) (chunks s) (BacktraceIterator_new (_backtrace b))
  = Some (element_of <$> rows).
Proof.
  intros Hpos (pre & cl & hd & Hc & Hb & _ & Hch) Hnn.
  rewrite Hb, Hc.
  exact (iterate_chain _ _ _ _ _ Hch Hpos Hnn pre eq_refl).
Qed.

(** X11: [push] appends one frame to what the iterator yields.  On a store
    that holds the frames [rows], a [push] that finds room in the head
    chunk, or gets the five allocations of a new chunk served, returns
    normally, and iterating the store from its first chunk then yields the
    elements of [rows] followed by the element of the new frame.  A [push]
    can only fail with [OutOfMemoryError], and only on a full head chunk;
    it then leaves all chunks as they were, and the iterator still yields
    [rows]. *)
Theorem push_appends_one_frame b s rows method bci :
  (0 < trace_chunk_size)%nat ->
  store_holds b s rows ->
  Forall (fun f => java_mirror (method_holder (fst f)) <> None) rows ->
  java_mirror (method_holder method) <> None ->
  ((_index b < trace_chunk_size)%nat \/ served s 5 ->
   exists b' s',
     push b method bci s = (Ok b', s')
     /\ _backtrace b' = _backtrace b
     /\ iterate (S (S (length rows))) (chunks s')
          (BacktraceIterator_new (_backtrace b'))
        = Some (element_of <$> (rows ++ [(method, bci)])))
  /\ (forall e s',
         push b method bci s = (Throw e, s') ->
         e = OutOfMemoryError
         /\ (trace_chunk_size <= _index b)%nat
         /\ chunks s' = chunks s
         /\ iterate (S (length rows)) (chunks s')
              (BacktraceIterator_new (_backtrace b))
            = Some (element_of <$> rows)).
Proof.
  intros Hpos Hst Hnn Hm. split.
  - intros Hroom.
    assert (Hrun : exists b' s', push b method bci s = (Ok b', s')
                                 /\ _backtrace b' = _backtrace b).
    { destruct (Nat.lt_ge_cases (_index b) trace_chunk_size) as [Hlt|Hge].
      - eexists _, _. split; [apply push_in_place; exact Hlt|reflexivity].
      - destruct Hroom as [Hlt|Hs]; [lia|].
        eexists _, _. split; [apply push_expanding; assumption|reflexivity]. }
    destruct Hrun as (b' & s' & Hrun & Hb).
    exists b', s'. split; [exact Hrun|]. split; [exact Hb|].
    destruct (store_holds_push _ _ _ _ _ _ _ Hpos Hst Hrun) as (_ & Hst' & _).
    replace (S (S (length rows))) with (S (length (rows ++ [(method, bci)])))
      by (rewrite length_app; cbn; lia).
    apply iterate_store; [exact Hpos|exact Hst'|].
    apply Forall_app. split; [exact Hnn|]. repeat constructor. exact Hm.
  - intros e s' H.
    apply push_inv in H as
      [(_ & Hr & _) | [(_ & Hr & _) | (Hge & Hr & Hc & _)]];
      try discriminate Hr.
    inversion Hr; subst e. split; [reflexivity|]. split; [exact Hge|].
    split; [exact Hc|]. rewrite Hc. apply iterate_store; assumption.
Qed.

(** ** Elements made from a method *)

Lemma edits_fill_in element holder method version bci name :
  edits (fill_in element holder method version bci name) element
    (fun _ _ e' =>
       declaringClass e' = Some (external_name holder)
       /\ declaringClassObject e' = java_mirror holder
       /\ methodName e' = name
       /\ (version_matches method version = false ->
           fileName e' = None /\ lineNumber e' = -1)
       /\ (forall m, method = Some m -> constants_version m = version ->
           lineNumber e' = get_line_number m bci)).
Proof.
  unfold fill_in.
  eapply edits_weaken.
  - eapply edits_bind; [apply edits_fill_in_names|intros ?].
    apply edits_fill_in_source.
  - cbv beta. intros a e e' (u & e1 & (H1 & H2 & H3 & _) & fn & ln & -> & H6 & H7).
    cbn. auto 10.
Qed.

Lemma fill_in_returns element holder method version bci name s :
  (forall n, alloc_ok n = true) ->
  exists s', fill_in element holder method version bci name s = (Ok tt, s').
Proof.
  intros Hall.
  destruct (fill_in element holder method version bci name s) as [[[]|e] s'] eqn:H.
  - exists s'. reflexivity.
  - exfalso. unfold fill_in in H.
    apply (well_behaved_bind _ _ (well_behaved_fill_in_names _ _ _)
             (fun _ => well_behaved_fill_in_source _ _ _ _ _)) in H as [_ [_ Hna]].
    contradiction.
Qed.

Lemma allocate_instance_handle_inv s r s' :
  allocate_instance_handle s = (r, s') ->
  match r with
  | Ok element =>
      element = length (elements s)
      /\ elements s' = elements s ++ [blank_element]
      /\ chunks s' = chunks s
  | Throw e => e = OutOfMemoryError /\ elements s' = elements s
  end.
Proof.
  unfold allocate_instance_handle. intros H.
  apply bind_inv in H as [(u & s1 & Ha & H) | (e & Ha & ->)];
    apply allocate_inv in Ha as [-> [[Hr E]|[Hr E]]]; try discriminate Hr.
  - unfold bind, get, modify, ret in H. inversion H; subst. repeat split.
  - inversion Hr; subst. repeat split.
Qed.

(** X12: an element created from a method is never degraded.  When
    [java_lang_StackTraceElement::create] returns, the element it returns
    is the newest element object, and it names the class and the method it
    was created from and has the line number of the method at the given
    bci: the version that [create] hands to [fill_in] is the method's own,
    so the test for a redefined method cannot fire.  With the class
    initialized and every allocation request served, [create] returns. *)
Theorem create_describes_the_method_at_its_own_version method bci s :
  (forall element s',
      create method bci s = (Ok element, s') ->
      S element = length (elements s')
      /\ exists e,
           elements s' !! element = Some e
           /\ declaringClass e = Some (external_name (method_holder method))
           /\ declaringClassObject e = java_mirror (method_holder method)
           /\ methodName e = Some (name method)
           /\ lineNumber e = get_line_number method bci)
  /\ (should_be_initialized s = false ->
      (forall n, alloc_ok n = true) ->
      exists s', create method bci s = (Ok (length (elements s)), s')).
Proof.
  split.
  - intros element s' H. unfold create in H.
    apply bind_inv in H as [(s0 & s1 & Hg & H) | (e & Hg & _)]; [|discriminate Hg].
    inversion Hg; subst s0 s1; clear Hg. cbv beta in H.
    apply bind_inv in H as [(u & s1 & _ & H) | (e & _ & Hr)]; [|discriminate Hr].
    apply bind_inv in H as [(el & s2 & Ha & H) | (e & _ & Hr)]; [|discriminate Hr].
    apply allocate_instance_handle_inv in Ha as (-> & He2 & _).
    apply bind_inv in H as [(u' & s3 & Hf & H) | (e & _ & Hr)]; [|discriminate Hr].
    inversion H; subst element s3; clear H.
    destruct u'.
    destruct (edits_fill_in _ _ _ _ _ _ s2 tt s' Hf) as (_ & _ & g & Hg & HQ).
    split.
    + rewrite Hg, length_alter, He2, length_app. cbn. lia.
    + exists (g blank_element).
      destruct (HQ blank_element) as (H1 & H2 & H3 & _ & H5).
      split.
      { rewrite Hg, list_lookup_alter_eq, He2.
        rewrite lookup_app_r by lia. rewrite Nat.sub_diag. reflexivity. }
      split; [exact H1|]. split; [exact H2|]. split; [exact H3|].
      apply (H5 method); reflexivity.
  - intros Hinit Hall. unfold create.
    unfold bind at 1. cbn [get]. rewrite Hinit.
    unfold bind at 1. cbn [ret].
    unfold allocate_instance_handle.
    assert (Hs : served s 1) by (intros i _; apply Hall).
    unfold bind at 1. unfold bind at 1. rewrite (allocate_served s Hs).
    unfold bind at 1. cbn [get]. unfold bind at 1. cbn [modify ret].
    match goal with
    | |- context [fill_in ?el ?h ?m ?v ?b ?n] =>
        match goal with
        | |- context [bind (fill_in el h m v b n) _ ?st] =>
            destruct (fill_in_returns el h m v b n st Hall) as (s' & Hf);
            erewrite bind_Ok by exact Hf
        end
    end.
    exists s'. reflexivity.
Qed.

(** ** Stack frames of the stack walker *)

Lemma to_short_small v : 0 <= v < 32768 -> to_short v = v.
Proof. intros Hv. unfold to_short. rewrite Z.mod_small by lia. lia. Qed.

Lemma to_short_large v : 32768 <= v < 65536 -> to_short v = v - 65536.
Proof.
  intros Hv. unfold to_short.
  replace (v + 32768) with ((v - 32768) + 1 * 65536) by lia.
  rewrite Z_mod_plus_full, Z.mod_small by lia. lia.
Qed.

(** X13: the class version of a stack frame is kept in a [short].
    [set_method_and_bci] stores the version of the method's class cast to
    [short], and [to_stack_trace_element] compares what it reads back with
    the version of the method.  For a frame whose member name resolves to
    the method it was set from, the element gets the method's name; it
    gets the method's line number when the version is below 32768, and a
    null file name and line number -1, as for a redefined method, when the
    version is between 32768 and 65535. *)
Theorem stack_frame_version_is_kept_in_a_short stackFrame method bci s frame s1 element :
  set_method_and_bci stackFrame method bci s = (Ok frame, s1) ->
  vmtarget (memberName frame) = Some method ->
  (element < length (elements s1))%nat ->
  0 <= constants_version method < 65536 ->
  sfi_bci frame = bci
  /\ sfi_version frame = to_short (constants_version method)
  /\ forall u s2,
       to_stack_trace_element frame element s1 = (Ok u, s2) ->
       exists e,
         elements s2 !! element = Some e
         /\ methodName e = Some (name method)
         /\ (constants_version method < 32768 ->
             lineNumber e = get_line_number method bci)
         /\ (32768 <= constants_version method ->
             fileName e = None /\ lineNumber e = -1).
Proof.
  intros Hset Htarget Hlt Hv. unfold set_method_and_bci in Hset.
  apply bind_inv in Hset as [(mname & s0 & _ & Hset) | (e & _ & Hr)];
    [|discriminate Hr].
  inversion Hset; subst frame s0; clear Hset.
  cbn [memberName sfi_bci sfi_version] in *.
  split; [reflexivity|]. split; [reflexivity|].
  intros u s2 H. unfold to_stack_trace_element, get_method in H.
  cbn [memberName sfi_bci sfi_version] in H. rewrite Htarget in H.
  destruct (edits_fill_in _ _ _ _ _ _ s1 u s2 H) as (_ & _ & g & Hg & HQ).
  destruct (lookup_lt_is_Some_2 _ _ Hlt) as [e0 He0].
  exists (g e0). destruct (HQ e0) as (_ & _ & H3 & H4 & H5).
  split; [rewrite Hg, list_lookup_alter_eq, He0; reflexivity|].
  split; [exact H3|]. split.
  - intros Hsmall. apply (H5 method); [reflexivity|].
    rewrite to_short_small by lia. reflexivity.
  - intros Hlarge. apply H4. cbn [version_matches].
    rewrite to_short_large by lia. apply Z.eqb_neq. lia.
Qed.

(** ** The buffer of a printed element *)

Lemma string_length_append (s1 s2 : string) :
  String.length (String.append s1 s2) = (String.length s1 + String.length s2)%nat.
Proof. induction s1 as [|c s1 IH]; simpl; [reflexivity|f_equal; exact IH]. Qed.

(** X14: the line of a stack trace element fits its buffer.  The buffer
    that [print_stack_element_to_stream] allocates, 64 bytes more than the
    names that go into the line, holds the formatted line and its
    terminating zero in every case (module with or without version,
    redefined method, native method, with or without source file and line
    number, with the nmethod in WizardMode), given that a decimal [int]
    takes at most 11 characters and a pointer at most 18; so it does for
    [print_stack_element], which prints a method at its own version. *)
Theorem printed_element_fits_its_buffer mirror method_id version bci name :
  (forall n, (String.length (decimal n) <= 11)%nat) ->
  (forall m nm, code m = Some nm -> (String.length nm <= 18)%nat) ->
  (String.length (snd (print_stack_element_to_stream mirror method_id version bci name))
   + 1
   <= fst (print_stack_element_to_stream mirror method_id version bci name))%nat
  /\ (forall method,
        String.length (snd (print_stack_element method bci)) + 1
        <= fst (print_stack_element method bci))%nat.
Proof.
  intros Hdec Hcode.
  assert (Hany : forall mirror method_id version bci name,
             (String.length
                (snd (print_stack_element_to_stream mirror method_id version bci name))
              + 1
              <= fst (print_stack_element_to_stream mirror method_id version bci name))%nat);
    [|split; [apply Hany|intros method; apply Hany]].
  clear mirror method_id version bci name.
  intros mirror method_id version bci name.
  unfold print_stack_element_to_stream.
  cbn [fst snd].
  destruct (get_source_file_name (as_Klass mirror) version) as [source|];
    destruct (module_is_named (as_Klass mirror));
    try destruct (module_version (as_Klass mirror)) as [mv|];
    destruct (method_with_orig_idnum (as_Klass mirror) method_id version) as [m|];
    try destruct (negb (version_matches (Some m) version));
    try destruct (get_line_number m bci =? -2);
    try destruct (negb (get_line_number m bci =? -1));
    try (destruct (code m) as [nm|] eqn:Hnm; [pose proof (Hcode m nm Hnm)|]);
    try destruct WizardMode;
    try pose proof (Hdec (get_line_number m bci));
    rewrite ?string_length_append; cbn [String.length tab]; lia.
Qed.

(** ** Two ways to a line number *)

(** X15: [decode] and [fill_in] agree on line numbers.  For a frame read
    from a backtrace, the line number that the JVMCI [decode] stores is the
    one that [get_stack_trace_elements] leaves in the element of that
    frame, whatever the constant pool index given to [decode]; and when
    the recorded class version no longer resolves, [decode] stores a null
    file name and line number -1 and the element has a null file name and
    line number -1 too. *)
Theorem decode_agrees_with_fill_in_on_line_numbers bte element cpref s u s' :
  (element < length (elements s))%nat ->
  materialize bte element s = (Ok u, s') ->
  exists e,
    elements s' !! element = Some e
    /\ lineNumber e
       = snd (decode (_mirror bte) (_method_id bte) (_version bte) (_bci bte) cpref)
    /\ (version_matches
          (method_with_orig_idnum (as_Klass (_mirror bte)) (_method_id bte) (_version bte))
          (_version bte) = false ->
        fileName e = None
        /\ snd (fst (decode (_mirror bte) (_method_id bte) (_version bte) (_bci bte) cpref))
           = None
        /\ lineNumber e = -1).
Proof.
  intros Hlt H.
  destruct (edits_materialize bte element s u s' H) as (_ & _ & g & Hg & HQ).
  destruct (lookup_lt_is_Some_2 _ _ Hlt) as [e0 He0].
  exists (g e0). split; [rewrite Hg, list_lookup_alter_eq, He0; reflexivity|].
  destruct (HQ e0) as (_ & _ & _ & _ & _ & Hmis & Hmatch).
  unfold decode.
  destruct (method_with_orig_idnum (as_Klass (_mirror bte)) (_method_id bte)
              (_version bte)) as [m|] eqn:Hm.
  - cbn [version_matches] in *.
    destruct (Z.eqb_spec (constants_version m) (_version bte)) as [Hv|Hv]; cbn [negb snd fst].
    + split; [apply (Hmatch m eq_refl Hv)|]. intros Hf. discriminate Hf.
    + destruct (Hmis eq_refl) as [Hfn Hln]. auto.
  - cbn [version_matches snd fst] in *. destruct (Hmis eq_refl) as [Hfn Hln]. auto.
Qed.

(** ** Class loaders *)

Lemma parent_before heap a p :
  parents_first heap -> parent heap (Some a) = Some p -> (p < a)%nat.
Proof.
  intros Hpf Hp. cbn [parent] in Hp.
  destruct (heap !! a) as [l|] eqn:Hl; [|discriminate Hp].
  eapply Hpf; eassumption.
Qed.

Lemma delegates_to_inv heap a cl :
  delegates_to heap (Some a) cl ->
  cl = parent heap (Some a)
  \/ exists p, parent heap (Some a) = Some p /\ delegates_to heap (Some p) cl.
Proof. inversion 1; subst; eauto. Qed.

Lemma delegates_to_before heap a cl :
  parents_first heap ->
  delegates_to heap (Some a) cl ->
  forall c, cl = Some c -> (c < a)%nat.
Proof.
  intros Hpf H. remember (Some a) as l eqn:Hl. revert a Hl.
  induction H as [a' | a' p cl Hp H IH]; intros a Hl c Hc; inversion Hl; subst a'.
  - eapply parent_before; [exact Hpf|]. rewrite <- Hc. reflexivity.
  - pose proof (parent_before _ _ _ Hpf Hp). pose proof (IH p eq_refl c Hc). lia.
Qed.

Lemma isAncestor_spec heap cl :
  parents_first heap ->
  forall fuel a,
    (a < fuel)%nat ->
    exists b,
      isAncestor fuel heap (Some a) cl = Some b
      /\ (b = true <-> delegates_to heap (Some a) cl).
Proof.
  intros Hpf. induction fuel as [|fuel IH]; intros a Ha; [lia|].
  cbn [isAncestor].
  destruct (bool_decide (cl = parent heap (Some a))) eqn:Heq.
  - apply bool_decide_eq_true_1 in Heq. subst cl.
    exists true. split; [reflexivity|]. split; [intros _; constructor|reflexivity].
  - apply bool_decide_eq_false_1 in Heq.
    destruct (parent heap (Some a)) as [p|] eqn:Hp.
    + rewrite bool_decide_eq_true_2 by discriminate.
      pose proof (parent_before _ _ _ Hpf Hp) as Hlt.
      destruct (IH p ltac:(lia)) as (b & Hrun & Hiff).
      exists b. split; [exact Hrun|]. rewrite Hiff. split.
      * intros H. eapply delegates_further; eassumption.
      * intros H. inversion H as [a' Ha' Hcl | a' p' cl' Hp' H' Ha' Hcl]; subst.
        -- rewrite Hp in Heq. contradiction.
        -- rewrite Hp in Hp'. inversion Hp'; subst. exact H'.
    + rewrite bool_decide_eq_false_2 by (intros H; apply H; reflexivity).
      exists false. split; [reflexivity|]. split; [discriminate|].
      intros H. inversion H as [a' Ha' Hcl | a' p' cl' Hp' H' Ha' Hcl]; subst.
      * rewrite Hp in Heq. contradiction.
      * rewrite Hp in Hp'. discriminate Hp'.
Qed.

Lemma delegates_to_null heap :
  parents_first heap -> forall a, delegates_to heap (Some a) None.
Proof.
  intros Hpf a. induction (lt_wf a) as [a _ IH].
  destruct (parent heap (Some a)) as [p|] eqn:Hp.
  - eapply delegates_further; [exact Hp|]. apply IH.
    eapply parent_before; eassumption.
  - rewrite <- Hp. constructor.
Qed.

(** X16: [isAncestor] walks the line of parents.  On loaders each of which
    was created after its parent, [isAncestor(loader, cl)] returns, within
    one round more than there are loaders before [loader] (for the loader
    at position [a] of the store, every [fuel] above [a] is enough), and
    it returns true exactly when [cl] is the parent of [loader], or the
    parent of its parent, and so on.  The null loader is an ancestor of
    every loader, and no loader is an ancestor of itself. *)
Theorem isAncestor_follows_the_parents heap fuel a cl :
  parents_first heap ->
  (a < fuel)%nat ->
  (exists b, isAncestor fuel heap (Some a) cl = Some b
             /\ (b = true <-> delegates_to heap (Some a) cl))
  /\ isAncestor fuel heap (Some a) None = Some true
  /\ isAncestor fuel heap (Some a) (Some a) = Some false.
Proof.
  intros Hpf Ha. split; [apply isAncestor_spec; assumption|]. split.
  - destruct (isAncestor_spec heap None Hpf fuel a Ha) as (b & Hrun & Hiff).
    rewrite Hrun. f_equal. apply Hiff. apply delegates_to_null. exact Hpf.
  - destruct (isAncestor_spec heap (Some a) Hpf fuel a Ha) as (b & Hrun & Hiff).
    rewrite Hrun. f_equal. destruct b; [|reflexivity].
    pose proof (delegates_to_before heap a (Some a) Hpf (proj1 Hiff eq_refl) a eq_refl).
    lia.
Qed.

Lemma is_trusted_loop_spec heap a :
  parents_first heap ->
  forall fuel c,
    (S c < fuel)%nat ->
    exists b,
      is_trusted_loop fuel heap (Some c) (Some a) = Some b
      /\ (b = true <-> c = a \/ delegates_to heap (Some c) (Some a)).
Proof.
  intros Hpf. induction fuel as [|fuel IH]; intros c Hc; [lia|].
  cbn [is_trusted_loop]. rewrite bool_decide_eq_true_2 by discriminate.
  case_bool_decide as Heq.
  - inversion Heq; subst.
    exists true. split; [reflexivity|]. split; auto.
  - assert (Hne : c <> a) by congruence.
    destruct (parent heap (Some c)) as [p|] eqn:Hp.
    + pose proof (parent_before _ _ _ Hpf Hp) as Hlt.
      destruct (IH p ltac:(lia)) as (b & Hrun & Hiff).
      exists b. split; [exact Hrun|]. rewrite Hiff. split.
      * intros [->|H]; right.
        -- rewrite <- Hp. constructor.
        -- eapply delegates_further; eassumption.
      * intros [H|H]; [contradiction|].
        apply delegates_to_inv in H as [H|(p' & Hp' & H)]; rewrite Hp in *.
        -- inversion H; subst. left. reflexivity.
        -- inversion Hp'; subst. right. exact H.
    + destruct fuel as [|fuel]; [lia|]. cbn [is_trusted_loop].
      rewrite bool_decide_eq_false_2 by (intros H; apply H; reflexivity).
      exists false. split; [reflexivity|]. split; [discriminate|].
      intros [H|H]; [contradiction|].
      apply delegates_to_inv in H as [H|(p' & Hp' & H)]; rewrite Hp in *.
      * discriminate H.
      * discriminate Hp'.
Qed.

Lemma is_trusted_loop_null heap :
  parents_first heap ->
  forall fuel cl,
    match cl with
    | Some c => (S c < fuel)%nat
    | None => (0 < fuel)%nat
    end ->
    is_trusted_loop fuel heap cl None = Some false.
Proof.
  intros Hpf. induction fuel as [|fuel IH]; intros cl Hc.
  - destruct cl; lia.
  - cbn [is_trusted_loop]. destruct cl as [c|].
    + rewrite bool_decide_eq_true_2 by discriminate.
      rewrite bool_decide_eq_false_2 by discriminate.
      apply IH. destruct (parent heap (Some c)) as [p|] eqn:Hp.
      * pose proof (parent_before _ _ _ Hpf Hp). lia.
      * lia.
    + rewrite bool_decide_eq_false_2 by (intros H; apply H; reflexivity).
      reflexivity.
Qed.

(** X17: the loaders that [is_trusted_loader] trusts.  With a system
    loader and loaders each created after its parent, a loader that is not
    a reflection delegating loader is trusted exactly when it is the system
    loader or one of the loaders that the system loader delegates to, its
    parent, the parent of its parent, and so on; the null loader is never
    trusted, although [isAncestor] has it as an ancestor of the system
    loader. *)
Theorem is_trusted_loader_trusts_the_system_loader_and_its_parents heap fuel sys :
  parents_first heap ->
  java_system_loader = Some sys ->
  (S sys < fuel)%nat ->
  is_trusted_loader fuel heap None = Some false
  /\ isAncestor fuel heap (Some sys) None = Some true
  /\ forall a,
       is_reflection_class_loader heap (Some a) = false ->
       exists b,
         is_trusted_loader fuel heap (Some a) = Some b
         /\ (b = true <-> a = sys \/ delegates_to heap (Some sys) (Some a))
         /\ (b = true <->
             a = sys \/ isAncestor fuel heap (Some sys) (Some a) = Some true).
Proof.
  intros Hpf Hsys Hfuel. split; [|split].
  - unfold is_trusted_loader, non_reflection_class_loader.
    cbn [is_reflection_class_loader]. rewrite Hsys.
    apply is_trusted_loop_null; assumption.
  - destruct (isAncestor_spec heap None Hpf fuel sys ltac:(lia)) as (b & Hrun & Hiff).
    rewrite Hrun. f_equal. apply Hiff. apply delegates_to_null. exact Hpf.
  - intros a Hrefl. unfold is_trusted_loader, non_reflection_class_loader.
    rewrite Hrefl, Hsys.
    destruct (is_trusted_loop_spec heap a Hpf fuel sys Hfuel) as (b & Hrun & Hiff).
    exists b. split; [exact Hrun|].
    assert (Hsym : sys = a \/ delegates_to heap (Some sys) (Some a)
                   <-> a = sys \/ delegates_to heap (Some sys) (Some a)).
    { split; intros [H|H]; auto. }
    rewrite Hiff, Hsym. split; [reflexivity|].
    destruct (isAncestor_spec heap (Some a) Hpf fuel sys ltac:(lia))
      as (b' & Hrun' & Hiff').
    rewrite Hrun'. split.
    + intros [H|H]; [left; exact H|right]. f_equal. apply Hiff'. exact H.
    + intros [H|H]; [left; exact H|right]. apply Hiff'. congruence.
Qed.

(** ** Method types *)

Lemma ptypes_differ_below_false pts1 pts2 n :
  ptypes_differ_below pts1 pts2 n = false <->
  forall i, (i < n)%nat -> pts1 !! i = pts2 !! i.
Proof.
  induction n as [|n IH]; cbn [ptypes_differ_below].
  - split; [intros _ i Hi; lia|reflexivity].
  - destruct (bool_decide (pts1 !! n <> pts2 !! n)) eqn:Hd.
    + apply bool_decide_eq_true_1 in Hd. split; [discriminate|].
      intros H. exfalso. apply Hd. apply H. lia.
    + apply bool_decide_eq_false_1 in Hd.
      assert (Heq : pts1 !! n = pts2 !! n).
      { destruct (decide (pts1 !! n = pts2 !! n)); [assumption|contradiction]. }
      rewrite IH. split.
      * intros H i Hi. destruct (decide (i = n)) as [->|]; [exact Heq|]. apply H. lia.
      * intros H i Hi. apply H. lia.
Qed.

(** X18: [java_lang_invoke_MethodType::equals] is equality of the return
    type and of the parameter types.  For two method types of the store it
    always answers, and it answers true exactly when the two have the same
    return type mirror and the same parameter type mirrors in the same
    order, as two references to the same object have. *)
Theorem MethodType_equals_compares_rtype_and_ptypes heap mt1 mt2 t1 t2 :
  heap !! mt1 = Some t1 ->
  heap !! mt2 = Some t2 ->
  exists b,
    java_lang_invoke_MethodType_equals heap mt1 mt2 = Some b
    /\ (b = true <-> rtype t1 = rtype t2 /\ ptypes t1 = ptypes t2).
Proof.
  intros H1 H2. unfold java_lang_invoke_MethodType_equals.
  destruct (bool_decide (mt1 = mt2)) eqn:Hsame.
  - apply bool_decide_eq_true_1 in Hsame. subst mt2.
    rewrite H1 in H2. inversion H2; subst t2.
    exists true. split; [reflexivity|]. split; auto.
  - rewrite H1, H2.
    destruct (bool_decide (rtype t1 <> rtype t2)) eqn:Hr.
    { apply bool_decide_eq_true_1 in Hr. exists false. split; [reflexivity|].
      split; [discriminate|]. intros [Hx _]. contradiction. }
    apply bool_decide_eq_false_1 in Hr.
    assert (Hrt : rtype t1 = rtype t2).
    { destruct (decide (rtype t1 = rtype t2)); [assumption|contradiction]. }
    destruct (bool_decide (length (ptypes t1) <> length (ptypes t2))) eqn:Hl.
    { apply bool_decide_eq_true_1 in Hl. exists false. split; [reflexivity|].
      split; [discriminate|]. intros [_ Hx]. rewrite Hx in Hl. contradiction. }
    apply bool_decide_eq_false_1 in Hl.
    assert (Hlen : length (ptypes t1) = length (ptypes t2)) by lia.
    eexists. split; [reflexivity|].
    rewrite negb_true_iff, ptypes_differ_below_false. split.
    + intros H. split; [exact Hrt|]. apply list_eq. intros i.
      destruct (Nat.lt_ge_cases i (length (ptypes t1))) as [Hi|Hi]; [apply H; exact Hi|].
      rewrite !lookup_ge_None_2 by lia. reflexivity.
    + intros [_ Hx] i _. rewrite Hx. reflexivity.
Qed.

(** ** A capture on a thread without Java frames *)

(** X19: a capture on a thread that has no Java frame yet.  With a
    maximum depth of at least 1 and a method, [fill_in_stack_trace] needs
    the five allocations of one chunk and no more: it appends one chunk
    that holds the method at bci 0, makes it the backtrace of the
    throwable, sets the depth to 1 and clears the stack trace; iterating
    the backtrace yields that one frame. *)
Theorem capture_without_java_frames_records_the_method m s :
  StackTraceInThrowable = true ->
  (0 < trace_chunk_size)%nat ->
  served s 5 ->
  1 <= MaxJavaStackTraceDepth ->
  java_mirror (method_holder m) <> None ->
  exists s',
    fill_in_stack_trace_TRAPS (Some m) None s = (Ok tt, s')
    /\ chunks s' = chunks s ++ [chunk_of [(m, 0)] None None]
    /\ backtrace (throwable s') = Some (length (chunks s))
    /\ depth (throwable s') = 1
    /\ stackTrace (throwable s') = None
    /\ allocations s' = (5 + allocations s)%nat
    /\ iterate 2 (chunks s') (BacktraceIterator_new (backtrace (throwable s')))
       = Some [element_of (m, 0)].
Proof.
  intros HST Hpos Hs Hmax Hm.
  unfold fill_in_stack_trace_TRAPS. rewrite HST. cbn [negb].
  unfold bind at 1. cbn [modify]. unfold bind at 1. cbn [modify].
  set (s0 := with_throwable _ _).
  assert (Hs0 : served s0 5) by exact Hs.
  unfold BacktraceBuilder_new.
  erewrite bind_Ok;
    [|erewrite bind_Ok by (apply expand_served; exact Hs0); reflexivity].
  destruct (Z.leb_spec 1 MaxJavaStackTraceDepth); [|lia].
  erewrite bind_Ok by (apply push_in_place; cbn; exact Hpos).
  unfold bind, modify.
  eexists. split; [reflexivity|].
  assert (Hchunks : forall b,
             _head b = Some (length (chunks s)) -> _index b = 0%nat ->
             chunks (written b m 0
                       (expanded_state
                          {| _backtrace := None; _head := None;
                             _has_hidden_top_frame := None; _index := 0 |} s0))
             = chunks s ++ [chunk_of [(m, 0)] None None]).
  { intros b Hh Hi. cbn [written chunks with_chunks]. rewrite Hh, Hi.
    cbn [expanded_state chunks with_chunks _head chunk_put].
    change (chunks s0) with (chunks s).
    pose proof (alter_app_r (write_frame 0 m (smear 0)) (chunks s) [new_chunk] 0) as Ha.
    rewrite Nat.add_0_r in Ha. rewrite Ha. cbn [alter list_alter].
    rewrite new_chunk_chunk_of.
    pose proof (write_frame_chunk_of [] None None m 0 Hpos) as W.
    change (length (@nil (Method * Z))) with 0%nat in W. rewrite W. reflexivity. }
  cbn [chunks with_throwable throwable set_depth set_backtrace backtrace depth
       stackTrace allocations expanded_builder _backtrace _head advanced].
  match goal with
  | |- context [written ?b m 0 _] => rewrite (Hchunks b eq_refl eq_refl)
  end.
  split; [reflexivity|]. split; [reflexivity|]. split; [reflexivity|].
  split; [reflexivity|]. split; [reflexivity|].
  change (chunks s0) with (chunks s).
  apply (iterate_one_chunk _ _ [(m, 0)] None).
  - rewrite lookup_app_r by lia. rewrite Nat.sub_diag. reflexivity.
  - cbn. lia.
  - exact Hpos.
  - repeat constructor. exact Hm.
Qed.

(** ** Strings *)















(** The first loop stops at the first [from_char]. *)
Lemma first_from_char_spec latin1 a from_char n : forall index,
  let r := first_from_char latin1 a from_char index n in
  (index <= r <= index + n)%nat /\
  (forall j, (index <= j < r)%nat -> jchar_at latin1 a j <> from_char) /\
  ((r < index + n)%nat -> jchar_at latin1 a r = from_char).
Proof.
  induction n as [|n IH]; intros index; cbn zeta.
  - cbn [first_from_char].
    split; [lia | split; [intros j Hj; lia | intros Hlt; lia]].
  - cbn [first_from_char]. cbv zeta.
    destruct (Z.eqb_spec (jchar_at latin1 a index) from_char) as [E|E].
    + split; [lia | split; [intros j Hj; lia | intros _; exact E]].
    + destruct (IH (S index)) as [Hr [Hbefore Hat]].
      split; [lia | split].
      * intros j Hj. destruct (decide (j = index)) as [->|Hne];
          [exact E | apply Hbefore; lia].
      * intros Hlt. apply Hat. lia.
Qed.




Lemma unicode_of_lookup obj j :
  (j < java_lang_String_length obj)%nat ->
  unicode_of obj !! j
  = Some (jchar_at (is_latin1 obj) (default [] (value obj)) j).
Proof.
  intros Hj. unfold unicode_of. cbv zeta.
  rewrite list_lookup_fmap, lookup_seq_lt by exact Hj. reflexivity.
Qed.

Lemma unicode_of_length obj :
  length (unicode_of obj) = java_lang_String_length obj.
Proof. unfold unicode_of. cbv zeta. rewrite length_map, length_seq. reflexivity. Qed.

Lemma elem_of_unicode_of obj c :
  c ∈ unicode_of obj <->
  exists j, (j < java_lang_String_length obj)%nat /\
            jchar_at (is_latin1 obj) (default [] (value obj)) j = c.
Proof.
  split.
  - intros Hin. apply list_elem_of_lookup_1 in Hin as [j Hj].
    assert (Hlt : (j < java_lang_String_length obj)%nat).
    { rewrite <- unicode_of_length. eapply lookup_lt_Some. exact Hj. }
    exists j. split; [exact Hlt|].
    rewrite unicode_of_lookup in Hj by exact Hlt. congruence.
  - intros [j [Hlt <-]]. eapply list_elem_of_lookup_2.
    apply unicode_of_lookup. exact Hlt.
Qed.





(** X21: java_lang_String::char_converter does not copy a string that has
    no [from_char]: it returns the string it was given, and neither the
    store nor the state of the machine changes; no allocation request is
    made. *)
Theorem char_converter_returns_a_string_without_from_char strings
    java_string obj from_char to_char s :
  strings !! java_string = Some obj ->
  from_char ∉ unicode_of obj ->
  char_converter strings java_string from_char to_char s
  = (Ok (strings, java_string), s).
Proof.
  intros Hobj Hnot. unfold char_converter. rewrite Hobj. cbv zeta.
  destruct (first_from_char_spec (is_latin1 obj) (default [] (value obj))
              from_char (java_lang_String_length obj) 0%nat)
    as [Hr [_ Hat]].
  destruct (Nat.eqb_spec
              (first_from_char (is_latin1 obj) (default [] (value obj))
                 from_char 0 (java_lang_String_length obj))
              (java_lang_String_length obj)) as [_|Hne]; [reflexivity|].
  exfalso. apply Hnot. apply elem_of_unicode_of.
  eexists. split; [|apply Hat; lia]. lia.
Qed.


Lemma differs_from_spec latin1 a chars n : forall i,
  differs_from latin1 a chars i n = false <->
  forall j, (i <= j < i + n)%nat ->
    jchar_at latin1 a j = default 0 (chars !! j).
Proof.
  induction n as [|n IH]; intros i.
  - cbn [differs_from]. split; [intros _ j Hj; lia | reflexivity].
  - cbn [differs_from].
    destruct (Z.eqb_spec (jchar_at latin1 a i) (default 0 (chars !! i)))
      as [E|E]; cbn [negb].
    + rewrite IH. split.
      * intros H j Hj. destruct (decide (j = i)) as [->|Hne];
          [exact E | apply H; lia].
      * intros H j Hj. apply H. lia.
    + split; [discriminate|]. intros H. exfalso. apply E. apply H. lia.
Qed.

(** X23: java_lang_String::equals(oop, const jchar*, int) is true exactly
    for the characters of the string, whichever its coder: given [len]
    characters, it returns true when they are the characters of the string
    and false otherwise. *)
Theorem equals_compares_the_characters java_string chars len :
  length chars = len ->
  java_lang_String_equals_chars java_string chars len = true <->
  unicode_of java_string = chars.
Proof.
  intros Hlen. unfold java_lang_String_equals_chars. cbv zeta.
  destruct (Nat.eqb_spec (java_lang_String_length java_string) len)
    as [E|E]; cbn [negb].
  - rewrite negb_true_iff, differs_from_spec. split.
    + intros H. apply list_eq. intros j.
      destruct (decide (j < len)%nat) as [Hj|Hj].
      * rewrite unicode_of_lookup by lia. rewrite (H j) by lia.
        destruct (lookup_lt_is_Some_2 chars j ltac:(lia)) as [c Hc].
        rewrite Hc. reflexivity.
      * rewrite !lookup_ge_None_2;
          [reflexivity | lia | rewrite unicode_of_length; lia].
    + intros H j Hj. rewrite <- H.
      rewrite unicode_of_lookup by lia. reflexivity.
  - split; [discriminate|]. intros H. exfalso. apply E.
    rewrite <- unicode_of_length, H. exact Hlen.
Qed.





(** ** The elision states and the hidden marker over a capture pass *)

(** A pass over [pre ++ post] is the pass over [pre], gone on with over
    [post]. *)
Lemma capture_loop_app max_depth klass pre post :
  forall ls s,
    capture_loop max_depth klass (pre ++ post) ls s
    = (ls1 <- capture_loop max_depth klass pre ls ;;
       capture_loop max_depth klass post ls1) s.
Proof.
  induction pre as [|[method bci] pre IH]; intros ls s.
  - cbn [app]. unfold bind. cbn [capture_loop].
    destruct (below_max_depth max_depth ls); reflexivity.
  - cbn [app capture_loop]. destruct (below_max_depth max_depth ls) eqn:Hc.
    + unfold bind at 1 2 3.
      destruct (filter_and_push klass method bci ls s) as [[ls2|e] s2];
        [apply IH | reflexivity].
    + unfold bind, ret. rewrite capture_loop_stopped by exact Hc. reflexivity.
Qed.

(** While an elision state is true no frame has been recorded, so the loop
    is below every maximum depth. *)
Lemma below_max_depth_0 max_depth ls :
  total_count ls = 0 -> below_max_depth max_depth ls = true.
Proof.
  intros H. unfold below_max_depth. rewrite H.
  destruct (Z.eqb_spec max_depth 0); reflexivity.
Qed.

(** The two flags after a pass over [pre]: the check of the filler rule is
    still made exactly when every frame so far was a filler frame, that of
    the constructor rule exactly when every frame so far was elided. *)
Lemma capture_loop_states max_depth klass pre :
  forall ls s ls1 s1,
    (skip_throwableInit_check ls = false -> total_count ls = 0) ->
    (skip_fillInStackTrace_check ls = false ->
     skip_throwableInit_check ls = false) ->
    capture_loop max_depth klass pre ls s = (Ok ls1, s1) ->
    (skip_fillInStackTrace_check ls1 = false <->
     skip_fillInStackTrace_check ls = false
     /\ Forall (fun f => is_fillInStackTrace_of klass (fst f) = true) pre)
    /\ (skip_throwableInit_check ls1 = false <->
        skip_throwableInit_check ls = false
        /\ after_elision (skip_fillInStackTrace_check ls) false klass pre = []).
Proof.
  induction pre as [|[method bci] pre IH]; intros ls s ls1 s1 I1 I2 H.
  - cbn [capture_loop] in H.
    assert (ls1 = ls) as -> by (destruct (below_max_depth _ _); inversion H; auto).
    split.
    + split; [intros E; split; [exact E | constructor] | intros [E _]; exact E].
    + split; [intros E; split; [exact E|] | intros [E _]; exact E].
      unfold after_elision. destruct (skip_fillInStackTrace_check ls); reflexivity.
  - cbn [capture_loop] in H.
    destruct (below_max_depth max_depth ls) eqn:Hc.
    2:{ inversion H; subst ls1 s1; clear H.
        assert (Hi : skip_throwableInit_check ls = true).
        { destruct (skip_throwableInit_check ls) eqn:E; [reflexivity|].
          rewrite below_max_depth_0 in Hc by (apply I1; reflexivity).
          discriminate Hc. }
        assert (Hf : skip_fillInStackTrace_check ls = true).
        { destruct (skip_fillInStackTrace_check ls) eqn:E; [reflexivity|].
          rewrite I2 in Hi by reflexivity. discriminate Hi. }
        rewrite Hi, Hf.
        split; (split; [discriminate | intros [E _]; discriminate E]). }
    apply bind_inv in H as [(ls2 & s2 & Hf & H) | (e & _ & Hr)]; [|discriminate Hr].
    rewrite after_elision_cons.
    unfold filter_and_push in Hf.
    destruct (negb (skip_fillInStackTrace_check ls)
              && is_fillInStackTrace_of klass method) eqn:E1.
    { (* elided by the filler rule *)
      inversion Hf; subst ls2 s2; clear Hf.
      apply andb_true_iff in E1 as [E1 Em]. apply negb_true_iff in E1.
      destruct (IH _ _ _ _ I1 I2 H) as [H1 H2]. split.
      - rewrite H1. rewrite Forall_cons. cbn [fst].
        split; [intros [E HF]; auto | intros [E [_ HF]]; auto].
      - exact H2. }
    cbn [skip_fillInStackTrace_check skip_throwableInit_check total_count bt] in Hf.
    assert (Hnot : skip_fillInStackTrace_check ls = false ->
                   ~ Forall (fun f => is_fillInStackTrace_of klass (fst f) = true)
                       ((method, bci) :: pre)).
    { intros E HF. apply Forall_cons in HF as [HF _]. cbn [fst] in HF.
      rewrite E, HF in E1. discriminate E1. }
    destruct (negb (skip_throwableInit_check ls) && is_init_of klass method) eqn:E2.
    { (* elided by the constructor rule *)
      inversion Hf; subst ls2 s2; clear Hf.
      apply IH in H as [H1 H2];
        cbn [skip_fillInStackTrace_check skip_throwableInit_check total_count] in *;
        [|exact I1|discriminate].
      apply andb_true_iff in E2 as [_ Ei]. rewrite Ei. cbn [negb andb].
      split.
      - rewrite H1. split; [intros [E _]; discriminate E|].
        intros [E HF]. exfalso. exact (Hnot E HF).
      - exact H2. }
    (* the frame gets to the test of [is_hidden] *)
    assert (Hflags : skip_fillInStackTrace_check ls2 = true
                     /\ skip_throwableInit_check ls2 = true
                     /\ exists s3, capture_loop max_depth klass pre ls2 s3
                                   = (Ok ls1, s1)).
    { destruct (is_hidden method && negb ShowHiddenFrames).
      - destruct (total_count ls =? 0).
        + apply bind_inv in Hf as [(b & s3 & _ & Hf) | (e & _ & Hr)];
            [|discriminate Hr].
          inversion Hf; subst. eauto.
        + inversion Hf; subst. eauto.
      - apply bind_inv in Hf as [(b & s3 & _ & Hf) | (e & _ & Hr)];
          [|discriminate Hr].
        inversion Hf; subst. eauto. }
    destruct Hflags as (F1 & F2 & s3 & H').
    apply IH in H' as [H1 H2];
      [|rewrite F2; discriminate|rewrite F1; discriminate].
    rewrite F1 in H1. rewrite F2 in H2. split.
    + split; [intros E; apply H1 in E as [E _]; discriminate E|].
      intros [E HF]. exfalso. exact (Hnot E HF).
    + split; [intros E; apply H2 in E as [E _]; discriminate E|].
      intros [E HA]. rewrite E in E2. cbn [negb andb] in E2, HA.
      rewrite E2 in HA. discriminate HA.
Qed.

(** C6: the two elision states are monotone within one capture pass.  For
    a pass over the frames of a thread, with the builder the capture has
    made for it and no allocation failing, and for every point of the
    pass, [pre] being the frames before it and [post] those from it on:
    both states start true; when the pass comes to [post], "still skipping
    fillers" is true exactly if every frame so far was a filler frame, and
    "still skipping constructors" exactly if every frame so far was elided,
    fillers first and then constructors, so each state is false from the
    first frame on that its rule looks at and does not match; a state that
    is false at this point is false at every later point of the pass, its
    end included; and when the next frame matches a rule whose state is
    false, it is not elided: unless it is hidden and suppressed, or the
    maximum depth has been reached, the store holds it at the end of the
    pass, after the frames recorded before it. *)
Theorem elision_states_monotone max_depth klass frames pre post s0 b s :
  (0 < trace_chunk_size)%nat ->
  (forall n, alloc_ok n = true) ->
  BacktraceBuilder_new s0 = (Ok b, s) ->
  walk frames = pre ++ post ->
  exists ls1 s1 ls' s',
    capture_frames max_depth klass frames (loop_start b) s = (Ok ls', s')
    /\ capture_loop max_depth klass pre (loop_start b) s = (Ok ls1, s1)
    /\ capture_loop max_depth klass post ls1 s1 = (Ok ls', s')
    /\ still_skipping_fillers (loop_start b) = true
    /\ still_skipping_constructors (loop_start b) = true
    /\ (still_skipping_fillers ls1 = true <->
        Forall (fun f => is_fillInStackTrace_of klass (fst f) = true) pre)
    /\ (still_skipping_constructors ls1 = true <->
        after_elision false false klass pre = [])
    /\ (forall mid rest ls2 s2,
          post = mid ++ rest ->
          capture_loop max_depth klass mid ls1 s1 = (Ok ls2, s2) ->
          (still_skipping_fillers ls1 = false ->
           still_skipping_fillers ls2 = false)
          /\ (still_skipping_constructors ls1 = false ->
              still_skipping_constructors ls2 = false))
    /\ (forall method bci post',
          post = (method, bci) :: post' ->
          (still_skipping_fillers ls1 = false
           /\ is_fillInStackTrace_of klass method = true)
          \/ (still_skipping_constructors ls1 = false
              /\ is_init_of klass method = true) ->
          suppressed (method, bci) = false ->
          below_max_depth max_depth ls1 = true ->
          exists rows1 rows2,
            store_holds (bt ls1) s1 rows1
            /\ store_holds (bt ls') s' (rows1 ++ (method, bci) :: rows2)).
Proof.
  intros Hpos Hall Hnew Hsplit.
  apply BacktraceBuilder_new_inv in Hnew as (_ & Hst & _).
  destruct (capture_loop max_depth klass pre (loop_start b) s)
    as [r1 s1] eqn:Hpre.
  pose proof (capture_loop_spec _ _ _ (loop_start b) _ [] _ _ Hpos Hst Hpre)
    as (_ & Hr1).
  destruct r1 as [ls1|e]; [|destruct Hr1 as [_ Hna]; contradiction].
  cbn [loop_start total_count skip_fillInStackTrace_check
       skip_throwableInit_check app] in Hr1.
  cbv zeta in Hr1. destruct Hr1 as [Hst1 Hcount1].
  destruct (capture_loop max_depth klass post ls1 s1) as [r' s'] eqn:Hpost.
  pose proof (capture_loop_spec _ _ _ _ _ _ _ _ Hpos Hst1 Hpost) as (_ & Hr').
  destruct r' as [ls'|e]; [|destruct Hr' as [_ Hna]; contradiction].
  cbv zeta in Hr'. destruct Hr' as [Hst' _].
  exists ls1, s1, ls', s'.
  split.
  { rewrite capture_frames_walk, Hsplit, capture_loop_app.
    unfold bind. rewrite Hpre. exact Hpost. }
  split; [reflexivity|]. split; [exact Hpost|].
  split; [reflexivity|]. split; [reflexivity|].
  destruct (capture_loop_states max_depth klass pre (loop_start b) s ls1 s1
              (fun _ => eq_refl) (fun _ => eq_refl) Hpre) as [H1 H2].
  cbn [loop_start skip_fillInStackTrace_check skip_throwableInit_check] in H1, H2.
  unfold still_skipping_fillers, still_skipping_constructors.
  split; [rewrite negb_true_iff, H1; split; [intros [_ HF]; exact HF | auto]|].
  split; [rewrite negb_true_iff, H2; split; [intros [_ HA]; exact HA | auto]|].
  split.
  { intros mid rest ls2 s2 _ Hmid.
    apply capture_loop_flags in Hmid as [K1 K2].
    rewrite !negb_false_iff. split; assumption. }
  intros method bci post' -> Hcase Hsup Hbelow.
  rewrite !negb_false_iff in Hcase.
  exists (selected max_depth klass pre 0 false false),
         (selected max_depth klass post' (total_count ls1 + 1) true true).
  split; [exact Hst1|].
  replace (selected max_depth klass ((method, bci) :: post') (total_count ls1)
             (skip_fillInStackTrace_check ls1) (skip_throwableInit_check ls1))
    with ((method, bci)
          :: selected max_depth klass post' (total_count ls1 + 1) true true)
    in Hst'; [exact Hst'|].
  cbn [selected]. unfold below_max_depth in Hbelow. rewrite Hbelow.
  unfold suppressed in Hsup. cbn [fst] in Hsup. rewrite Hsup.
  destruct Hcase as [[Hf Hm] | [Hc Hm]].
  - rewrite Hf. cbn [negb andb].
    rewrite (fillInStackTrace_is_no_init _ _ Hm), andb_false_r. reflexivity.
  - rewrite Hc, (init_is_no_fillInStackTrace _ _ Hm), andb_false_r.
    cbn [negb andb]. reflexivity.
Qed.

(** With hidden-frame suppression enabled the frames it drops are the
    hidden ones. *)
Lemma survivors_not_hidden klass frames :
  ShowHiddenFrames = false ->
  survivors klass frames
  = List.filter (fun f => negb (is_hidden (fst f)))
      (after_elision false false klass frames).
Proof.
  intros Hshow. unfold survivors. rewrite survivors_from_elision.
  apply List.filter_ext. intros f. unfold suppressed. rewrite Hshow.
  cbn [negb]. rewrite andb_true_r. reflexivity.
Qed.

Lemma within_depth_Forall {A} (P : A -> Prop) max_depth (l : list A) :
  Forall P l -> Forall P (within_depth max_depth l).
Proof.
  intros H. unfold within_depth.
  destruct (max_depth =? 0); [exact H | apply Forall_take; exact H].
Qed.

(** C7: hidden frames in a fresh capture with hidden-frame suppression
    enabled, none of whose allocations fails.  Of the frames that get past
    the elision of fillers and constructors, the capture records those
    that are not hidden, up to the maximum depth: no hidden frame is in
    the store.  The hidden marker of the store, in its first chunk, is set
    exactly when the first frame that gets past the elision is hidden,
    which is when a hidden frame comes to the test of [is_hidden] before
    any frame has been recorded.  A hidden frame that one of the two rules
    elides, and one that comes after a recorded frame, is dropped and
    sets no marker. *)
Theorem hidden_frames_dropped_and_top_marked method frames s :
  ShowHiddenFrames = false ->
  StackTraceInThrowable = true ->
  (0 < trace_chunk_size)%nat ->
  (forall n, alloc_ok n = true) ->
  0 <= MaxJavaStackTraceDepth ->
  exists s' a c,
    fill_in_stack_trace_TRAPS method (Some frames) s = (Ok tt, s')
    /\ let seen := after_elision false false (t_klass (throwable s))
                     (walk frames) in
       let rows := within_depth MaxJavaStackTraceDepth
                     (List.filter (fun f => negb (is_hidden (fst f))) seen) in
       trace_holds s' rows
       /\ Forall (fun f => is_hidden (fst f) = false) rows
       /\ backtrace (throwable s') = Some a
       /\ chunks s' !! a = Some c
       /\ (c_hidden c <> None <->
           exists f rest, seen = f :: rest /\ is_hidden (fst f) = true).
Proof.
  intros Hshow HST Hpos Hall Hmax.
  destruct (fill_in_stack_trace_TRAPS method (Some frames) s) as [r s'] eqn:H.
  pose proof (fill_in_stack_trace_TRAPS_spec _ _ _ _ _ HST Hpos H)
    as (_ & _ & _ & _ & _ & Hr).
  destruct r as [[]|e]; [|destruct Hr as (_ & _ & _ & Hna); contradiction].
  cbn [captured] in Hr.
  apply fill_in_stack_trace_TRAPS_top in H as (b & Hat & Hbt & _ & _ & _ & Hiff);
    [|exact HST|exact Hpos].
  cbv zeta in Hat, Hiff.
  rewrite selected_within_depth, survivors_not_hidden in Hr by assumption.
  destruct Hat as (_ & _ & Hmark & _).
  destruct (chunks s' !! length (chunks s)) as [c|] eqn:Hc; [|discriminate Hmark].
  cbn in Hmark. injection Hmark as Hmark.
  exists s', (length (chunks s)), c. split; [reflexivity|]. cbv zeta.
  split; [exact Hr|]. split.
  { apply within_depth_Forall. apply Forall_forall. intros f Hf.
    apply list_elem_of_In, List.filter_In in Hf as [_ Hf].
    apply negb_true_iff in Hf. exact Hf. }
  split; [exact Hbt|]. split; [exact Hc|].
  rewrite Hmark, Hiff. unfold top_frame_hidden, top_frame_hidden_from.
  destruct (after_elision false false (t_klass (throwable s)) (walk frames))
    as [|f rest].
  - split; [discriminate|]. intros (f & rest & E & _). discriminate E.
  - unfold suppressed. rewrite Hshow. cbn [negb]. rewrite andb_true_r. split.
    + intros E. exists f, rest. split; [reflexivity | exact E].
    + intros (f' & rest' & E & Hh). injection E as <- _. exact Hh.
Qed.

End Backtrace.

(** * Instances *)

(** [vm1] and [vm_full] are states the code reaches. *)
Lemma vm1_reached :
  BacktraceBuilder_new 32 always_served vm0 = (Ok builder0, vm1).
Proof. vm_compute. reflexivity. Qed.

Lemma vm_full_reached :
  push_times 32 sample_merge always_served 32 m_main 0 builder0 vm1
  = (Ok builder_full, vm_full).
Proof. vm_compute. reflexivity. Qed.

Lemma expand_links_previous_head_to_new_witness :
  served always_served vm1 5
  /\ exists b' s',
      expand 32 always_served builder0 vm1 = (Ok b', s')
      /\ _head b' = Some (length (chunks vm1))
      /\ _index b' = 0%nat
      /\ _backtrace b' = _backtrace builder0
      /\ length (chunks s') = S (length (chunks vm1))
      /\ chunks s' !! length (chunks vm1) = Some (new_chunk 32)
      /\ next_chunk (chunks s') (_head b') = None
      /\ (forall old, _head builder0 = Some old -> (old < length (chunks vm1))%nat ->
            next_chunk (chunks s') (Some old) = _head b')
      /\ (forall a, Some a <> _head builder0 -> (a < length (chunks vm1))%nat ->
            chunks s' !! a = chunks vm1 !! a).
Proof.
  assert (H : served always_served vm1 5) by (intros i _; reflexivity).
  split; [exact H|].
  exact (expand_links_previous_head_to_new 32 always_served builder0 vm1 H).
Defined.

(** C3, as stated, fails: the chunk that [expand] adds to the store of
    [builder0] has no next chunk, where the claim wants the previous head,
    and the store's handle stays at chunk 0. *)
Lemma expand_new_to_previous_fails :
  ~ expand_links_new_to_previous 32 always_served builder0 vm1.
Proof.
  intros H.
  destruct (H (expanded_builder builder0 vm1)
              (expanded_state 32 builder0 vm1)) as [Hnext _].
  - vm_compute. reflexivity.
  - vm_compute in Hnext. discriminate Hnext.
Qed.

Lemma push_expands_at_capacity_witness :
  (32 <= _index builder_full)%nat
  /\ served always_served vm_full 5
  /\ exists b' s',
       push 32 sample_merge always_served builder_full m_main 0 vm_full = (Ok b', s')
       /\ _head b' = Some (length (chunks vm_full))
       /\ _index b' = 1%nat
       /\ allocations s' = (5 + allocations vm_full)%nat
       /\ chunks s'
          = chunk_put (set_c_next (Some (length (chunks vm_full))))
              (_head builder_full) (chunks vm_full)
            ++ [write_frame sample_merge 0 m_main (smear 0) (new_chunk 32)].
Proof.
  assert (Hi : (32 <= _index builder_full)%nat) by (cbn; lia).
  assert (H : served always_served vm_full 5) by (intros i _; reflexivity).
  split; [exact Hi|]. split; [exact H|].
  exact (proj2 (push_expands_at_capacity 32 sample_merge always_served
                  builder_full m_main 0 vm_full) Hi H).
Defined.

(** C4, as stated, fails: on a full head chunk [push] does not write at the
    cursor of that chunk, it allocates a new chunk and makes it the head. *)
Lemma push_at_capacity_expands :
  ~ push_only_writes_at_cursor 32 sample_merge always_served
      builder_full m_main 0 vm_full.
Proof.
  intros H.
  destruct (push 32 sample_merge always_served builder_full m_main 0 vm_full)
    as [r s'] eqn:E.
  vm_compute in E. inversion E; subst; clear E.
  unfold push_only_writes_at_cursor in H.
  edestruct H as [Hhead _].
  - vm_compute. reflexivity.
  - vm_compute in Hhead. discriminate Hhead.
Qed.

Lemma set_has_hidden_top_frame_idempotent_witness :
  _has_hidden_top_frame (marked builder0 vm1) <> None
  /\ set_has_hidden_top_frame always_served (marked builder0 vm1) (marked_state builder0 vm1)
     = (Ok (marked builder0 vm1), marked_state builder0 vm1).
Proof.
  assert (H : _has_hidden_top_frame (marked builder0 vm1) <> None) by (cbn; congruence).
  split; [exact H|].
  exact (proj2 (set_has_hidden_top_frame_idempotent always_served
                  (marked builder0 vm1) (marked_state builder0 vm1)) H).
Defined.

(** The sample capture, run: the two frames of [Main] survive, innermost
    first; the 33 frames of the deep recursion fill one chunk and start a
    second one. *)
Example sample_capture :
  let s' := snd (fill_in_stack_trace_TRAPS 32 sample_merge always_served true 1024
                   false sample_is_subtype_of None (Some sample_stack) vm0) in
  depth (throwable s') = 2
  /\ backtrace (throwable s') = Some 0%nat
  /\ iterate 32 sample_bci_at sample_version_at 3 (chunks s')
       (BacktraceIterator_new (backtrace (throwable s')))
     = Some [ {| _method_id := 6; _bci := 7; _version := 0;
                 _name := Some "run"%string; _mirror := Some 3%nat |};
              {| _method_id := 5; _bci := 3; _version := 0;
                 _name := Some "main"%string; _mirror := Some 3%nat |} ].
Proof. vm_compute. repeat split; reflexivity. Qed.

Example deep_capture :
  let s' := snd (fill_in_stack_trace_TRAPS 32 sample_merge always_served true 0
                   false sample_is_subtype_of None (Some deep_stack) vm0) in
  depth (throwable s') = 33
  /\ length (chunks s') = 2%nat
  /\ (length <$> iterate 32 sample_bci_at sample_version_at 34 (chunks s')
                   (BacktraceIterator_new (backtrace (throwable s'))))
     = Some 33%nat.
Proof. vm_compute. repeat split; reflexivity. Qed.

Example hidden_top_capture :
  let s' := snd (fill_in_stack_trace_TRAPS 32 sample_merge always_served true 1024
                   false sample_is_subtype_of None (Some hidden_top_stack) vm0) in
  depth (throwable s') = 1
  /\ (c_hidden <$> chunks s' !! 0%nat) = Some (Some 0%nat).
Proof. vm_compute. repeat split; reflexivity. Qed.

Example capture_of_97_frames :
  let s' := snd (fill_in_stack_trace_TRAPS 32 sample_merge always_served true 0
                   false sample_is_subtype_of None (Some stack_of_97) vm0) in
  depth (throwable s') = 97
  /\ ((fun c => length (c_mirrors c)) <$> chunks s') = [32; 32; 32; 32]%nat
  /\ (c_next <$> chunks s') = [Some 1; Some 2; Some 3; None]%nat
  /\ (c_mirrors <$> chunks s' !! 3%nat)
     = Some (Some 3%nat :: replicate 31 None).
Proof. vm_compute. repeat split; reflexivity. Qed.

(** The sample capture, extracted into an array of two elements. *)
Example sample_extraction :
  let s' := snd (fill_in_stack_trace_TRAPS 32 sample_merge always_served true 1024
                   false sample_is_subtype_of None (Some sample_stack) vm0) in
  let r := get_stack_trace_elements 32 sample_bci_at sample_version_at always_served
             sample_as_Klass sample_resolve sample_line_number
             sample_source_file_name 3 (Some (throwable s'))
             (Some [Some 0%nat; Some 1%nat])
             (with_elements s' [blank_element; blank_element]) in
  (fst <$> r) = Some (Ok tt)
  /\ ((fun x => (fun e => (methodName e, fileName e, lineNumber e)) <$> elements (snd x))
        <$> r)
     = Some [ (Some "run"%string, Some "Main.java"%string, 107);
              (Some "main"%string, Some "Main.java"%string, 103) ].
Proof. vm_compute. split; reflexivity. Qed.

(** With stack traces disabled nothing happens. *)
Example capture_disabled :
  fill_in_stack_trace 32 sample_merge always_served false 1024 false
    sample_is_subtype_of always_fill None (Some sample_stack) vm0 = vm0.
Proof. reflexivity. Qed.

Lemma fresh_capture_depth_and_iteration_witness :
  exists s',
    fill_in_stack_trace_TRAPS 32 sample_merge always_served true 1024 false
      sample_is_subtype_of None (Some sample_stack) vm0 = (Ok tt, s')
    /\ let kept := survivors false sample_is_subtype_of (t_klass (throwable vm0))
                     (walk sample_stack) in
       depth (throwable s') = Z.of_nat (length kept)
       /\ iterate 32 sample_bci_at sample_version_at (S (length kept)) (chunks s')
            (BacktraceIterator_new (backtrace (throwable s')))
          = Some (element_of sample_merge sample_bci_at sample_version_at <$> kept).
Proof.
  apply (fresh_capture_depth_and_iteration 32 sample_merge sample_bci_at
           sample_version_at always_served true 1024 false sample_is_subtype_of
           None sample_stack vm0).
  - reflexivity.
  - lia.
  - intros n. reflexivity.
  - cbn. repeat (constructor; [discriminate|]). constructor.
  - cbn. lia.
Defined.

Lemma no_frame_capture_unlimited_depth_witness :
  exists s',
    fill_in_stack_trace_TRAPS 32 sample_merge always_served true 0 false
      sample_is_subtype_of (Some m_main) None vm0 = (Ok tt, s')
    /\ backtrace (throwable s') = None
    /\ depth (throwable s') = depth (throwable vm0).
Proof.
  apply (no_frame_capture_unlimited_depth_records_nothing 32 sample_merge
           always_served true 0 false sample_is_subtype_of m_main vm0).
  - reflexivity.
  - lia.
  - intros n. reflexivity.
  - reflexivity.
Defined.

(** With any other maximum depth the method is recorded. *)
Example no_frame_capture_depth_1 :
  let s' := snd (fill_in_stack_trace_TRAPS 32 sample_merge always_served true 1
                   false sample_is_subtype_of (Some m_main) None vm0) in
  depth (throwable s') = 1 /\ backtrace (throwable s') = Some 0%nat.
Proof. vm_compute. split; reflexivity. Qed.

(** A capture in which no allocation is served, under a pending exception. *)
Lemma capture_suppresses_failures_witness :
  let s := with_pending_exception vm0 (Some NullPointerException) in
  let s' := fill_in_stack_trace 32 sample_merge never_served true 1024 false
              sample_is_subtype_of always_fill None (Some sample_stack) s in
  pending_exception s' = Some NullPointerException
  /\ backtrace (throwable s') = None.
Proof.
  intros s s'.
  assert (Hpos : (0 < 32)%nat) by lia.
  destruct (capture_suppresses_failures 32 sample_merge never_served true 1024
              false sample_is_subtype_of always_fill None (Some sample_stack) s Hpos)
    as (Hp & _ & _ & _ & Hfail).
  split; [exact Hp|].
  refine (proj1 (Hfail eq_refl eq_refl OutOfMemoryError _ _)).
  vm_compute. reflexivity.
Defined.

(** A pass over [refill_stack], looked at when it comes to the second
    frame of [fillInStackTrace]: [Main.main] has turned both states false,
    and the frame is recorded. *)
Lemma elision_states_monotone_witness :
  exists ls' s' rows1 rows2,
    capture_frames 32 sample_merge always_served false sample_is_subtype_of
      1024 2 refill_stack (loop_start builder0) vm1 = (Ok ls', s')
    /\ still_skipping_fillers ls' = false
    /\ store_holds 32 sample_merge (bt ls') s'
         (rows1 ++ (m_fillInStackTrace, 0) :: rows2).
Proof.
  destruct (elision_states_monotone 32 sample_merge always_served false
              sample_is_subtype_of 1024 2 refill_stack
              [(m_fillInStackTrace, 0); (m_init, 4); (m_main, 3)]
              [(m_fillInStackTrace, 0); (m_init, 4); (m_run, 7)]
              vm0 builder0 vm1)
    as (ls1 & s1 & ls' & s' & Hrun & Hpre & Hpost & _ & _ & _ & _ & Kf & Hlater).
  - lia.
  - intros n. reflexivity.
  - vm_compute. reflexivity.
  - reflexivity.
  - vm_compute in Hpre. injection Hpre as <- _.
    destruct (Hlater m_fillInStackTrace 0 _ eq_refl) as (rows1 & rows2 & _ & Hst).
    + left. split; reflexivity.
    + reflexivity.
    + reflexivity.
    + exists ls', s', rows1, rows2.
      split; [exact Hrun|]. split; [|exact Hst].
      apply (proj1 (Kf _ [] ls' s' (eq_sym (app_nil_r _)) Hpost)). reflexivity.
Defined.

(** The capture of [hidden_top_stack]: the hidden frame of the method
    handle is the first to get past the elision, and the marker is set. *)
Lemma hidden_frames_dropped_and_top_marked_witness :
  exists s' a c,
    fill_in_stack_trace_TRAPS 32 sample_merge always_served true 1024 false
      sample_is_subtype_of None (Some hidden_top_stack) vm0 = (Ok tt, s')
    /\ backtrace (throwable s') = Some a
    /\ chunks s' !! a = Some c
    /\ c_hidden c <> None.
Proof.
  destruct (hidden_frames_dropped_and_top_marked 32 sample_merge always_served
              true 1024 false sample_is_subtype_of None hidden_top_stack vm0
              eq_refl eq_refl)
    as (s' & a & c & Hrun & _ & _ & Ha & Hc & Hiff).
  - lia.
  - intros n. reflexivity.
  - lia.
  - exists s', a, c. split; [exact Hrun|]. split; [exact Ha|].
    split; [exact Hc|]. apply (proj2 Hiff).
    exists (m_invoke, 2), [(m_main, 3)]. split; reflexivity.
Defined.

(** C7, as stated, fails: on [hidden_init_stack] the hidden constructor
    comes before any frame has been recorded, the frame of
    [fillInStackTrace] before it being elided, but the constructor rule
    elides it before the test of [is_hidden]: the capture records
    [Main.main] and the marker of the store stays null. *)
Lemma hidden_init_sets_no_marker :
  ~ hidden_frame_before_first_record_marks 32 sample_merge always_served true
      1024 false sample_is_subtype_of None hidden_init_stack vm0.
Proof.
  intros H.
  destruct (H eq_refl [(m_fillInStackTrace, 0)] (m_hidden_init, 4)
              [(m_main, 3)]
              (snd (fill_in_stack_trace_TRAPS 32 sample_merge always_served
                      true 1024 false sample_is_subtype_of None
                      (Some hidden_init_stack) vm0)))
    as (a & c & Ha & Hc & Hm).
  - reflexivity.
  - reflexivity.
  - vm_compute. reflexivity.
  - vm_compute. reflexivity.
  - vm_compute in Ha. injection Ha as <-.
    vm_compute in Hc. injection Hc as <-.
    apply Hm. reflexivity.
Qed.

Example hidden_init_capture :
  let s' := snd (fill_in_stack_trace_TRAPS 32 sample_merge always_served true 1024
                   false sample_is_subtype_of None (Some hidden_init_stack) vm0) in
  depth (throwable s') = 1
  /\ (c_hidden <$> chunks s' !! 0%nat) = Some None
  /\ boxes s' = 0%nat.
Proof. vm_compute. repeat split; reflexivity. Qed.

Lemma redefined_frame_degrades_witness :
  exists e,
    elements (snd (materialize always_served sample_as_Klass resolves_nothing
                     sample_line_number sample_source_file_name
                     bte_main 0 vm_element)) !! 0%nat = Some e
    /\ fileName e = None /\ lineNumber e = -1.
Proof.
  assert (Hlt : (0 < length (elements vm_element))%nat) by (cbn; lia).
  assert (Heq : materialize always_served sample_as_Klass resolves_nothing
                  sample_line_number sample_source_file_name bte_main 0 vm_element
                = (Ok tt, snd (materialize always_served sample_as_Klass
                                 resolves_nothing sample_line_number
                                 sample_source_file_name bte_main 0 vm_element)))
    by (vm_compute; reflexivity).
  destruct (redefined_frame_degrades always_served sample_as_Klass resolves_nothing
              sample_line_number sample_source_file_name bte_main 0 vm_element
              _ _ Hlt Heq) as (e & He & Hnone & _).
  exists e. split; [exact He|]. apply Hnone. reflexivity.
Defined.

Lemma extraction_checks_handles_and_length_witness :
  get_stack_trace_elements 32 sample_bci_at sample_version_at always_served
    sample_as_Klass resolves_nothing sample_line_number sample_source_file_name
    1 (Some new_throwable) (Some [None]) vm0
  = Some (Throw IndexOutOfBoundsException, vm0).
Proof.
  apply (proj1 (proj2
           (extraction_checks_handles_and_length 32 sample_bci_at sample_version_at
              always_served sample_as_Klass resolves_nothing sample_line_number
              sample_source_file_name 1 (Some new_throwable) (Some [None]) vm0))
           new_throwable [None]).
  - reflexivity.
  - reflexivity.
  - cbn. discriminate.
Defined.

(** C8, as stated, fails: a throwable that was never given a backtrace has
    a null store and depth 0; extraction into an array of length 0 returns
    without an error. *)
Lemma extraction_of_null_backtrace_returns :
  ~ extraction_signals_error 32 sample_bci_at sample_version_at always_served
      sample_as_Klass resolves_nothing sample_line_number sample_source_file_name
      1 (Some new_throwable) (Some []) vm0.
Proof.
  intros H. destruct H as (e & s' & Heq).
  - right. right. exists new_throwable. split; reflexivity.
  - vm_compute in Heq. discriminate Heq.
Qed.

(** A preallocated error thrown in the deep recursion, with no allocation
    request served: the 32 innermost frames are recorded. *)
Lemma preallocated_fill_records_without_allocating_witness :
  let s := with_throwable vm1 (set_backtrace new_throwable (Some 0%nat)) in
  exists s',
    fill_in_stack_trace_of_preallocated_backtrace 32 sample_merge never_served true
      (Some 7%nat) deep_stack s = (Ok tt, s')
    /\ depth (throwable s') = 32
    /\ stackTrace (throwable s') = Some 7%nat
    /\ allocations s' = allocations s.
Proof.
  intros s.
  destruct (preallocated_fill_records_without_allocating 32 sample_merge sample_bci_at
              sample_version_at never_served true (Some 7%nat) deep_stack s 0%nat)
    as (s' & Hrun & Hd & Hst & _ & Ha & _).
  - reflexivity.
  - lia.
  - reflexivity.
  - reflexivity.
  - cbn. repeat (constructor; [discriminate|]). constructor.
  - exists s'. split; [exact Hrun|]. split; [exact Hd|]. split; [exact Hst|exact Ha].
Defined.

Lemma allocate_backtrace_prepares_fill_witness :
  exists s1 s2,
    allocate_backtrace 32 always_served true vm0 = (Ok tt, s1)
    /\ fill_in_stack_trace_of_preallocated_backtrace 32 sample_merge always_served true
         (Some 7%nat) sample_stack s1 = (Ok tt, s2)
    /\ allocations s2 = 5%nat
    /\ depth (throwable s2) = 5.
Proof.
  assert (Hs : served always_served vm0 5) by (intros i _; reflexivity).
  assert (Hpos : (0 < 32)%nat) by lia.
  assert (Hnn : Forall (fun f => java_mirror (method_holder (fst f)) <> None)
                  (walk sample_stack)).
  { cbn. repeat (constructor; [discriminate|]). constructor. }
  destruct (proj1 (allocate_backtrace_prepares_fill 32 sample_merge sample_bci_at
                     sample_version_at always_served true (Some 7%nat) sample_stack vm0
                     eq_refl Hpos Hnn) Hs)
    as (s1 & s2 & Hrun & _ & _ & _ & Hfill & Ha & _ & Hd & _).
  exists s1, s2. split; [exact Hrun|]. split; [exact Hfill|]. split; [exact Ha|exact Hd].
Defined.

(** The deep recursion captured with a maximum depth of 10. *)
Lemma capture_keeps_innermost_frames_within_max_depth_witness :
  exists s',
    fill_in_stack_trace_TRAPS 32 sample_merge always_served true 10 false
      sample_is_subtype_of None (Some deep_stack) vm0 = (Ok tt, s')
    /\ depth (throwable s') = 10
    /\ iterate 32 sample_bci_at sample_version_at 11 (chunks s')
         (BacktraceIterator_new (backtrace (throwable s')))
       = Some (replicate 10
                 {| _method_id := 5; _bci := 3; _version := 0;
                    _name := Some "main"%string; _mirror := Some 3%nat |}).
Proof.
  destruct (capture_keeps_innermost_frames_within_max_depth 32 sample_merge
              sample_bci_at sample_version_at always_served true 10 false
              sample_is_subtype_of None deep_stack vm0)
    as (s' & Hrun & Hd & _ & Hi).
  - reflexivity.
  - lia.
  - intros n. reflexivity.
  - cbn. repeat (constructor; [discriminate|]). constructor.
  - lia.
  - exists s'. split; [exact Hrun|]. split; [exact Hd|exact Hi].
Defined.

(** A stack of 97 frames takes four chunks and twenty allocation
    requests. *)
Lemma capture_allocates_chunks_as_needed_witness :
  exists s',
    fill_in_stack_trace_TRAPS 32 sample_merge always_served true 0 false
      sample_is_subtype_of None (Some stack_of_97) vm0 = (Ok tt, s')
    /\ depth (throwable s') = 97
    /\ length (chunks s') = 4%nat
    /\ allocations s' = 20%nat
    /\ boxes s' = 0%nat.
Proof.
  destruct (capture_allocates_chunks_as_needed 32 sample_merge always_served true 0
              false sample_is_subtype_of None stack_of_97 vm0)
    as (s' & Hrun & Hd & Hl & Ha & Hb).
  - reflexivity.
  - lia.
  - intros n. reflexivity.
  - lia.
  - exists s'. split; [exact Hrun|]. split; [exact Hd|]. split; [exact Hl|].
    split; [exact Ha|exact Hb].
Defined.

(** The exception of [hidden_top_stack] was created in a hidden frame:
    there is no top method to answer with. *)
Lemma top_method_of_a_capture_skips_hidden_top_witness :
  exists s',
    fill_in_stack_trace_TRAPS 32 sample_merge always_served true 1024 false
      sample_is_subtype_of None (Some hidden_top_stack) vm0 = (Ok tt, s')
    /\ get_top_method_and_bci 32 sample_bci_at sample_version_at sample_as_Klass
         sample_resolve (throwable s') s' = None.
Proof.
  destruct (top_method_of_a_capture_skips_hidden_top 32 sample_merge sample_bci_at
              sample_version_at always_served true 1024 false sample_is_subtype_of
              sample_as_Klass sample_resolve None hidden_top_stack vm0)
    as (s' & Hrun & Htop).
  - reflexivity.
  - lia.
  - intros n. reflexivity.
  - cbn. repeat (constructor; [discriminate|]). constructor.
  - lia.
  - exists s'. split; [exact Hrun|exact Htop].
Defined.

Lemma get_top_method_and_bci_sound_witness :
  let s' := snd (fill_in_stack_trace_TRAPS 32 sample_merge always_served true 1024
                   false sample_is_subtype_of None (Some deep_stack) vm0) in
  get_top_method_and_bci 32 sample_bci_at sample_version_at sample_as_Klass
    sample_resolve (throwable s') s' = Some (m_main, 3)
  /\ exists a c,
       backtrace (throwable s') = Some a
       /\ chunks s' !! a = Some c
       /\ c_hidden c = None.
Proof.
  intros s'.
  assert (H : get_top_method_and_bci 32 sample_bci_at sample_version_at sample_as_Klass
                sample_resolve (throwable s') s' = Some (m_main, 3))
    by (vm_compute; reflexivity).
  split; [exact H|].
  destruct (get_top_method_and_bci_sound 32 sample_bci_at sample_version_at
              sample_as_Klass sample_resolve (throwable s') s' m_main 3 H)
    as (a & c & Hbt & Hc & Hhid & _).
  exists a, c. auto.
Defined.

(** The sample capture extracted into two fresh elements: the second one
    describes [Main.main]. *)
Lemma extraction_fills_each_element_from_its_frame_witness :
  exists s1 s2 e,
    fill_in_stack_trace_TRAPS 32 sample_merge always_served true 1024 false
      sample_is_subtype_of None (Some sample_stack) vm0 = (Ok tt, s1)
    /\ get_stack_trace_elements 32 sample_bci_at sample_version_at always_served
         sample_as_Klass sample_resolve sample_line_number sample_source_file_name
         3 (Some (throwable s1)) (Some [Some 0%nat; Some 1%nat])
         (with_elements s1 [blank_element; blank_element]) = Some (Ok tt, s2)
    /\ elements s2 !! 1%nat = Some e
    /\ methodName e = Some "main"%string
    /\ lineNumber e = 103.
Proof.
  destruct (extraction_fills_each_element_from_its_frame 32 sample_merge sample_bci_at
              sample_version_at always_served true 1024 false sample_is_subtype_of
              sample_as_Klass sample_resolve sample_line_number sample_source_file_name
              None sample_stack vm0)
    as (s1 & Hrun & Hget).
  - reflexivity.
  - lia.
  - intros n. reflexivity.
  - cbn. repeat (constructor; [discriminate|]). constructor.
  - lia.
  - destruct (Hget [blank_element; blank_element] [0%nat; 1%nat])
      as (s2 & Hrun2 & _ & _ & _ & Hfill & _).
    + reflexivity.
    + apply (bool_decide_unpack _). vm_compute. exact I.
    + repeat constructor.
    + destruct (Hfill 1%nat (m_main, 3) 1%nat eq_refl eq_refl)
        as (e & He & _ & _ & Hname & _ & _ & _ & Hline).
      exists s1, s2, e. split; [exact Hrun|]. split; [exact Hrun2|].
      split; [exact He|]. split; [exact Hname|].
      exact (Hline m_main eq_refl eq_refl).
Defined.

(** The same capture extracted into an array whose second entry is null:
    the first element has been filled when the exception is raised. *)
Lemma extraction_stops_at_a_null_element_witness :
  exists s1 s2 e,
    fill_in_stack_trace_TRAPS 32 sample_merge always_served true 1024 false
      sample_is_subtype_of None (Some sample_stack) vm0 = (Ok tt, s1)
    /\ get_stack_trace_elements 32 sample_bci_at sample_version_at always_served
         sample_as_Klass sample_resolve sample_line_number sample_source_file_name
         3 (Some (throwable s1)) (Some [Some 0%nat; None])
         (with_elements s1 [blank_element; blank_element])
       = Some (Throw NullPointerException, s2)
    /\ elements s2 !! 0%nat = Some e
    /\ methodName e = Some "run"%string.
Proof.
  destruct (extraction_stops_at_a_null_element 32 sample_merge sample_bci_at
              sample_version_at always_served true 1024 false sample_is_subtype_of
              sample_as_Klass sample_resolve sample_line_number sample_source_file_name
              None sample_stack vm0)
    as (s1 & Hrun & Hget).
  - reflexivity.
  - lia.
  - intros n. reflexivity.
  - cbn. repeat (constructor; [discriminate|]). constructor.
  - lia.
  - destruct (Hget [blank_element; blank_element] [0%nat] [])
      as (s2 & Hrun2 & _ & _ & Hfill & _).
    + reflexivity.
    + apply (bool_decide_unpack _). vm_compute. exact I.
    + repeat constructor.
    + destruct (Hfill 0%nat (m_run, 7) 0%nat eq_refl eq_refl)
        as (e & He & _ & _ & Hname & _).
      exists s1, s2, e. split; [exact Hrun|]. split; [exact Hrun2|].
      split; [exact He|exact Hname].
Defined.

(** A capture on a heap that holds the full chunk of another trace. *)
Lemma capture_leaves_existing_chunks_alone_witness :
  let s' := fill_in_stack_trace 32 sample_merge always_served true 1024 false
              sample_is_subtype_of always_fill None (Some deep_stack) vm_full in
  length (chunks s') = 3%nat
  /\ chunks s' !! 0%nat = Some full_chunk32.
Proof.
  intros s'.
  assert (Hpos : (0 < 32)%nat) by lia.
  destruct (capture_leaves_existing_chunks_alone 32 sample_merge always_served true
              1024 false sample_is_subtype_of always_fill None (Some deep_stack)
              vm_full Hpos) as (_ & Hkeep & _).
  split; [vm_compute; reflexivity|].
  apply Hkeep. reflexivity.
Defined.

(** A cache entry that names another file than the class now does is
    trusted all the same. *)
Lemma fill_in_source_keeps_cache_and_file_name_equal_witness :
  let s := with_source_file vm_element (<[3%nat := "Old.java"%string]> ∅) in
  exists s' e,
    fill_in_source always_served sample_line_number sample_source_file_name
      0 Main_klass (Some m_main) 0 3 s = (Ok tt, s')
    /\ elements s' !! 0%nat = Some e
    /\ lineNumber e = 103
    /\ fileName e = Some "Old.java"%string
    /\ allocations s' = allocations s.
Proof.
  intros s.
  destruct (fill_in_source_keeps_cache_and_file_name_equal always_served
              sample_line_number sample_source_file_name 0 Main_klass m_main 3 s 3)
    as (s' & e & Hrun & He & Hline & _ & Hcase & _).
  - cbn. lia.
  - reflexivity.
  - intros i _. reflexivity.
  - exists s', e. split; [exact Hrun|]. split; [exact He|]. split; [exact Hline|].
    exact Hcase.
Defined.

(** A thirty-third frame pushed on the full chunk of [vm_full]. *)
Lemma push_appends_one_frame_witness :
  exists b' s',
    push 32 sample_merge always_served builder_full m_run 7 vm_full = (Ok b', s')
    /\ _backtrace b' = _backtrace builder_full
    /\ iterate 32 sample_bci_at sample_version_at 34 (chunks s')
         (BacktraceIterator_new (_backtrace b'))
       = Some (element_of sample_merge sample_bci_at sample_version_at
                 <$> (replicate 32 (m_main, 0) ++ [(m_run, 7)])).
Proof.
  assert (Hpos : (0 < 32)%nat) by lia.
  assert (Hst : store_holds 32 sample_merge builder_full vm_full
                  (replicate 32 (m_main, 0))).
  { exists [], [full_chunk32], 0%nat. split; [reflexivity|]. split; [reflexivity|].
    split; [reflexivity|].
    exact (chain_last 32 sample_merge 0%nat (replicate 32 (m_main, 0)) None
             (Nat.le_refl 32)). }
  assert (Hnn : Forall (fun f => java_mirror (method_holder (fst f)) <> None)
                  (replicate 32 (m_main, 0))).
  { apply Forall_replicate. discriminate. }
  assert (Hm : java_mirror (method_holder m_run) <> None) by discriminate.
  apply (proj1 (push_appends_one_frame 32 sample_merge sample_bci_at sample_version_at
                  always_served builder_full vm_full (replicate 32 (m_main, 0))
                  m_run 7 Hpos Hst Hnn Hm)).
  right. intros i _. reflexivity.
Defined.

(** An element created for [Main.main] at bci 3. *)
Lemma create_describes_the_method_at_its_own_version_witness :
  exists s' e,
    create always_served sample_line_number sample_source_file_name is_initialized
      (ret tt) m_main 3 vm_element = (Ok 1%nat, s')
    /\ elements s' !! 1%nat = Some e
    /\ methodName e = Some "main"%string
    /\ lineNumber e = 103.
Proof.
  destruct (create_describes_the_method_at_its_own_version always_served
              sample_line_number sample_source_file_name is_initialized (ret tt)
              m_main 3 vm_element) as (Hany & Hreturns).
  destruct Hreturns as (s' & Hrun).
  - reflexivity.
  - intros n. reflexivity.
  - destruct (Hany _ _ Hrun) as (_ & e & He & _ & _ & Hname & Hline).
    exists s', e. split; [exact Hrun|]. split; [exact He|].
    split; [exact Hname|exact Hline].
Defined.

(** A frame of a method whose class is at version 40000: the version comes
    back as -25536, and the element is filled in as for a redefined
    method. *)
Lemma stack_frame_version_is_kept_in_a_short_witness :
  exists frame s2 e,
    set_method_and_bci sample_init_method_MemberName blank_frame m_main_40000 3
      vm_element = (Ok frame, vm_element)
    /\ sfi_version frame = -25536
    /\ to_stack_trace_element always_served sample_as_Klass sample_line_number
         sample_source_file_name frame 0 vm_element = (Ok tt, s2)
    /\ elements s2 !! 0%nat = Some e
    /\ fileName e = None
    /\ lineNumber e = -1.
Proof.
  pose (frame := {| memberName := {| vmtarget := Some m_main_40000;
                                     clazz := Some 3%nat |};
                    sfi_bci := 3; sfi_version := to_short 40000 |}).
  assert (Hset : set_method_and_bci sample_init_method_MemberName blank_frame
                   m_main_40000 3 vm_element = (Ok frame, vm_element))
    by reflexivity.
  assert (Hlt : (0 < length (elements vm_element))%nat) by (cbn; lia).
  assert (Hv : 0 <= constants_version m_main_40000 < 65536) by (cbn; lia).
  destruct (stack_frame_version_is_kept_in_a_short always_served sample_as_Klass
              sample_line_number sample_source_file_name sample_init_method_MemberName
              blank_frame m_main_40000 3 vm_element frame vm_element 0%nat
              Hset eq_refl Hlt Hv) as (_ & Hversion & Hfill).
  pose (s2 := snd (to_stack_trace_element always_served sample_as_Klass
                     sample_line_number sample_source_file_name frame 0 vm_element)).
  assert (Hrun : to_stack_trace_element always_served sample_as_Klass
                   sample_line_number sample_source_file_name frame 0 vm_element
                 = (Ok tt, s2)) by (vm_compute; reflexivity).
  destruct (Hfill tt s2 Hrun) as (e & He & _ & _ & Hlarge).
  exists frame, s2, e. split; [exact Hset|]. split; [exact Hversion|].
  split; [exact Hrun|]. split; [exact He|].
  apply Hlarge. cbn. lia.
Defined.

Lemma digits_length fuel :
  forall n acc, (String.length (digits fuel n acc) <= fuel + String.length acc)%nat.
Proof.
  induction fuel as [|fuel IH]; intros n acc; cbn [digits].
  - lia.
  - destruct (n / 10 =? 0).
    + cbn [String.length]. lia.
    + etransitivity; [apply IH|]. cbn [String.length]. lia.
Qed.

Lemma sample_decimal_length n : (String.length (sample_decimal n) <= 11)%nat.
Proof.
  unfold sample_decimal. destruct (n <? 0).
  - rewrite string_length_append. cbn [String.length].
    pose proof (digits_length 10 (- n) EmptyString) as H.
    cbn [String.length] in H. lia.
  - pose proof (digits_length 10 n EmptyString) as H. cbn [String.length] in H. lia.
Qed.

(** The line of [Main.run] at bci 7: 31 characters and the terminating
    zero in a buffer of 84. *)
Lemma printed_element_fits_its_buffer_witness :
  print_stack_element_to_stream sample_as_Klass sample_resolve sample_line_number
    sample_source_file_name sample_decimal false not_compiled (Some 3%nat) 6 0 7 "run"
  = (84%nat, String.append tab "at app.Main.run(Main.java:107)")
  /\ (31 + 1 <= 84)%nat.
Proof.
  split; [vm_compute; reflexivity|].
  assert (Hcode : forall (m : Method) (nm : string),
             not_compiled m = Some nm -> (String.length nm <= 18)%nat)
    by (intros m nm Hnm; discriminate Hnm).
  pose proof (proj1 (printed_element_fits_its_buffer sample_as_Klass sample_resolve
                       sample_line_number sample_source_file_name sample_decimal false
                       not_compiled (Some 3%nat) 6 0 7 "run" sample_decimal_length
                       Hcode)) as H.
  vm_compute in H. exact H.
Defined.

(** [Main.main] at bci 3: line 103 either way. *)
Lemma decode_agrees_with_fill_in_on_line_numbers_witness :
  exists s' e,
    materialize always_served sample_as_Klass sample_resolve sample_line_number
      sample_source_file_name bte_main 0 vm_element = (Ok tt, s')
    /\ elements s' !! 0%nat = Some e
    /\ lineNumber e = 103
    /\ snd (decode sample_as_Klass sample_resolve sample_line_number
              (fun _ _ => "main"%string) (fun holder _ => holder)
              (fun _ => Some "Main.java"%string) (Some 3%nat) 5 0 3 17) = 103.
Proof.
  pose (s' := snd (materialize always_served sample_as_Klass sample_resolve
                     sample_line_number sample_source_file_name bte_main 0 vm_element)).
  assert (Hrun : materialize always_served sample_as_Klass sample_resolve
                   sample_line_number sample_source_file_name bte_main 0 vm_element
                 = (Ok tt, s')) by (vm_compute; reflexivity).
  assert (Hlt : (0 < length (elements vm_element))%nat) by (cbn; lia).
  destruct (decode_agrees_with_fill_in_on_line_numbers always_served sample_as_Klass
              sample_resolve sample_line_number sample_source_file_name
              (fun _ _ => "main"%string) (fun holder _ => holder)
              (fun _ => Some "Main.java"%string) bte_main 0%nat 17 vm_element tt s'
              Hlt Hrun) as (e & He & Hline & _).
  exists s', e. split; [exact Hrun|]. split; [exact He|].
  split; [rewrite Hline|]; reflexivity.
Defined.

Lemma sample_loaders_parents_first : parents_first sample_loaders.
Proof.
  intros a l p Hl Hp.
  destruct a as [|[|[|a]]]; cbn in Hl; inversion Hl; subst l; cbn in Hp;
    inversion Hp; lia.
Qed.

Lemma isAncestor_follows_the_parents_witness :
  isAncestor 3 sample_loaders (Some 2%nat) None = Some true
  /\ isAncestor 3 sample_loaders (Some 2%nat) (Some 2%nat) = Some false.
Proof.
  assert (Hfuel : (2 < 3)%nat) by lia.
  exact (proj2 (isAncestor_follows_the_parents sample_loaders 3 2 None
                  sample_loaders_parents_first Hfuel)).
Defined.

(** The application's loader is not trusted, the platform loader is. *)
Lemma is_trusted_loader_trusts_the_system_loader_and_its_parents_witness :
  is_trusted_loader sample_is_subtype_of (Some 1%nat) None 3 sample_loaders None
  = Some false
  /\ is_trusted_loader sample_is_subtype_of (Some 1%nat) None 3 sample_loaders
       (Some 0%nat) = Some true
  /\ is_trusted_loader sample_is_subtype_of (Some 1%nat) None 3 sample_loaders
       (Some 2%nat) = Some false.
Proof.
  assert (Hfuel : (2 < 3)%nat) by lia.
  destruct (is_trusted_loader_trusts_the_system_loader_and_its_parents
              sample_is_subtype_of (Some 1%nat) None sample_loaders 3 1
              sample_loaders_parents_first eq_refl Hfuel) as (Hnull & _ & Hany).
  split; [exact Hnull|]. split.
  - destruct (Hany 0%nat eq_refl) as (b & Hrun & _ & Hiff).
    rewrite Hrun. f_equal. apply Hiff. right. reflexivity.
  - destruct (Hany 2%nat eq_refl) as (b & Hrun & _ & Hiff).
    rewrite Hrun. f_equal. destruct b; [|reflexivity].
    destruct (proj1 Hiff eq_refl) as [H|H]; [lia|]. vm_compute in H. discriminate H.
Defined.

Lemma MethodType_equals_compares_rtype_and_ptypes_witness :
  java_lang_invoke_MethodType_equals sample_method_types 0 1 = Some true
  /\ java_lang_invoke_MethodType_equals sample_method_types 0 2 = Some false.
Proof.
  split.
  - destruct (MethodType_equals_compares_rtype_and_ptypes sample_method_types 0 1
                _ _ eq_refl eq_refl) as (b & Hrun & Hiff).
    rewrite Hrun. f_equal. apply Hiff. split; reflexivity.
  - vm_compute. reflexivity.
Defined.

Lemma capture_without_java_frames_records_the_method_witness :
  exists s',
    fill_in_stack_trace_TRAPS 32 sample_merge always_served true 1 false
      sample_is_subtype_of (Some m_main) None vm0 = (Ok tt, s')
    /\ depth (throwable s') = 1
    /\ allocations s' = 5%nat
    /\ iterate 32 sample_bci_at sample_version_at 2 (chunks s')
         (BacktraceIterator_new (backtrace (throwable s')))
       = Some [element_of sample_merge sample_bci_at sample_version_at (m_main, 0)].
Proof.
  destruct (capture_without_java_frames_records_the_method 32 sample_merge
              sample_bci_at sample_version_at always_served true 1 false
              sample_is_subtype_of m_main vm0)
    as (s' & Hrun & _ & _ & Hd & _ & Ha & Hi).
  - reflexivity.
  - lia.
  - intros i _. reflexivity.
  - lia.
  - discriminate.
  - exists s'. split; [exact Hrun|]. split; [exact Hd|]. split; [exact Ha|exact Hi].
Defined.


(** ["a/b"] has no ['.']. *)
Lemma char_converter_returns_a_string_without_from_char_witness :
  char_converter always_served true true (sample_strings true) 0 46 47 vm0
  = (Ok (sample_strings true, 0%nat), vm0).
Proof.
  apply (char_converter_returns_a_string_without_from_char always_served
           true true (sample_strings true) 0 _ 46 47 vm0 eq_refl).
  apply (bool_decide_unpack _). vm_compute. exact I.
Defined.


(** ["a/b"] as a latin1 and as an UTF16 string. *)
Lemma equals_compares_the_characters_witness :
  java_lang_String_equals_chars true
    {| value := Some [97; 47; 98]; coder := CODER_LATIN1 |} [97; 47; 98] 3
  = true
  /\ java_lang_String_equals_chars true
       {| value := Some [97; 0; 47; 0; 98; 0]; coder := CODER_UTF16 |}
       [97; 47; 98] 3
     = true.
Proof.
  split;
    apply (equals_compares_the_characters true _ [97; 47; 98] 3 eq_refl);
    vm_compute; reflexivity.
Defined.

